(** * GNU m4: debug.c (trace output) and utility.c (argument checks, diagnostics)

    A shallow embedding of the two translation units.  C strings are Rocq
    [string]s holding the bytes in front of the terminating NUL; every
    function that scans a C string stops at the first NUL it meets, as the C
    code does.  C [int]s are [Z].  Globals and the parts of the outside world
    the functions touch (streams, the file system, the diagnostic stream) are
    fields of an explicit state record. *)

From Stdlib Require Import ZArith String Ascii List Bool Lia DecimalString.
Import ListNotations.

Local Open Scope string_scope.
Local Open Scope Z_scope.

(** ** C strings *)

Module CStr.

Definition NUL : ascii := Ascii.zero.

Definition is_nul (c : ascii) : bool := Ascii.eqb c NUL.

(** The bytes of [s] in front of its first NUL: what a C function that is
    handed [s] can see of it. *)
Fixpoint c_str (s : string) : string :=
  match s with
  | EmptyString => EmptyString
  | String c r => if is_nul c then EmptyString else String c (c_str r)
  end.

Definition strlen (s : string) : Z := Z.of_nat (String.length (c_str s)).

(** [memcpy]-style prefix: the first [n] bytes of [s]. *)
Definition take (n : Z) (s : string) : string := substring 0 (Z.to_nat n) s.

Fixpoint chars (s : string) : list ascii :=
  match s with
  | EmptyString => []
  | String c r => c :: chars r
  end.

(** [s] holds no NUL byte. *)
Definition nul_free (s : string) : bool := forallb (fun c => negb (is_nul c)) (chars s).

(** [*s == '\0'] *)
Definition starts_nul (s : string) : bool :=
  match s with
  | EmptyString => true
  | String c _ => is_nul c
  end.

Definition newline : string := String (ascii_of_nat 10) EmptyString.

(** An argument handed to a variadic, printf-like function. *)
Inductive vararg : Type :=
| va_string (s : string)
| va_int (d : Z).

(** [sprintf (nbuf, "%d", d)] *)
Definition sprintf_d (d : Z) : string := NilZero.string_of_int (Z.to_int d).

End CStr.
Import CStr.

(** ** debug.c *)

Module Debug.

(** The [M4_DEBUG_TRACE_*] masks come from a header that is not part of the
    two translation units; they are taken as parameters. *)
Class DebugFlags : Type := {
  M4_DEBUG_TRACE_ARGS : Z;
  M4_DEBUG_TRACE_EXPANSION : Z;
  M4_DEBUG_TRACE_QUOTE : Z;
  M4_DEBUG_TRACE_ALL : Z;
  M4_DEBUG_TRACE_LINE : Z;
  M4_DEBUG_TRACE_FILE : Z;
  M4_DEBUG_TRACE_PATH : Z;
  M4_DEBUG_TRACE_CALL : Z;
  M4_DEBUG_TRACE_INPUT : Z;
  M4_DEBUG_TRACE_CALLID : Z;
  M4_DEBUG_TRACE_VERBOSE : Z;
  M4_DEBUG_TRACE_DEFAULT : Z
}.

(** [FILE *] values other than [NULL]. *)
Inductive stream : Type :=
| stderr
| stdout
| opened (h : nat).

Definition stream_eqb (a b : stream) : bool :=
  match a, b with
  | stderr, stderr => true
  | stdout, stdout => true
  | opened h, opened k => Nat.eqb h k
  | _, _ => false
  end.

(** A nullable [FILE *]. *)
Definition FILE_ptr : Type := option stream.

(** [struct stat], reduced to the two fields debug.c compares. *)
Record stat : Type := { st_ino : Z; st_dev : Z }.

(** Arguments of a macro call as [m4_trace_pre] sees them. *)
Inductive m4_token_data : Type :=
| M4_TOKEN_TEXT (text : string)
| M4_TOKEN_FUNC (func : nat)
| M4_TOKEN_VOID.

(** What debug.c reads and never writes: globals owned by the rest of m4,
    and the answers of the C library and the file system. *)
Record env : Type := {
  debug_level : Z;
  max_debug_argument_length : Z;
  lquote : string;                                (* lquote.string *)
  rquote : string;                                (* rquote.string *)
  m4_current_file : string;
  m4_current_line : Z;
  m4_expansion_level : Z;
  m4_builtin_find_by_func : nat -> option string; (* the name of the builtin found, None: NULL *)
  fopen_result : string -> string -> option nat;  (* what fopen (name, mode) answers *)
  fstat_result : stream -> option stat            (* fstat (fileno (fp), &buf), None: < 0 *)
}.

(** What debug.c writes: its two globals and its calls into the C library. *)
Record state : Type := {
  m4_debug : FILE_ptr;                  (* the global FILE pointer m4_debug *)
  trace : string;                       (* the object growing on obstack [trace] *)
  fopen_log : list (string * string);   (* fopen calls made: (name, mode) *)
  fclose_log : list stream;             (* fclose calls made *)
  written : list (FILE_ptr * string)    (* text sent to the debug destination *)
}.

Definition set_m4_debug (fp : FILE_ptr) (st : state) : state :=
  {| m4_debug := fp; trace := trace st; fopen_log := fopen_log st;
     fclose_log := fclose_log st; written := written st |}.

Definition set_trace (t : string) (st : state) : state :=
  {| m4_debug := m4_debug st; trace := t; fopen_log := fopen_log st;
     fclose_log := fclose_log st; written := written st |}.

Definition fclose (fp : stream) (st : state) : state :=
  {| m4_debug := m4_debug st; trace := trace st; fopen_log := fopen_log st;
     fclose_log := fclose_log st ++ [fp]; written := written st |}.

(** [fopen (name, mode)]: the call is logged, the answer is the file system's. *)
Definition fopen (e : env) (name mode : string) (st : state) : FILE_ptr * state :=
  (option_map opened (fopen_result e (c_str name) mode),
   {| m4_debug := m4_debug st; trace := trace st;
      fopen_log := fopen_log st ++ [(c_str name, mode)];
      fclose_log := fclose_log st; written := written st |}).

(** Modelled from the spec: the macro [M4_DEBUG_PRINT1] is defined in a header
    outside the two translation units.  The spec has the flush write the
    accumulated bytes as one write to the current debug destination; the write
    is recorded with the destination it went to, and a record whose
    destination is [None] is text sent to the discarded destination. *)
Definition M4_DEBUG_PRINT1 (text : string) (st : state) : state :=
  {| m4_debug := m4_debug st; trace := trace st; fopen_log := fopen_log st;
     fclose_log := fclose_log st; written := written st ++ [(m4_debug st, text)] |}.

(** Ways in which a call leaves defined C behaviour. *)
Inductive undefined : Type :=
| format_overrun       (* the format string is read beyond its terminating NUL *)
| va_arg_mismatch      (* va_arg finds no next argument of the type asked for *)
| negative_length      (* obstack_grow with a negative byte count *)
| argv_overrun.        (* argv[i] beyond the end of the vector *)

(** How a call of one of the tracing functions ends. *)
Inductive result : Type :=
| Ok (st : state)
| Undefined (u : undefined)
| Abort (msg : string).     (* M4ERROR, then abort () *)

Definition bind (r : result) (k : state -> result) : result :=
  match r with
  | Ok st => k st
  | Undefined u => Undefined u
  | Abort msg => Abort msg
  end.

Notation "r >>= k" := (bind r k) (at level 58, left associativity).

(** [level & mask] used as a condition. *)
Definition flag_set (level mask : Z) : bool := negb (Z.land level mask =? 0).

Definition obstack_1grow (ch : ascii) (st : state) : state :=
  set_trace (trace st ++ String ch EmptyString) st.

Definition obstack_grow (s : string) (n : Z) (st : state) : state :=
  set_trace (trace st ++ take n s) st.

Section WithFlags.
Context {flags : DebugFlags}.

(** The [switch] of [m4_debug_decode]; [None] is its [default:] case. *)
Definition decode_flag (c : ascii) : option Z :=
  match c with
  | "a"%char => Some M4_DEBUG_TRACE_ARGS
  | "e"%char => Some M4_DEBUG_TRACE_EXPANSION
  | "q"%char => Some M4_DEBUG_TRACE_QUOTE
  | "t"%char => Some M4_DEBUG_TRACE_ALL
  | "l"%char => Some M4_DEBUG_TRACE_LINE
  | "f"%char => Some M4_DEBUG_TRACE_FILE
  | "p"%char => Some M4_DEBUG_TRACE_PATH
  | "c"%char => Some M4_DEBUG_TRACE_CALL
  | "i"%char => Some M4_DEBUG_TRACE_INPUT
  | "x"%char => Some M4_DEBUG_TRACE_CALLID
  | "V"%char => Some M4_DEBUG_TRACE_VERBOSE
  | _ => None
  end.

(** The loop over [opts] with its [switch]; [None] is the [return -1]
    taken from inside the loop, [Some level] the loop running to the
    terminator. *)
Fixpoint decode_loop (opts : string) (level : Z) : option Z :=
  match opts with
  | EmptyString => Some level
  | String c r =>
      if is_nul c then Some level
      else match decode_flag c with
           | Some f => decode_loop r (Z.lor level f)
           | None => None
           end
  end.

(** [m4_debug_decode]; [opts = None] is a NULL pointer. *)
Definition m4_debug_decode (opts : option string) (st : state) : Z * state :=
  let level :=
    match opts with
    | None => Some M4_DEBUG_TRACE_DEFAULT
    | Some o =>
        if starts_nul o then Some M4_DEBUG_TRACE_DEFAULT else decode_loop o 0
    end in
  match level with
  | None => (-1, st)
  | Some l => (l, set_trace EmptyString st)   (* obstack_free (&trace, obstack_finish (&trace)) *)
  end.

(** [m4_debug_set_file] *)
Definition m4_debug_set_file (e : env) (fp : FILE_ptr) (st : state) : state :=
  let st :=
    match m4_debug st with
    | Some old =>
        if negb (stream_eqb old stderr) && negb (stream_eqb old stdout)
        then fclose old st else st
    | None => st
    end in
  let st := set_m4_debug fp st in
  match m4_debug st with
  | Some dbg =>
      if negb (stream_eqb dbg stdout) then
        match fstat_result e stdout with
        | None => st
        | Some stdout_stat =>
            match fstat_result e dbg with
            | None => st
            | Some debug_stat =>
                if (st_ino stdout_stat =? st_ino debug_stat)
                   && (st_dev stdout_stat =? st_dev debug_stat)
                then
                  let st := if negb (stream_eqb dbg stderr) then fclose dbg st else st in
                  set_m4_debug (Some stdout) st
                else st
            end
        end
      else st
  | None => st
  end.

(** [m4_debug_init] *)
Definition m4_debug_init (e : env) (st : state) : state :=
  set_trace EmptyString (m4_debug_set_file e (Some stderr) st).

(** [m4_debug_set_output]; [name = None] is a NULL pointer. *)
Definition m4_debug_set_output (e : env) (name : option string) (st : state)
  : bool * state :=
  match name with
  | None => (true, m4_debug_set_file e (Some stderr) st)
  | Some n =>
      if starts_nul n then (true, m4_debug_set_file e None st)
      else
        let (fp, st) := fopen e n "a" st in
        match fp with
        | None => (false, st)
        | Some _ => (true, m4_debug_set_file e fp st)
        end
  end.

(** The [switch] of [m4_trace_format] on the directive letter [d]: the
    string [s] to copy, [maxlen], and the arguments left.  [None]: [va_arg]
    has no argument of the requested type to hand out. *)
Definition directive (e : env) (d : ascii) (args : list vararg)
  : option (string * Z * list vararg) :=
  match d with
  | "S"%char =>
      match args with
      | va_string s :: rest => Some (s, max_debug_argument_length e, rest)
      | _ => None
      end
  | "s"%char =>
      match args with
      | va_string s :: rest => Some (s, 0, rest)
      | _ => None
      end
  | "l"%char =>
      Some (if flag_set (debug_level e) M4_DEBUG_TRACE_QUOTE then lquote e else EmptyString,
            0, args)
  | "r"%char =>
      Some (if flag_set (debug_level e) M4_DEBUG_TRACE_QUOTE then rquote e else EmptyString,
            0, args)
  | "d"%char =>
      match args with
      | va_int d :: rest => Some (sprintf_d d, 0, rest)
      | _ => None
      end
  | _ => Some (EmptyString, 0, args)
  end.

(** The tail of the loop body of [m4_trace_format]: copy [s], cut to
    [maxlen] bytes and followed by three dots when [maxlen] applies. *)
Definition copy_limited (s : string) (maxlen : Z) (st : state) : result :=
  let slen := strlen s in
  if (maxlen =? 0) || (maxlen >? slen) then Ok (obstack_grow s slen st)
  else if maxlen <? 0 then Undefined negative_length
  else Ok (obstack_grow "..." 3 (obstack_grow s maxlen st)).

(** [m4_trace_format].  The recursion follows the pointer [fmt]: a literal
    byte is one step, a directive two.  When the byte after a [%] is the
    terminating NUL, the switch takes its default case (the empty string is
    copied) and the loop goes on reading behind the terminator. *)
Fixpoint m4_trace_format (e : env) (fmt : string) (args : list vararg) (st : state)
  : result :=
  match fmt with
  | EmptyString => Ok st
  | String ch fmt1 =>
      if is_nul ch then Ok st
      else if negb (Ascii.eqb ch "%") then
        m4_trace_format e fmt1 args (obstack_1grow ch st)
      else
        match fmt1 with
        | EmptyString =>
            copy_limited EmptyString 0 st >>= fun _ => Undefined format_overrun
        | String d fmt2 =>
            if is_nul d then
              copy_limited EmptyString 0 st >>= fun _ => Undefined format_overrun
            else
              match directive e d args with
              | None => Undefined va_arg_mismatch
              | Some (s, maxlen, rest) =>
                  copy_limited s maxlen st >>= m4_trace_format e fmt2 rest
              end
        end
  end.

(** [m4_trace_header] *)
Definition m4_trace_header (e : env) (id : Z) (st : state) : result :=
  m4_trace_format e "m4trace:" [] st >>= fun st =>
  (if flag_set (debug_level e) M4_DEBUG_TRACE_FILE
   then m4_trace_format e "%s:" [va_string (m4_current_file e)] st
   else Ok st) >>= fun st =>
  (if flag_set (debug_level e) M4_DEBUG_TRACE_LINE
   then m4_trace_format e "%d:" [va_int (m4_current_line e)] st
   else Ok st) >>= fun st =>
  m4_trace_format e " -%d- " [va_int (m4_expansion_level e)] st >>= fun st =>
  if flag_set (debug_level e) M4_DEBUG_TRACE_CALLID
  then m4_trace_format e "id %d: " [va_int id] st
  else Ok st.

(** [m4_trace_flush]: the finished object is the buffer with a NUL appended;
    it is printed with ["%s\n"] and freed. *)
Definition m4_trace_flush (st : state) : state :=
  let st := obstack_1grow NUL st in
  let line := trace st in
  let st := M4_DEBUG_PRINT1 (c_str line ++ newline) st in
  set_trace EmptyString st.

(** [m4_trace_prepre] *)
Definition m4_trace_prepre (e : env) (name : string) (id : Z) (st : state) : result :=
  m4_trace_header e id st >>= fun st =>
  m4_trace_format e "%s ..." [va_string name] st >>= fun st =>
  Ok (m4_trace_flush st).

(** The body of the [for] loop of [m4_trace_pre] for index [i]. *)
Definition trace_arg (e : env) (argv : list m4_token_data) (i : Z) (st : state)
  : result :=
  (if negb (i =? 1) then m4_trace_format e ", " [] st else Ok st) >>= fun st =>
  match nth_error argv (Z.to_nat i) with
  | None => Undefined argv_overrun
  | Some (M4_TOKEN_TEXT text) => m4_trace_format e "%l%S%r" [va_string text] st
  | Some (M4_TOKEN_FUNC func) =>
      match m4_builtin_find_by_func e func with
      | None =>
          Abort "INTERNAL ERROR: Builtin not found in builtin table! (m4_trace_pre ())"
      | Some bp_name => m4_trace_format e "<%s>" [va_string bp_name] st
      end
  | Some M4_TOKEN_VOID =>
      Abort "INTERNAL ERROR: Bad token data type (m4_trace_pre ())"
  end.

(** [for (i = ...; i < argc; i++)] with [n] iterations left. *)
Fixpoint trace_args (e : env) (argv : list m4_token_data) (n : nat) (i : Z)
  (st : state) : result :=
  match n with
  | O => Ok st
  | S n' => trace_arg e argv i st >>= trace_args e argv n' (i + 1)
  end.

(** [m4_trace_pre] *)
Definition m4_trace_pre (e : env) (name : string) (id argc : Z)
  (argv : list m4_token_data) (st : state) : result :=
  m4_trace_header e id st >>= fun st =>
  m4_trace_format e "%s" [va_string name] st >>= fun st =>
  (if (argc >? 1) && flag_set (debug_level e) M4_DEBUG_TRACE_ARGS then
     m4_trace_format e "(" [] st >>= fun st =>
     trace_args e argv (Z.to_nat (argc - 1)) 1 st >>= fun st =>
     m4_trace_format e ")" [] st
   else Ok st) >>= fun st =>
  if flag_set (debug_level e) M4_DEBUG_TRACE_CALL then
    m4_trace_format e " -> ???" [] st >>= fun st =>
    Ok (m4_trace_flush st)
  else Ok st.

(** [m4_trace_post]; [expanded = None] is a NULL pointer. *)
Definition m4_trace_post (e : env) (name : string) (id argc : Z)
  (argv : list m4_token_data) (expanded : option string) (st : state) : result :=
  (if flag_set (debug_level e) M4_DEBUG_TRACE_CALL then
     m4_trace_header e id st >>= fun st =>
     m4_trace_format e "%s%s"
       [va_string name; va_string (if argc >? 1 then "(...)" else EmptyString)] st
   else Ok st) >>= fun st =>
  (match expanded with
   | Some text =>
       if flag_set (debug_level e) M4_DEBUG_TRACE_EXPANSION
       then m4_trace_format e " -> %l%S%r" [va_string text] st
       else Ok st
   | None => Ok st
   end) >>= fun st =>
  Ok (m4_trace_flush st).

(** *** Vocabulary of the properties *)

(** The letters [m4_debug_decode] has a [case] for. *)
Definition flag_letters : list ascii :=
  ["a"; "e"; "q"; "t"; "l"; "f"; "p"; "c"; "i"; "x"; "V"]%char.

(** [fmt] is a sequence of whole items: literal bytes other than [%] and
    NUL, and directives made of a [%] and one byte that is not NUL. *)
Fixpoint whole_directives (fmt : string) : bool :=
  match fmt with
  | EmptyString => true
  | String ch rest =>
      if is_nul ch then false
      else if Ascii.eqb ch "%" then
        match rest with
        | EmptyString => false
        | String d rest' => negb (is_nul d) && whole_directives rest'
        end
      else whole_directives rest
  end.

(** The [%S] directive in the words of the specification: with the verbose
    flag the first [max_debug_argument_length] bytes are copied, without it
    the whole string; three dots follow when the string was cut and the limit
    is below its length. *)
Definition spec_directive_S (e : env) (s : string) : string :=
  let limit := max_debug_argument_length e in
  if flag_set (debug_level e) M4_DEBUG_TRACE_VERBOSE
  then (take limit (c_str s) ++ (if (limit <? strlen s)%Z then "..." else EmptyString))%string
  else c_str s.

(** Of the seven flags the tracing functions test, [level] has the call,
    args, expansion and quote flags set and the line, file and call id flags
    clear.  The masks of the other four letters are not tested by any of
    the functions and are left free: they may share bits with these. *)
Definition call_args_expansion_quote (level : Z) : bool :=
  flag_set level M4_DEBUG_TRACE_CALL && flag_set level M4_DEBUG_TRACE_ARGS
  && flag_set level M4_DEBUG_TRACE_EXPANSION && flag_set level M4_DEBUG_TRACE_QUOTE
  && negb (flag_set level M4_DEBUG_TRACE_LINE)
  && negb (flag_set level M4_DEBUG_TRACE_FILE)
  && negb (flag_set level M4_DEBUG_TRACE_CALLID).

(** The header [m4_trace_header] writes when neither file, line nor call id
    is asked for. *)
Definition plain_header (e : env) : string :=
  ("m4trace: -" ++ sprintf_d (m4_expansion_level e) ++ "- ")%string.

(** The three calls the macro engine makes around one macro call. *)
Definition trace_lifecycle (e : env) (name : string) (id argc : Z)
  (argv : list m4_token_data) (expanded : option string) (st : state) : result :=
  m4_trace_prepre e name id st >>= fun st =>
  m4_trace_pre e name id argc argv st >>= fun st =>
  m4_trace_post e name id argc argv expanded st.

End WithFlags.

(** The stream [m4_debug_set_output] hands to [m4_debug_set_file] for
    [name]: standard error for a NULL name, no stream for an empty one, and
    otherwise what opening the name for appending gives. *)
Definition selected (e : env) (name : option string) : FILE_ptr :=
  match name with
  | None => Some stderr
  | Some n => if starts_nul n then None else option_map opened (fopen_result e (c_str n) "a")
  end.

(** [fstat] succeeds on standard output and on [fp] and reports the same
    inode on the same device for both. *)
Definition is_stdout_file (e : env) (fp : stream) : bool :=
  match fstat_result e stdout, fstat_result e fp with
  | Some stdout_stat, Some debug_stat =>
      (st_ino stdout_stat =? st_ino debug_stat)
      && (st_dev stdout_stat =? st_dev debug_stat)
  | _, _ => false
  end.

End Debug.

(** ** utility.c *)

Module Utility.

Definition EXIT_SUCCESS : Z := 0.
Definition EXIT_FAILURE : Z := 1.
Definition INT_MAX : Z := 2147483647.
Definition INT_MIN : Z := -2147483648.
Definition UINT_MAX : Z := 4294967295.

(** Conversion of an [int] to [unsigned int]. *)
Definition to_unsigned (x : Z) : Z := x mod (UINT_MAX + 1).

(** An [int] result reduced into range: [int] arithmetic, and the
    conversion of a [long] that does not fit, wrap around. *)
Definition to_int (x : Z) : Z := (x - INT_MIN) mod (UINT_MAX + 1) + INT_MIN.

(** What utility.c takes from outside: the argument vector with its
    accessor macro [M4ARG], and the range of [long]. *)
Class Externals : Type := {
  m4_symbol_value : Type;
  M4ARG : Z -> list m4_symbol_value -> Z -> string;   (* argc, argv, i *)
  LONG_MAX : Z
}.

(** The fields of [m4 *context] that utility.c reads through its getters and
    writes through [m4_set_exit_status]. *)
Record m4 : Type := {
  m4_get_suppress_warnings_opt : bool;
  m4_get_fatal_warnings_opt : bool;
  m4_get_exit_status : Z;
  m4_get_current_file : option string;       (* None: NULL *)
  m4_get_current_line : Z;
  m4_has_syntax_space : ascii -> bool        (* m4_has_syntax (M4SYNTAX, c, M4_SYNTAX_SPACE) *)
}.

(** One message handed to [verror_at_line]. *)
Record diagnostic : Type := {
  diag_status : Z;
  diag_errnum : Z;
  diag_file : option string;
  diag_line : Z;
  diag_format : string;
  diag_args : list vararg
}.

Record world : Type := {
  context : m4;
  diagnostics : list diagnostic;    (* what was printed on the diagnostic stream *)
  valuep : Z                        (* the int that the pointer valuep refers to *)
}.

Definition m4_set_exit_status (status : Z) (w : world) : world :=
  {| context :=
       {| m4_get_suppress_warnings_opt := m4_get_suppress_warnings_opt (context w);
          m4_get_fatal_warnings_opt := m4_get_fatal_warnings_opt (context w);
          m4_get_exit_status := status;
          m4_get_current_file := m4_get_current_file (context w);
          m4_get_current_line := m4_get_current_line (context w);
          m4_has_syntax_space := m4_has_syntax_space (context w) |};
     diagnostics := diagnostics w; valuep := valuep w |}.

Definition print_diagnostic (d : diagnostic) (w : world) : world :=
  {| context := context w; diagnostics := diagnostics w ++ [d]; valuep := valuep w |}.

Definition store_valuep (v : Z) (w : world) : world :=
  {| context := context w; diagnostics := diagnostics w; valuep := v |}.

(** How a call ends. *)
Inductive outcome (A : Type) : Type :=
| Returns (a : A) (w : world)
| Exits (status : Z) (w : world)     (* exit (status) *)
| Aborts (w : world)                 (* a failed assert *)
| Overruns.                          (* a string is read beyond its terminator *)

Arguments Returns {A} a w.
Arguments Exits {A} status w.
Arguments Aborts {A} w.
Arguments Overruns {A}.

Definition bind {A B : Type} (o : outcome A) (k : A -> world -> outcome B) : outcome B :=
  match o with
  | Returns a w => k a w
  | Exits status w => Exits status w
  | Aborts w => Aborts w
  | Overruns => Overruns
  end.

Notation "x <- o ;; k" := (bind o (fun x => k))
  (at level 61, o at next level, right associativity).

(** Modelled from the spec: gnulib's [verror_at_line] is not part of the two
    translation units.  The spec has the message printed on the diagnostic
    stream and, when the status is not zero, the process terminated with
    that status after printing. *)
Definition verror_at_line (status errnum : Z) (file : option string) (line : Z)
  (format : string) (args : list vararg) (w : world) : outcome unit :=
  let w := print_diagnostic
             {| diag_status := status; diag_errnum := errnum; diag_file := file;
                diag_line := line; diag_format := format; diag_args := args |} w in
  if status =? 0 then Returns tt w else Exits status w.

(** Modelled from the spec: gnulib's [xasprintf], called with the format
    ["Warning: %s"], is not part of the two translation units.  The spec has
    the warning's text prefixed with "Warning:"; [None] is the NULL that
    [m4_warn] has a fallback for and that this model never answers. *)
Definition xasprintf_warning (format : string) : option string :=
  Some ("Warning: " ++ c_str format)%string.

(** [assert (m4_get_current_file (context) || ! line)] *)
Definition location_assert (c : m4) : bool :=
  match m4_get_current_file c with
  | Some _ => true
  | None => m4_get_current_line c =? 0
  end.

(** [m4_error] *)
Definition m4_error (status errnum : Z) (format : string) (args : list vararg)
  (w : world) : outcome unit :=
  let line := m4_get_current_line (context w) in
  if negb (location_assert (context w)) then Aborts w
  else
    let status :=
      if (status =? EXIT_SUCCESS) && m4_get_fatal_warnings_opt (context w)
      then EXIT_FAILURE else status in
    _ <- verror_at_line status errnum
           (if negb (line =? 0) then m4_get_current_file (context w) else None)
           line format args w ;;
    fun w => Returns tt (m4_set_exit_status EXIT_FAILURE w).

(** [m4_error_at_line] *)
Definition m4_error_at_line (status errnum : Z) (file : option string) (line : Z)
  (format : string) (args : list vararg) (w : world) : outcome unit :=
  let status :=
    if (status =? EXIT_SUCCESS) && m4_get_fatal_warnings_opt (context w)
    then EXIT_FAILURE else status in
  _ <- verror_at_line status errnum (if negb (line =? 0) then file else None)
         line format args w ;;
  fun w => Returns tt (m4_set_exit_status EXIT_FAILURE w).

(** [m4_warn] *)
Definition m4_warn (errnum : Z) (format : string) (args : list vararg) (w : world)
  : outcome unit :=
  if negb (m4_get_suppress_warnings_opt (context w)) then
    let status := EXIT_SUCCESS in
    let line := m4_get_current_line (context w) in
    let full_format := xasprintf_warning format in
    if negb (location_assert (context w)) then Aborts w
    else
      let status := if m4_get_fatal_warnings_opt (context w) then EXIT_FAILURE else status in
      verror_at_line status errnum
        (if negb (line =? 0) then m4_get_current_file (context w) else None) line
        (match full_format with Some f => f | None => format end) args w
  else Returns tt w.

(** [m4_warn_at_line] *)
Definition m4_warn_at_line (errnum : Z) (file : option string) (line : Z)
  (format : string) (args : list vararg) (w : world) : outcome unit :=
  if negb (m4_get_suppress_warnings_opt (context w)) then
    let status := EXIT_SUCCESS in
    let full_format := xasprintf_warning format in
    let status := if m4_get_fatal_warnings_opt (context w) then EXIT_FAILURE else status in
    verror_at_line status errnum (if negb (line =? 0) then file else None) line
      (match full_format with Some f => f | None => format end) args w
  else Returns tt w.

(** [skip_space]; [None]: the syntax table classes NUL as a space and the
    loop runs beyond the terminator. *)
Fixpoint skip_space (c : m4) (arg : string) : option string :=
  match arg with
  | EmptyString => if m4_has_syntax_space c NUL then None else Some EmptyString
  | String ch rest =>
      if is_nul ch then (if m4_has_syntax_space c NUL then None else Some arg)
      else if m4_has_syntax_space c ch then skip_space c rest
      else Some arg
  end.

(** *** [strtol] in base 10, as the C standard describes it *)

Definition isspace (c : ascii) : bool :=
  let n := nat_of_ascii c in
  Nat.eqb n 32 || (Nat.leb 9 n && Nat.leb n 13).

Definition isdigit (c : ascii) : bool :=
  let n := nat_of_ascii c in Nat.leb 48 n && Nat.leb n 57.

Definition digit_value (c : ascii) : Z := Z.of_nat (nat_of_ascii c) - 48.

Fixpoint skip_isspace (s : string) : string :=
  match s with
  | EmptyString => EmptyString
  | String c rest => if isspace c then skip_isspace rest else s
  end.

(** The digits in front of [s], accumulated onto [acc], and what follows. *)
Fixpoint strtol_digits (s : string) (acc : Z) : Z * string :=
  match s with
  | EmptyString => (acc, EmptyString)
  | String c rest =>
      if isdigit c then strtol_digits rest (acc * 10 + digit_value c) else (acc, s)
  end.

(** *** Vocabulary of the properties *)

(** Every byte of [s] satisfies [p]. *)
Definition all_chars (p : ascii -> bool) (s : string) : bool := forallb p (chars s).

(** The first byte of [s], if there is one, satisfies [p]. *)
Definition starts_with (p : ascii -> bool) (s : string) : bool :=
  match s with
  | EmptyString => false
  | String c _ => p c
  end.

(** The number a string of decimal digits denotes. *)
Definition decimal_value (digits : string) : Z :=
  fold_left (fun acc c => acc * 10 + digit_value c) (chars digits) 0.

(** The message [m4_warn] hands to [verror_at_line] in context [c]. *)
Definition warning (c : m4) (errnum : Z) (format : string) (args : list vararg)
  : diagnostic :=
  {| diag_status := if m4_get_fatal_warnings_opt c then EXIT_FAILURE else EXIT_SUCCESS;
     diag_errnum := errnum;
     diag_file := if negb (m4_get_current_line c =? 0) then m4_get_current_file c else None;
     diag_line := m4_get_current_line c;
     diag_format := ("Warning: " ++ c_str format)%string;
     diag_args := args |}.

(** Warnings are printed and are not fatal, and the location is one the
    assertions accept. *)
Definition warnings_plain (c : m4) : bool :=
  negb (m4_get_suppress_warnings_opt c) && negb (m4_get_fatal_warnings_opt c)
  && location_assert c.

(** The world a call ends with, however it ends. *)
Definition final_world {A : Type} (o : outcome A) : option world :=
  match o with
  | Returns _ w => Some w
  | Exits _ w => Some w
  | Aborts w => Some w
  | Overruns => None
  end.

Section WithExternals.
Context {ext : Externals}.

Definition LONG_MIN : Z := - LONG_MAX - 1.

Definition clamp_long (v : Z) : Z := Z.max LONG_MIN (Z.min LONG_MAX v).

(** [strtol (nptr, &endp, 10)]: the value and [endp]. *)
Definition strtol (nptr : string) : Z * string :=
  let s := skip_isspace nptr in
  let (negative, s) :=
    match s with
    | String "-"%char rest => (true, rest)
    | String "+"%char rest => (false, rest)
    | _ => (false, s)
    end in
  match s with
  | EmptyString => (0, nptr)
  | String c _ =>
      if isdigit c then
        let (v, endp) := strtol_digits s 0 in
        (clamp_long (if negative then - v else v), endp)
      else (0, nptr)
  end.

(** [m4_bad_argc] *)
Definition m4_bad_argc (argc : Z) (argv : list m4_symbol_value)
  (min max : Z) (side_effect : bool) (w : world) : outcome bool :=
  if to_unsigned (to_int (argc - 1)) <? min then
    _ <- m4_warn 0 "%s: too few arguments: %d < %d"
           [va_string (M4ARG argc argv 0); va_int (to_int (argc - 1)); va_int min] w ;;
    fun w => Returns (negb side_effect) w
  else
    _ <- (if to_unsigned (to_int (argc - 1)) >? max then
            m4_warn 0 "%s: extra arguments ignored: %d > %d"
              [va_string (M4ARG argc argv 0); va_int (to_int (argc - 1)); va_int max] w
          else Returns tt w) ;;
    fun w => Returns false w.

(** [m4_numeric_arg] *)
Definition m4_numeric_arg (argc : Z) (argv : list m4_symbol_value) (arg : Z)
  (w : world) : outcome bool :=
  if starts_nul (M4ARG argc argv arg) then
    let w := store_valuep 0 w in
    _ <- m4_warn 0 "%s: empty string treated as 0" [va_string (M4ARG argc argv 0)] w ;;
    fun w => Returns true w
  else
    match skip_space (context w) (M4ARG argc argv arg) with
    | None => Overruns
    | Some nptr =>
        let (v, endp) := strtol nptr in
        let w := store_valuep (to_int v) w in
        match skip_space (context w) endp with
        | None => Overruns
        | Some tail =>
            if negb (starts_nul tail) then
              _ <- m4_warn 0 "%s: non-numeric argument `%s'"
                     [va_string (M4ARG argc argv 0); va_string (M4ARG argc argv arg)] w ;;
              fun w => Returns false w
            else Returns true w
        end
    end.

End WithExternals.

End Utility.

(** ** Concrete instances used to run the definitions *)

Module Examples.
Import Debug Utility.

(** One assignment of one bit to each flag. *)
Definition bit_flags : DebugFlags :=
  {| M4_DEBUG_TRACE_ARGS := 1; M4_DEBUG_TRACE_EXPANSION := 2;
     M4_DEBUG_TRACE_QUOTE := 4; M4_DEBUG_TRACE_ALL := 8;
     M4_DEBUG_TRACE_LINE := 16; M4_DEBUG_TRACE_FILE := 32;
     M4_DEBUG_TRACE_PATH := 64; M4_DEBUG_TRACE_CALL := 128;
     M4_DEBUG_TRACE_INPUT := 256; M4_DEBUG_TRACE_CALLID := 512;
     M4_DEBUG_TRACE_VERBOSE := 1024; M4_DEBUG_TRACE_DEFAULT := 7 |}.

(** One bit for each of the ten letters that select one kind of output,
    and the mask of all of them for the letter V, which stands for every
    flag at once. *)
Definition verbose_all_flags : DebugFlags :=
  {| M4_DEBUG_TRACE_ARGS := 1; M4_DEBUG_TRACE_EXPANSION := 2;
     M4_DEBUG_TRACE_QUOTE := 4; M4_DEBUG_TRACE_ALL := 8;
     M4_DEBUG_TRACE_LINE := 16; M4_DEBUG_TRACE_FILE := 32;
     M4_DEBUG_TRACE_PATH := 64; M4_DEBUG_TRACE_CALL := 128;
     M4_DEBUG_TRACE_INPUT := 256; M4_DEBUG_TRACE_CALLID := 512;
     M4_DEBUG_TRACE_VERBOSE := 1023; M4_DEBUG_TRACE_DEFAULT := 7 |}.

(** An environment with debug level [level] and argument length limit
    [limit], quotes [<] and [>], no builtins and no files to open; standard
    output and standard error are different files. *)
Definition env_with (level limit : Z) : env :=
  {| debug_level := level; max_debug_argument_length := limit;
     lquote := "<"; rquote := ">";
     m4_current_file := "input.m4"; m4_current_line := 3; m4_expansion_level := 1;
     m4_builtin_find_by_func := fun _ => None;
     fopen_result := fun _ _ => None;
     fstat_result := fun s =>
       match s with
       | stdout => Some {| st_ino := 10; st_dev := 1 |}
       | stderr => Some {| st_ino := 11; st_dev := 1 |}
       | opened _ => None
       end |}.

(** As [env_with 0 0], but the path "out.log" can be opened for appending
    and is the file standard output is connected to. *)
Definition env_out_log : env :=
  {| debug_level := 0; max_debug_argument_length := 0;
     lquote := "<"; rquote := ">";
     m4_current_file := "input.m4"; m4_current_line := 3; m4_expansion_level := 1;
     m4_builtin_find_by_func := fun _ => None;
     fopen_result := fun name mode =>
       if String.eqb name "out.log" && String.eqb mode "a" then Some 0%nat else None;
     fstat_result := fun s =>
       match s with
       | stderr => Some {| st_ino := 11; st_dev := 1 |}
       | _ => Some {| st_ino := 10; st_dev := 1 |}
       end |}.

(** The state [m4_debug_init] leaves. *)
Definition initial_state : state :=
  {| m4_debug := Some stderr; trace := EmptyString; fopen_log := [];
     fclose_log := []; written := [] |}.

(** Argument vectors of texts, with the accessor answering the empty string
    beyond the vector, and a 64-bit [long]. *)
Definition text_args : Externals :=
  {| m4_symbol_value := string;
     M4ARG := fun argc argv i =>
       if i <? argc then nth (Z.to_nat i) argv EmptyString else EmptyString;
     LONG_MAX := 9223372036854775807 |}.

(** A context at line 3 of "input.m4" whose syntax table classes blank, tab
    and newline as spaces. *)
Definition context_with (suppress fatal : bool) : m4 :=
  {| m4_get_suppress_warnings_opt := suppress;
     m4_get_fatal_warnings_opt := fatal;
     m4_get_exit_status := 0;
     m4_get_current_file := Some "input.m4"%string;
     m4_get_current_line := 3;
     m4_has_syntax_space := fun c =>
       Ascii.eqb c " " || Ascii.eqb c (ascii_of_nat 9) || Ascii.eqb c (ascii_of_nat 10) |}.

(** A world with nothing printed yet and 99 stored where [valuep] points. *)
Definition world_with (suppress fatal : bool) : world :=
  {| context := context_with suppress fatal; diagnostics := []; valuep := 99 |}.

End Examples.

(** ** debug.c: the remaining functions, and the texts the tracing
    functions assemble *)

Module DebugMore.
Import Debug.

(** [m4_debug_flush_files]: the streams [fflush] is called on, in order. *)
Definition m4_debug_flush_files (st : state) : list stream :=
  ([stdout] ++ [stderr]
   ++ match m4_debug st with
      | Some dbg =>
          if negb (stream_eqb dbg stdout) && negb (stream_eqb dbg stderr)
          then [dbg] else []
      | None => []
      end)%list.

(** [s] is a stream that [fopen] gave. *)
Definition is_opened (s : stream) : bool :=
  match s with
  | opened _ => true
  | _ => false
  end.

(** [fmt] holds no [%]: every byte of it is literal text. *)
Definition literal (fmt : string) : bool :=
  forallb (fun c => negb (is_nul c) && negb (Ascii.eqb c "%")) (chars fmt).

(** The letter [d] stands in directive position somewhere in [fmt]. *)
Fixpoint uses_directive (d : ascii) (fmt : string) : bool :=
  match fmt with
  | EmptyString => false
  | String ch rest =>
      if is_nul ch then false
      else if Ascii.eqb ch "%" then
        match rest with
        | EmptyString => false
        | String x rest' =>
            if is_nul x then false
            else Ascii.eqb x d || uses_directive d rest'
        end
      else uses_directive d rest
  end.

(** The bytes that copying [s] under the limit [maxlen] appends. *)
Definition limited_text (maxlen : Z) (s : string) : string :=
  if (maxlen =? 0) || (maxlen >? strlen s) then c_str s
  else (take maxlen s ++ "...")%string.

Section WithFlags.
Context {flags : DebugFlags}.

(** What [%l] and [%r] insert. *)
Definition left_quote (e : env) : string :=
  if flag_set (debug_level e) M4_DEBUG_TRACE_QUOTE then c_str (lquote e) else EmptyString.

Definition right_quote (e : env) : string :=
  if flag_set (debug_level e) M4_DEBUG_TRACE_QUOTE then c_str (rquote e) else EmptyString.

(** The header of a trace line for call [id], under any combination of
    flags. *)
Definition header_text (e : env) (id : Z) : string :=
  ("m4trace:"
   ++ (if flag_set (debug_level e) M4_DEBUG_TRACE_FILE
       then c_str (m4_current_file e) ++ ":" else EmptyString)
   ++ (if flag_set (debug_level e) M4_DEBUG_TRACE_LINE
       then sprintf_d (m4_current_line e) ++ ":" else EmptyString)
   ++ " -" ++ sprintf_d (m4_expansion_level e) ++ "- "
   ++ (if flag_set (debug_level e) M4_DEBUG_TRACE_CALLID
       then "id " ++ sprintf_d id ++ ": " else EmptyString))%string.

(** A text argument as a trace line shows it. *)
Definition shown_text (e : env) (text : string) : string :=
  (left_quote e ++ limited_text (max_debug_argument_length e) text ++ right_quote e)%string.

(** What [m4_trace_pre] puts in the buffer for the call of [name] with the
    text arguments [texts], in front of the result placeholder. *)
Definition call_text (e : env) (name : string) (id : Z) (texts : list string) : string :=
  (header_text e id ++ c_str name
   ++ (if negb (Nat.eqb (List.length texts) 0)
          && flag_set (debug_level e) M4_DEBUG_TRACE_ARGS
       then "(" ++ String.concat ", " (map (shown_text e) texts) ++ ")"
       else EmptyString))%string.

(** What [m4_trace_post] puts in the buffer. *)
Definition result_text (e : env) (name : string) (id argc : Z)
  (expanded : option string) : string :=
  ((if flag_set (debug_level e) M4_DEBUG_TRACE_CALL
    then header_text e id ++ c_str name
         ++ (if argc >? 1 then "(...)" else EmptyString)
    else EmptyString)
   ++ match expanded with
      | Some text =>
          if flag_set (debug_level e) M4_DEBUG_TRACE_EXPANSION
          then " -> " ++ shown_text e text
          else EmptyString
      | None => EmptyString
      end)%string.

End WithFlags.

End DebugMore.

(** ** utility.c: the remaining function *)

Module UtilityMore.
Import Utility.

(** [m4_shipout_string] lives in another translation unit; it is taken as
    a parameter: the obstack object after the call, from the context, the
    object before, the text, the length argument and the quoting flag. *)
Class Shipout : Type := {
  m4_shipout_string : m4 -> string -> string -> Z -> bool -> string
}.

Section WithExternals.
Context {ext : Externals} {ship : Shipout}.

(** The [for] loop of [m4_dump_args] at index [i], with [n] iterations
    left, on the object [obs]. *)
Fixpoint dump_args_loop (c : m4) (argc : Z) (argv : list m4_symbol_value)
  (sep : string) (quoted : bool) (n : nat) (i : Z) (obs : string) : string :=
  match n with
  | O => obs
  | S n' =>
      let obs := if i >? 1 then (obs ++ take (strlen sep) sep)%string else obs in
      let obs := m4_shipout_string c obs (M4ARG argc argv i) 0 quoted in
      dump_args_loop c argc argv sep quoted n' (i + 1) obs
  end.

(** [m4_dump_args], on the object growing on [obs]. *)
Definition m4_dump_args (c : m4) (obs : string) (argc : Z)
  (argv : list m4_symbol_value) (sep : string) (quoted : bool) : string :=
  dump_args_loop c argc argv sep quoted (Z.to_nat (argc - 1)) 1 obs.

End WithExternals.

(** The messages of a world obey the location rule: a message without a
    line carries no file. *)
Definition located (d : diagnostic) : bool :=
  if diag_line d =? 0 then
    match diag_file d with
    | None => true
    | Some _ => false
    end
  else true.

End UtilityMore.

(** ** Further concrete instances *)

Module ExamplesMore.
Import Debug Utility UtilityMore.

(** An environment with debug level [level] and no argument length limit,
    in which builtin 0 is registered under the name "divert"; no file can be
    opened or examined. *)
Definition env_builtins (level : Z) : env :=
  {| debug_level := level; max_debug_argument_length := 0;
     lquote := "<"; rquote := ">";
     m4_current_file := "input.m4"; m4_current_line := 3; m4_expansion_level := 1;
     m4_builtin_find_by_func := fun f => if Nat.eqb f 0 then Some "divert"%string else None;
     fopen_result := fun _ _ => None;
     fstat_result := fun _ => None |}.

(** A shipout that appends the text, between a backquote and a quote when
    quoting is asked for. *)
Definition quoting_shipout : Shipout :=
  {| m4_shipout_string := fun _ obs text _ quoted =>
       (obs ++ (if quoted then "`" ++ c_str text ++ "'" else c_str text))%string |}.

End ExamplesMore.

(** ** Facts about C strings *)

Module CStrFacts.

Lemma append_nil_r (s : string) : (s ++ EmptyString)%string = s.
Proof. induction s as [|c s IH]; simpl; [reflexivity | now rewrite IH]. Qed.

Lemma append_assoc (a b c : string) : ((a ++ b) ++ c)%string = (a ++ (b ++ c))%string.
Proof. induction a as [|x a IH]; simpl; [reflexivity | now rewrite IH]. Qed.

Lemma chars_append (a b : string) : chars (a ++ b) = (chars a ++ chars b)%list.
Proof. induction a as [|x a IH]; simpl; [reflexivity | now rewrite IH]. Qed.

Lemma nul_free_append (a b : string) :
  nul_free (a ++ b) = nul_free a && nul_free b.
Proof. unfold nul_free. now rewrite chars_append, forallb_app. Qed.

Lemma c_str_nul_free (s : string) : nul_free (c_str s) = true.
Proof.
  induction s as [|c s IH]; simpl; [reflexivity|].
  destruct (is_nul c) eqn:E; [reflexivity|].
  unfold nul_free in *. simpl. now rewrite E, IH.
Qed.

(** A string without NUL is all a C function sees of it, also when more
    bytes follow the terminator. *)
Lemma c_str_append_nul (s rest : string) :
  nul_free s = true -> c_str (s ++ String NUL rest) = s.
Proof.
  induction s as [|c s IH]; simpl; intros H; [reflexivity|].
  unfold nul_free in H. simpl in H. apply andb_prop in H as [Hc Hs].
  apply negb_true_iff in Hc. rewrite Hc. now rewrite IH.
Qed.

Lemma c_str_id (s : string) : nul_free s = true -> c_str s = s.
Proof.
  induction s as [|c s IH]; simpl; intros H; [reflexivity|].
  unfold nul_free in H. simpl in H. apply andb_prop in H as [Hc Hs].
  apply negb_true_iff in Hc. rewrite Hc. now rewrite IH.
Qed.

Lemma substring_prefix (a b : string) : substring 0 (String.length a) (a ++ b) = a.
Proof.
  induction a as [|c a IH]; simpl.
  - destruct b; reflexivity.
  - now rewrite IH.
Qed.

Lemma c_str_split (s : string) : exists rest, s = (c_str s ++ rest)%string.
Proof.
  induction s as [|c s [rest IH]]; simpl.
  - now exists EmptyString.
  - destruct (is_nul c).
    + now exists (String c s).
    + exists rest. simpl. now rewrite <- IH.
Qed.

(** Copying [strlen s] bytes of [s] copies the C string. *)
Lemma take_strlen (s : string) : take (strlen s) s = c_str s.
Proof.
  unfold take, strlen. rewrite Nat2Z.id.
  destruct (c_str_split s) as [rest E]. rewrite E at 2.
  apply substring_prefix.
Qed.

Lemma uint_nul_free (u : Decimal.uint) : nul_free (NilEmpty.string_of_uint u) = true.
Proof. induction u; simpl; try reflexivity; unfold nul_free in *; simpl; assumption. Qed.

(** [sprintf] with ["%d"] writes no NUL in front of the terminator. *)
Lemma sprintf_d_nul_free (d : Z) : nul_free (sprintf_d d) = true.
Proof.
  unfold sprintf_d, NilZero.string_of_int, NilZero.string_of_uint.
  destruct (Z.to_int d) as [u|u].
  - destruct u; try reflexivity; apply uint_nul_free.
  - assert (H : forall v, nul_free (String "-" v) = nul_free v) by reflexivity.
    rewrite H. destruct u; try reflexivity; apply uint_nul_free.
Qed.

End CStrFacts.

(** ** Properties of debug.c *)

Module DebugProps.
Import Debug CStrFacts.

Section Decode.
Context {flags : DebugFlags}.

Lemma decode_flag_unknown (c : ascii) : ~ In c flag_letters -> decode_flag c = None.
Proof.
  intros H.
  destruct c as [[] [] [] [] [] [] [] []]; try reflexivity;
    exfalso; apply H; unfold flag_letters; simpl; tauto.
Qed.

Lemma decode_loop_unknown (c : ascii) (opts : string) :
  In c (chars (c_str opts)) -> decode_flag c = None ->
  forall level, decode_loop opts level = None.
Proof.
  intros Hin Hc. induction opts as [|a r IH]; simpl in *; [contradiction|].
  destruct (is_nul a) eqn:Ea; [contradiction|].
  intros level. destruct Hin as [->|Hin].
  - now rewrite Hc.
  - destruct (decode_flag a); [now apply IH | reflexivity].
Qed.

(** When no mask is negative, a decode that runs to the end of the string
    gives a level that is not negative, so that -1 stands for failure only. *)
Lemma decode_loop_nonneg (opts : string) :
  (forall c f, decode_flag c = Some f -> 0 <= f) ->
  forall level l, 0 <= level -> decode_loop opts level = Some l -> 0 <= l.
Proof.
  intros Hflags. induction opts as [|a r IH]; simpl; intros level l Hlevel H.
  - injection H as <-. exact Hlevel.
  - destruct (is_nul a); [injection H as <-; exact Hlevel|].
    destruct (decode_flag a) as [f|] eqn:Ef; [|discriminate].
    apply (IH (Z.lor level f)); [|exact H].
    apply Z.lor_nonneg. split; [exact Hlevel | exact (Hflags a f Ef)].
Qed.

(** C5.  A flag string in which some character is none of the letters
    [a e q t l f p c i x V] makes [m4_debug_decode] return -1, whatever
    precedes or follows that character; no level is produced and the state,
    the trace buffer included, is left as it was. *)
Theorem decode_unknown_flag_fails (opts : string) (c : ascii) (st : state) :
  In c (chars (c_str opts)) -> ~ In c flag_letters ->
  m4_debug_decode (Some opts) st = (-1, st).
Proof.
  intros Hin Hc. unfold m4_debug_decode.
  assert (Hs : starts_nul opts = false).
  { destruct opts as [|a r]; simpl in *; [contradiction|].
    destruct (is_nul a); [contradiction | reflexivity]. }
  rewrite Hs.
  now rewrite (decode_loop_unknown c opts Hin (decode_flag_unknown c Hc)).
Qed.

End Decode.

Lemma decode_unknown_flag_fails_witness :
  m4_debug_decode (flags := Examples.bit_flags) (Some "az"%string) Examples.initial_state
  = (-1, Examples.initial_state).
Proof.
  apply (decode_unknown_flag_fails (flags := Examples.bit_flags) "az" "z").
  - simpl. tauto.
  - unfold flag_letters. simpl. intros H.
    repeat (destruct H as [H|H]; [discriminate H|]). exact H.
Defined.

Section Format.
Context {flags : DebugFlags}.

Lemma set_trace_set_trace (a b : string) (st : state) :
  set_trace a (set_trace b st) = set_trace a st.
Proof. reflexivity. Qed.

(** A lone [%S] is one run of the copying step with the length limit. *)
Lemma trace_format_S (e : env) (s : string) (st : state) :
  m4_trace_format e "%S" [va_string s] st
  = copy_limited s (max_debug_argument_length e) st.
Proof. simpl. now destruct (copy_limited s (max_debug_argument_length e) st). Qed.

(** [%S] gives the same text under every debug level: no flag is read. *)
Lemma trace_format_S_ignores_level (e e' : env) (s : string) (st : state) :
  max_debug_argument_length e = max_debug_argument_length e' ->
  m4_trace_format e "%S" [va_string s] st = m4_trace_format e' "%S" [va_string s] st.
Proof. intros H. now rewrite !trace_format_S, H. Qed.

(** C1, amended.  For [%S] and every string [s], under every debug level:
    when the limit [max_debug_argument_length] is 0 or above the length of
    [s], [s] is copied whole and no dots follow; when the limit is positive
    and below the length of [s], the first [limit] bytes are copied and three
    dots follow. *)
Theorem trace_format_S_limit (e : env) (s : string) (st : state) :
  (max_debug_argument_length e = 0 \/ strlen s < max_debug_argument_length e ->
   m4_trace_format e "%S" [va_string s] st
   = Ok (set_trace (trace st ++ c_str s) st))
  /\
  (0 < max_debug_argument_length e < strlen s ->
   m4_trace_format e "%S" [va_string s] st
   = Ok (set_trace (trace st ++ take (max_debug_argument_length e) s ++ "...") st)).
Proof.
  rewrite trace_format_S. unfold copy_limited, obstack_grow. split; intros H.
  - replace ((max_debug_argument_length e =? 0)
             || (max_debug_argument_length e >? strlen s)) with true.
    + now rewrite take_strlen.
    + symmetry. apply orb_true_iff. destruct H as [H|H].
      * left. now apply Z.eqb_eq.
      * right. apply Z.gtb_lt. exact H.
  - replace ((max_debug_argument_length e =? 0)
             || (max_debug_argument_length e >? strlen s)) with false.
    + replace (max_debug_argument_length e <? 0) with false
        by (symmetry; apply Z.ltb_ge; lia).
      rewrite set_trace_set_trace. simpl trace.
      now rewrite append_assoc.
    + symmetry. apply orb_false_iff. split.
      * apply Z.eqb_neq. lia.
      * rewrite Z.gtb_ltb. apply Z.ltb_ge. lia.
Qed.

(** At the boundary the code still adds the dots: a limit equal to the
    length copies the whole string and appends them. *)
Lemma trace_format_S_at_own_length (e : env) (s : string) (st : state) :
  0 < max_debug_argument_length e -> max_debug_argument_length e = strlen s ->
  m4_trace_format e "%S" [va_string s] st
  = Ok (set_trace (trace st ++ c_str s ++ "...") st).
Proof.
  intros Hpos Heq. rewrite trace_format_S. unfold copy_limited, obstack_grow.
  replace ((max_debug_argument_length e =? 0)
           || (max_debug_argument_length e >? strlen s)) with false.
  - replace (max_debug_argument_length e <? 0) with false
      by (symmetry; apply Z.ltb_ge; lia).
    rewrite set_trace_set_trace. simpl trace.
    now rewrite append_assoc, Heq, take_strlen.
  - symmetry. apply orb_false_iff. split.
    + apply Z.eqb_neq. lia.
    + rewrite Z.gtb_ltb. apply Z.ltb_ge. lia.
Qed.

Lemma trace_format_lone_percent_aux (e : env) (n : nat) :
  forall pre args st,
    (String.length pre <= n)%nat -> whole_directives pre = true ->
    m4_trace_format e (pre ++ "%") args st
    = m4_trace_format e pre args st >>= fun _ => Undefined format_overrun.
Proof.
  induction n as [|n IH]; intros pre args st Hlen Hw.
  - destruct pre; [reflexivity | simpl in Hlen; lia].
  - destruct pre as [|ch rest]; [reflexivity|].
    simpl in Hlen, Hw. simpl.
    destruct (is_nul ch); [discriminate|].
    destruct (Ascii.eqb ch "%") eqn:Ech; simpl.
    + destruct rest as [|d rest']; [discriminate|].
      apply andb_prop in Hw as [Hd Hw]. apply negb_true_iff in Hd.
      simpl. rewrite Hd.
      destruct (directive e d args) as [[[s maxlen] rest_args]|]; [|reflexivity].
      destruct (copy_limited s maxlen st) as [st1|u|msg]; simpl; try reflexivity.
      apply IH; [simpl in Hlen; lia | exact Hw].
    + apply IH; [lia | exact Hw].
Qed.

(** C10.  A format that ends with a [%] of its own, after whole literals
    and directives, makes the switch take the terminating NUL for the
    directive letter, and the scan then reads behind the terminator: the
    formatter behaves as on the format without that [%] and then overruns
    the string, so it never returns a state. *)
Theorem trace_format_lone_percent_overruns (e : env) (pre : string)
  (args : list vararg) (st : state) :
  whole_directives pre = true ->
  m4_trace_format e (pre ++ "%") args st
  = (m4_trace_format e pre args st >>= fun _ => Undefined format_overrun)
  /\ forall st', m4_trace_format e (pre ++ "%") args st <> Ok st'.
Proof.
  intros Hw.
  pose proof (trace_format_lone_percent_aux e (String.length pre) pre args st
                (Nat.le_refl _) Hw) as E.
  split; [exact E|]. intros st'. rewrite E.
  destruct (m4_trace_format e pre args st); simpl; discriminate.
Qed.

End Format.

Lemma trace_format_S_limit_witness :
  m4_trace_format (flags := Examples.bit_flags) (Examples.env_with 0 2) "%S"
    [va_string "hello"] Examples.initial_state
  = Ok (set_trace "he..." Examples.initial_state).
Proof.
  apply (proj2 (trace_format_S_limit (flags := Examples.bit_flags)
                  (Examples.env_with 0 2) "hello" Examples.initial_state)).
  unfold strlen. simpl. lia.
Defined.

(** C1 as worded fails: with the verbose flag clear and a limit of 2, [%S]
    on "hello" writes "he...", where the wording has the whole string
    copied. *)
Lemma directive_S_cuts_without_verbose :
  flag_set (debug_level (Examples.env_with 0 2))
    (M4_DEBUG_TRACE_VERBOSE (DebugFlags := Examples.bit_flags)) = false
  /\ m4_trace_format (flags := Examples.bit_flags) (Examples.env_with 0 2) "%S"
       [va_string "hello"] Examples.initial_state
     = Ok (set_trace "he..." Examples.initial_state)
  /\ spec_directive_S (flags := Examples.bit_flags) (Examples.env_with 0 2) "hello"
     = "hello"%string
  /\ m4_trace_format (flags := Examples.bit_flags) (Examples.env_with 0 2) "%S"
       [va_string "hello"] Examples.initial_state
     <> Ok (set_trace (trace Examples.initial_state
                       ++ spec_directive_S (flags := Examples.bit_flags)
                            (Examples.env_with 0 2) "hello")
              Examples.initial_state).
Proof.
  repeat split; try reflexivity. intros H. vm_compute in H. discriminate H.
Qed.

Lemma trace_format_lone_percent_overruns_witness :
  m4_trace_format (flags := Examples.bit_flags) (Examples.env_with 0 0) "100%"
    [] Examples.initial_state
  = Undefined format_overrun.
Proof.
  exact (proj1 (trace_format_lone_percent_overruns (flags := Examples.bit_flags)
                  (Examples.env_with 0 0) "100" [] Examples.initial_state eq_refl)).
Defined.

Section Lifecycle.
Context {flags : DebugFlags}.

Local Arguments copy_limited : simpl never.
Local Arguments flag_set : simpl never.
Local Arguments sprintf_d : simpl never.
Local Arguments strlen : simpl never.
Local Arguments take : simpl never.

(** Evaluates the state updates, innermost first. *)
Ltac run_state :=
  cbv [bind obstack_1grow obstack_grow set_trace M4_DEBUG_PRINT1 m4_trace_flush
       trace m4_debug fopen_log fclose_log written
       Z.to_nat Pos.to_nat Pos.iter_op Nat.add nth_error].

Lemma copy_limited_whole (s : string) (limit : Z) (st : state) :
  limit = 0 \/ strlen s < limit ->
  copy_limited s limit st = Ok (set_trace (trace st ++ c_str s) st).
Proof.
  intros H. unfold copy_limited, obstack_grow.
  replace ((limit =? 0) || (limit >? strlen s)) with true.
  - now rewrite take_strlen.
  - symmetry. apply orb_true_iff. destruct H as [H|H].
    + left. now apply Z.eqb_eq.
    + right. now apply Z.gtb_lt.
Qed.

Lemma copy_limited_0 (s : string) (st : state) :
  copy_limited s 0 st = Ok (set_trace (trace st ++ c_str s) st).
Proof. apply copy_limited_whole. now left. Qed.

Lemma call_args_expansion_quote_flags (level : Z) :
  call_args_expansion_quote level = true ->
  flag_set level M4_DEBUG_TRACE_CALL = true
  /\ flag_set level M4_DEBUG_TRACE_ARGS = true
  /\ flag_set level M4_DEBUG_TRACE_EXPANSION = true
  /\ flag_set level M4_DEBUG_TRACE_QUOTE = true
  /\ flag_set level M4_DEBUG_TRACE_LINE = false
  /\ flag_set level M4_DEBUG_TRACE_FILE = false
  /\ flag_set level M4_DEBUG_TRACE_CALLID = false.
Proof.
  unfold call_args_expansion_quote. intros H.
  repeat (apply andb_prop in H; destruct H as [H ?]).
  repeat match goal with
         | X : negb _ = true |- _ => apply negb_true_iff in X
         end.
  repeat split; assumption.
Qed.

(** With neither file, line nor call id asked for, the header is the marker
    and the expansion level between dashes. *)
Lemma trace_header_plain (e : env) (id : Z) (st : state) :
  flag_set (debug_level e) M4_DEBUG_TRACE_FILE = false ->
  flag_set (debug_level e) M4_DEBUG_TRACE_LINE = false ->
  flag_set (debug_level e) M4_DEBUG_TRACE_CALLID = false ->
  m4_trace_header e id st = Ok (set_trace (trace st ++ plain_header e) st).
Proof.
  intros Hf Hl Hc. unfold m4_trace_header. rewrite Hf, Hl, Hc.
  destruct st as [dbg buf fo fc wr]. cbn.
  rewrite copy_limited_0, (c_str_id _ (sprintf_d_nul_free _)).
  run_state. unfold plain_header. rewrite !append_assoc. reflexivity.
Qed.

Lemma nul_free_cons (c : ascii) (s : string) :
  nul_free (String c s) = negb (is_nul c) && nul_free s.
Proof. reflexivity. Qed.

(** Discharges [nul_free] of a buffer assembled from literals, C strings
    and printed numbers. *)
Ltac solve_nul_free :=
  repeat rewrite nul_free_append;
  repeat rewrite nul_free_cons;
  rewrite ?c_str_nul_free, ?sprintf_d_nul_free; reflexivity.

(** Runs a straight-line sequence of formatter calls from a state given
    by its fields; [copy] rewrites the copying steps. *)
Ltac run_trace copy :=
  repeat (cbn; run_state; copy);
  cbn; run_state.

Section Calls.
Variables (e : env) (name : string) (id : Z).
Hypothesis Hlevel : call_args_expansion_quote (debug_level e) = true.
Hypothesis Hlq : lquote e = "<"%string.
Hypothesis Hrq : rquote e = ">"%string.

Lemma trace_prepre_line (st : state) :
  trace st = EmptyString ->
  m4_trace_prepre e name id st
  = Ok (M4_DEBUG_PRINT1 (plain_header e ++ c_str name ++ " ..." ++ newline) st).
Proof.
  intros Hbuf.
  destruct (call_args_expansion_quote_flags _ Hlevel)
    as (Hcall & Hargs & Hexp & Hquote & Hline & Hfile & Hid).
  unfold m4_trace_prepre. rewrite trace_header_plain by assumption.
  destruct st as [dbg buf fo fc wr]. cbn in Hbuf. subst buf.
  run_trace ltac:(rewrite copy_limited_0).
  rewrite c_str_append_nul by solve_nul_free.
  unfold plain_header. rewrite !append_assoc. reflexivity.
Qed.

Lemma trace_pre_line (argv0 : m4_token_data) (st : state) :
  trace st = EmptyString ->
  max_debug_argument_length e = 0 \/ 1 < max_debug_argument_length e ->
  m4_trace_pre e name id 3 [argv0; M4_TOKEN_TEXT "x"; M4_TOKEN_TEXT "y"] st
  = Ok (M4_DEBUG_PRINT1
          (plain_header e ++ c_str name ++ "(<x>, <y>) -> ???" ++ newline) st).
Proof.
  intros Hbuf Hlimit.
  destruct (call_args_expansion_quote_flags _ Hlevel)
    as (Hcall & Hargs & Hexp & Hquote & Hline & Hfile & Hid).
  assert (Hx : forall st0, copy_limited "x" (max_debug_argument_length e) st0
                           = Ok (set_trace (trace st0 ++ "x") st0)).
  { intros st0. apply (copy_limited_whole "x").
    destruct Hlimit as [H|H]; [now left | right; exact H]. }
  assert (Hy : forall st0, copy_limited "y" (max_debug_argument_length e) st0
                           = Ok (set_trace (trace st0 ++ "y") st0)).
  { intros st0. apply (copy_limited_whole "y").
    destruct Hlimit as [H|H]; [now left | right; exact H]. }
  unfold m4_trace_pre. rewrite trace_header_plain by assumption.
  rewrite Hcall, Hargs.
  change (Z.to_nat (3 - 1)) with 2%nat.
  destruct st as [dbg buf fo fc wr]. cbn in Hbuf. subst buf.
  run_trace ltac:(rewrite ?Hquote, ?Hlq, ?Hrq;
                  first [rewrite copy_limited_0 | rewrite Hx | rewrite Hy]).
  rewrite c_str_append_nul by solve_nul_free.
  unfold plain_header. rewrite !append_assoc. reflexivity.
Qed.

Lemma trace_post_line (argv : list m4_token_data) (expansion : string) (st : state) :
  trace st = EmptyString ->
  max_debug_argument_length e = 0 \/ strlen expansion < max_debug_argument_length e ->
  m4_trace_post e name id 3 argv (Some expansion) st
  = Ok (M4_DEBUG_PRINT1
          (plain_header e ++ c_str name ++ "(...) -> <" ++ c_str expansion ++ ">"
           ++ newline) st).
Proof.
  intros Hbuf Hlimit.
  destruct (call_args_expansion_quote_flags _ Hlevel)
    as (Hcall & Hargs & Hexp & Hquote & Hline & Hfile & Hid).
  pose proof (fun st0 => copy_limited_whole expansion _ st0 Hlimit) as Hr.
  unfold m4_trace_post. rewrite Hcall, Hexp.
  rewrite trace_header_plain by assumption.
  destruct st as [dbg buf fo fc wr]. cbn in Hbuf. subst buf.
  run_trace ltac:(rewrite ?Hquote, ?Hlq, ?Hrq;
                  first [rewrite copy_limited_0 | rewrite Hr]).
  rewrite c_str_append_nul by solve_nul_free.
  unfold plain_header. rewrite !append_assoc. reflexivity.
Qed.

End Calls.


End Lifecycle.



Section Router.

Lemma set_file_destination (e : env) (fp : FILE_ptr) (st : state) :
  m4_debug (m4_debug_set_file e fp st)
  = match fp with
    | Some stdout => Some stdout
    | Some s => if is_stdout_file e s then Some stdout else Some s
    | None => None
    end.
Proof.
  unfold m4_debug_set_file, is_stdout_file.
  destruct fp as [[| |h]|]; cbn; try reflexivity;
    destruct (fstat_result e stdout) as [so|]; try reflexivity.
  - destruct (fstat_result e stderr) as [sd|]; [|reflexivity].
    now destruct ((st_ino so =? st_ino sd) && (st_dev so =? st_dev sd)).
  - destruct (fstat_result e (opened h)) as [sd|]; [|reflexivity].
    now destruct ((st_ino so =? st_ino sd) && (st_dev so =? st_dev sd)).
Qed.

Lemma set_file_keeps_logs (e : env) (fp : FILE_ptr) (st : state) :
  fopen_log (m4_debug_set_file e fp st) = fopen_log st
  /\ written (m4_debug_set_file e fp st) = written st
  /\ trace (m4_debug_set_file e fp st) = trace st.
Proof.
  unfold m4_debug_set_file.
  destruct st as [dbg buf fo fc wr].
  destruct dbg as [[| |k]|], fp as [[| |h]|]; cbn;
    repeat match goal with
           | |- context [match ?x with _ => _ end] => destruct x; cbn
           end; repeat split; reflexivity.
Qed.

(** After aliasing, the handle that had been opened is the last stream
    closed. *)
Lemma set_file_closes_alias (e : env) (h : nat) (st : state) :
  is_stdout_file e (opened h) = true ->
  exists closed_before,
    fclose_log (m4_debug_set_file e (Some (opened h)) st)
    = (closed_before ++ [opened h])%list.
Proof.
  unfold m4_debug_set_file, is_stdout_file. intros H. cbn.
  destruct (fstat_result e stdout) as [so|]; [|discriminate].
  destruct (fstat_result e (opened h)) as [sd|]; [|discriminate].
  rewrite H. cbn. eexists. reflexivity.
Qed.

Lemma set_output_null (e : env) (st : state) :
  m4_debug_set_output e None st = (true, m4_debug_set_file e (Some stderr) st).
Proof. reflexivity. Qed.

Lemma set_output_empty (e : env) (name : string) (st : state) :
  starts_nul name = true ->
  m4_debug_set_output e (Some name) st = (true, m4_debug_set_file e None st).
Proof. intros H. unfold m4_debug_set_output. now rewrite H. Qed.

Lemma set_output_opened (e : env) (name : string) (h : nat) (st : state) :
  starts_nul name = false -> fopen_result e (c_str name) "a" = Some h ->
  m4_debug_set_output e (Some name) st
  = (true, m4_debug_set_file e (Some (opened h)) (snd (fopen e name "a" st))).
Proof.
  intros H1 H2. unfold m4_debug_set_output, fopen. now rewrite H1, H2.
Qed.

Lemma set_output_failed (e : env) (name : string) (st : state) :
  starts_nul name = false -> fopen_result e (c_str name) "a" = None ->
  m4_debug_set_output e (Some name) st = (false, snd (fopen e name "a" st)).
Proof.
  intros H1 H2. unfold m4_debug_set_output, fopen. now rewrite H1, H2.
Qed.

(** C6.  [m4_debug_set_output] on a NULL name selects standard error: it
    returns true after handing standard error to [m4_debug_set_file], which
    leaves it as the destination (or standard output, when standard error is
    the file standard output is connected to).  On an empty name it returns
    true with no destination, so that output is discarded.  Any other name is
    opened with mode "a"; when that succeeds the opened stream is handed on
    and becomes the destination (or standard output, when it is the same
    file); when it fails the call returns false and the destination, the
    closed streams, the trace buffer and the output are as before. *)
Theorem debug_set_output_cases (e : env) (st : state) :
  (m4_debug_set_output e None st = (true, m4_debug_set_file e (Some stderr) st)
   /\ m4_debug (snd (m4_debug_set_output e None st))
      = Some (if is_stdout_file e stderr then stdout else stderr)
   /\ fopen_log (snd (m4_debug_set_output e None st)) = fopen_log st)
  /\
  (forall name, starts_nul name = true ->
     m4_debug_set_output e (Some name) st = (true, m4_debug_set_file e None st)
     /\ m4_debug (snd (m4_debug_set_output e (Some name) st)) = None
     /\ fopen_log (snd (m4_debug_set_output e (Some name) st)) = fopen_log st)
  /\
  (forall name h, starts_nul name = false ->
     fopen_result e (c_str name) "a" = Some h ->
     m4_debug_set_output e (Some name) st
     = (true, m4_debug_set_file e (Some (opened h)) (snd (fopen e name "a" st)))
     /\ m4_debug (snd (m4_debug_set_output e (Some name) st))
        = Some (if is_stdout_file e (opened h) then stdout else opened h)
     /\ fopen_log (snd (m4_debug_set_output e (Some name) st))
        = (fopen_log st ++ [(c_str name, "a"%string)])%list)
  /\
  (forall name, starts_nul name = false ->
     fopen_result e (c_str name) "a" = None ->
     fst (m4_debug_set_output e (Some name) st) = false
     /\ m4_debug (snd (m4_debug_set_output e (Some name) st)) = m4_debug st
     /\ fclose_log (snd (m4_debug_set_output e (Some name) st)) = fclose_log st
     /\ trace (snd (m4_debug_set_output e (Some name) st)) = trace st
     /\ written (snd (m4_debug_set_output e (Some name) st)) = written st
     /\ fopen_log (snd (m4_debug_set_output e (Some name) st))
        = (fopen_log st ++ [(c_str name, "a"%string)])%list).
Proof.
  split; [|split; [|split]].
  - rewrite set_output_null. cbn [fst snd].
    rewrite set_file_destination.
    split; [reflexivity|]. split; [|apply set_file_keeps_logs].
    now destruct (is_stdout_file e stderr).
  - intros name Hnul. rewrite (set_output_empty e name st Hnul). cbn [fst snd].
    split; [reflexivity|]. split; [apply set_file_destination|apply set_file_keeps_logs].
  - intros name h Hnul Hopen. rewrite (set_output_opened e name h st Hnul Hopen).
    cbn [fst snd]. rewrite set_file_destination.
    split; [reflexivity|]. split.
    + now destruct (is_stdout_file e (opened h)).
    + now rewrite (proj1 (set_file_keeps_logs e _ _)).
  - intros name Hnul Hopen. rewrite (set_output_failed e name st Hnul Hopen).
    cbn [fst snd]. repeat split; reflexivity.
Qed.

(** C8.  When the stream [m4_debug_set_output] selects for [name] is the
    file standard output is connected to, the call returns true, the debug
    destination is the standard output stream itself, a handle that had been
    opened for [name] is the last stream closed, and a trace line flushed
    afterwards goes to standard output. *)
Theorem debug_set_output_aliases_stdout (e : env) (name : option string)
  (s : stream) (st : state) :
  selected e name = Some s -> is_stdout_file e s = true ->
  fst (m4_debug_set_output e name st) = true
  /\ m4_debug (snd (m4_debug_set_output e name st)) = Some stdout
  /\ (forall h, s = opened h ->
        exists closed_before,
          fclose_log (snd (m4_debug_set_output e name st))
          = (closed_before ++ [opened h])%list)
  /\ (forall st', m4_debug st' = m4_debug (snd (m4_debug_set_output e name st)) ->
        written (m4_trace_flush st')
        = (written st'
           ++ [(Some stdout, (c_str (trace st' ++ String NUL "") ++ newline)%string)])%list).
Proof.
  intros Hsel Hsame.
  assert (Hout : m4_debug_set_output e name st
                 = (true, m4_debug_set_file e (Some s)
                            (match name with
                             | Some n => snd (fopen e n "a" st)
                             | None => st
                             end))).
  { unfold m4_debug_set_output, selected in *. destruct name as [n|].
    - destruct (starts_nul n); [discriminate|]. unfold fopen. cbn.
      destruct (fopen_result e (c_str n) "a") as [h|]; [|discriminate].
      cbn in Hsel. injection Hsel as <-. reflexivity.
    - injection Hsel as <-. reflexivity. }
  rewrite Hout. cbn [fst snd].
  assert (Hdst : m4_debug (m4_debug_set_file e (Some s)
                             (match name with
                              | Some n => snd (fopen e n "a" st)
                              | None => st
                              end)) = Some stdout).
  { rewrite set_file_destination. destruct s; [|reflexivity|]; now rewrite Hsame. }
  repeat split.
  - exact Hdst.
  - intros h ->. now apply set_file_closes_alias.
  - intros st' Hst'. rewrite Hdst in Hst'.
    unfold m4_trace_flush, M4_DEBUG_PRINT1, obstack_1grow, set_trace. cbn.
    now rewrite Hst'.
Qed.

End Router.

Lemma debug_set_output_cases_witness :
  fst (m4_debug_set_output (Examples.env_with 0 0) (Some "trace.log"%string)
         Examples.initial_state) = false
  /\ m4_debug (snd (m4_debug_set_output (Examples.env_with 0 0)
                      (Some "trace.log"%string) Examples.initial_state))
     = Some stderr.
Proof.
  pose proof (proj2 (proj2 (proj2 (debug_set_output_cases (Examples.env_with 0 0)
                                     Examples.initial_state)))
                "trace.log"%string eq_refl eq_refl) as (H1 & H2 & _).
  split; [exact H1 | exact H2].
Defined.

Lemma debug_set_output_aliases_stdout_witness :
  m4_debug (snd (m4_debug_set_output Examples.env_out_log (Some "out.log"%string)
                   Examples.initial_state)) = Some stdout.
Proof.
  exact (proj1 (proj2 (debug_set_output_aliases_stdout Examples.env_out_log
                         (Some "out.log"%string) (opened 0) Examples.initial_state
                         eq_refl eq_refl))).
Defined.

End DebugProps.

(** ** Properties of utility.c *)

Module UtilityProps.
Import Utility CStrFacts.

Section Diagnostics.

Lemma warnings_plain_fields (c : m4) :
  warnings_plain c = true ->
  m4_get_suppress_warnings_opt c = false
  /\ m4_get_fatal_warnings_opt c = false
  /\ location_assert c = true.
Proof.
  unfold warnings_plain. intros H.
  apply andb_prop in H as [H Hloc]. apply andb_prop in H as [Hs Hf].
  apply negb_true_iff in Hs, Hf. auto.
Qed.

(** A suppressed warning changes nothing. *)
Lemma warn_suppressed (errnum : Z) (format : string) (args : list vararg) (w : world) :
  m4_get_suppress_warnings_opt (context w) = true ->
  m4_warn errnum format args w = Returns tt w.
Proof. intros H. unfold m4_warn. now rewrite H. Qed.

(** A plain warning prints one message and returns. *)
Lemma warn_plain (errnum : Z) (format : string) (args : list vararg) (w : world) :
  warnings_plain (context w) = true ->
  m4_warn errnum format args w
  = Returns tt (print_diagnostic (warning (context w) errnum format args) w).
Proof.
  intros H. destruct (warnings_plain_fields _ H) as (Hs & Hf & Hloc).
  unfold m4_warn, verror_at_line, warning, xasprintf_warning.
  now rewrite Hs, Hf, Hloc.
Qed.

(** A fatal warning prints one message and ends the process. *)
Lemma warn_fatal (errnum : Z) (format : string) (args : list vararg) (w : world) :
  m4_get_suppress_warnings_opt (context w) = false ->
  m4_get_fatal_warnings_opt (context w) = true ->
  location_assert (context w) = true ->
  m4_warn errnum format args w
  = Exits EXIT_FAILURE (print_diagnostic (warning (context w) errnum format args) w).
Proof.
  intros Hs Hf Hloc.
  unfold m4_warn, verror_at_line, warning, xasprintf_warning.
  now rewrite Hs, Hf, Hloc.
Qed.

(** However [m4_warn] ends, the exit status of the context is the one it
    started with. *)
Lemma warn_keeps_exit_status (errnum : Z) (format : string) (args : list vararg)
  (w : world) :
  exists w', final_world (m4_warn errnum format args w) = Some w'
             /\ m4_get_exit_status (context w') = m4_get_exit_status (context w).
Proof.
  unfold m4_warn, verror_at_line.
  destruct (m4_get_suppress_warnings_opt (context w)); cbn; [eauto|].
  destruct (location_assert (context w)); cbn; [|eauto].
  destruct (m4_get_fatal_warnings_opt (context w)); cbn; eauto.
Qed.

(** C7.  [m4_warn] with warnings suppressed prints nothing and changes
    nothing.  However it ends, it leaves the exit status of the context as it
    was: when it prints, it returns with one more message printed, or, with
    fatal warnings, ends the process with the failure status.  [m4_error]
    with status 0 and warnings not fatal prints its message, sets the exit
    status to failure and returns. *)
Theorem warn_and_error_exit_status (errnum : Z) (format : string)
  (args : list vararg) (w : world) :
  (m4_get_suppress_warnings_opt (context w) = true ->
   m4_warn errnum format args w = Returns tt w)
  /\
  (exists w', final_world (m4_warn errnum format args w) = Some w'
              /\ m4_get_exit_status (context w') = m4_get_exit_status (context w))
  /\
  (m4_get_suppress_warnings_opt (context w) = false ->
   location_assert (context w) = true ->
   exists w',
     m4_warn errnum format args w
     = (if m4_get_fatal_warnings_opt (context w)
        then Exits EXIT_FAILURE w' else Returns tt w')
     /\ diagnostics w'
        = (diagnostics w ++ [warning (context w) errnum format args])%list
     /\ m4_get_exit_status (context w') = m4_get_exit_status (context w))
  /\
  (m4_get_fatal_warnings_opt (context w) = false ->
   location_assert (context w) = true ->
   exists w',
     m4_error EXIT_SUCCESS errnum format args w = Returns tt w'
     /\ m4_get_exit_status (context w') = EXIT_FAILURE
     /\ length (diagnostics w') = S (length (diagnostics w))).
Proof.
  split; [apply warn_suppressed|].
  split; [apply warn_keeps_exit_status|].
  split.
  - intros Hs Hloc.
    exists (print_diagnostic (warning (context w) errnum format args) w).
    split; [|split; reflexivity].
    destruct (m4_get_fatal_warnings_opt (context w)) eqn:Hf.
    + now apply warn_fatal.
    + apply warn_plain. unfold warnings_plain. now rewrite Hs, Hf, Hloc.
  - intros Hf Hloc. unfold m4_error, verror_at_line. rewrite Hf, Hloc. cbn.
    eexists. split; [reflexivity|]. split; [reflexivity|].
    cbn. rewrite length_app. cbn. lia.
Qed.

End Diagnostics.

Lemma warn_and_error_exit_status_witness :
  m4_warn 0 "late" [] (Examples.world_with true false)
  = Returns tt (Examples.world_with true false)
  /\ exists w',
       m4_error EXIT_SUCCESS 0 "bad" [] (Examples.world_with false false)
       = Returns tt w'
       /\ m4_get_exit_status (context w') = EXIT_FAILURE
       /\ length (diagnostics w') = 1%nat.
Proof.
  split.
  - exact (proj1 (warn_and_error_exit_status 0 "late" []
                    (Examples.world_with true false)) eq_refl).
  - exact (proj2 (proj2 (proj2 (warn_and_error_exit_status 0 "bad" []
                                  (Examples.world_with false false))))
             eq_refl eq_refl).
Defined.

Section ArgumentCount.
Context {ext : Externals}.

Lemma argc_minus_1_unsigned (argc : Z) :
  1 <= argc <= INT_MAX -> to_unsigned (to_int (argc - 1)) = argc - 1.
Proof.
  unfold to_unsigned, to_int, INT_MAX, INT_MIN, UINT_MAX. intros H.
  rewrite (Z.mod_small (argc - 1 - -2147483648)) by lia.
  rewrite Z.mod_small by lia. lia.
Qed.

Lemma argc_minus_1_int (argc : Z) :
  1 <= argc <= INT_MAX -> to_int (argc - 1) = argc - 1.
Proof.
  unfold to_int, INT_MAX, INT_MIN, UINT_MAX. intros H.
  rewrite Z.mod_small by lia. lia.
Qed.

(** With warnings suppressed [m4_bad_argc] returns the same values and
    prints nothing. *)
Lemma bad_argc_suppressed (argc : Z) (argv : list m4_symbol_value) (min max : Z)
  (side_effect : bool) (w : world) :
  m4_get_suppress_warnings_opt (context w) = true -> 1 <= argc <= INT_MAX ->
  m4_bad_argc argc argv min max side_effect w
  = Returns (if argc - 1 <? min then negb side_effect else false) w.
Proof.
  intros Hs Hargc. unfold m4_bad_argc.
  rewrite (argc_minus_1_unsigned _ Hargc).
  destruct (argc - 1 <? min).
  - now rewrite warn_suppressed.
  - destruct (argc - 1 >? max); [now rewrite warn_suppressed | reflexivity].
Qed.

(** With fatal warnings a call that lacks arguments prints its warning and
    ends the process: no value is returned. *)
Lemma bad_argc_fatal (argc : Z) (argv : list m4_symbol_value) (min max : Z)
  (side_effect : bool) (w : world) :
  m4_get_suppress_warnings_opt (context w) = false ->
  m4_get_fatal_warnings_opt (context w) = true ->
  location_assert (context w) = true ->
  1 <= argc <= INT_MAX -> argc - 1 < min ->
  m4_bad_argc argc argv min max side_effect w
  = Exits EXIT_FAILURE
      (print_diagnostic
         (warning (context w) 0 "%s: too few arguments: %d < %d"
            [va_string (M4ARG argc argv 0); va_int (argc - 1); va_int min]) w).
Proof.
  intros Hs Hf Hloc Hargc Hmin. unfold m4_bad_argc.
  rewrite (argc_minus_1_unsigned _ Hargc), (argc_minus_1_int _ Hargc).
  apply Z.ltb_lt in Hmin. rewrite Hmin.
  now rewrite (warn_fatal _ _ _ _ Hs Hf Hloc).
Qed.

(** C3, amended.  With warnings printed and not fatal, and [argc] at least
    1: when [argc - 1 < min], [m4_bad_argc] prints exactly the "too few
    arguments" warning and returns the negation of [side_effect]; otherwise,
    when [argc - 1 > max], it prints exactly the "extra arguments" warning
    and returns false; otherwise it prints nothing and returns false.  It
    returns true only when the minimum is unmet and [side_effect] is false. *)
Theorem bad_argc_cases (argc : Z) (argv : list m4_symbol_value) (min max : Z)
  (side_effect : bool) (w : world) :
  warnings_plain (context w) = true -> 1 <= argc <= INT_MAX ->
  (argc - 1 < min ->
   m4_bad_argc argc argv min max side_effect w
   = Returns (negb side_effect)
       (print_diagnostic
          (warning (context w) 0 "%s: too few arguments: %d < %d"
             [va_string (M4ARG argc argv 0); va_int (argc - 1); va_int min]) w))
  /\
  (min <= argc - 1 -> max < argc - 1 ->
   m4_bad_argc argc argv min max side_effect w
   = Returns false
       (print_diagnostic
          (warning (context w) 0 "%s: extra arguments ignored: %d > %d"
             [va_string (M4ARG argc argv 0); va_int (argc - 1); va_int max]) w))
  /\
  (min <= argc - 1 <= max ->
   m4_bad_argc argc argv min max side_effect w = Returns false w)
  /\
  (forall w', m4_bad_argc argc argv min max side_effect w = Returns true w' ->
              argc - 1 < min /\ side_effect = false).
Proof.
  intros Hplain Hargc. unfold m4_bad_argc.
  rewrite (argc_minus_1_unsigned _ Hargc), (argc_minus_1_int _ Hargc).
  rewrite !(warn_plain _ _ _ _ Hplain). cbn [bind].
  repeat split.
  - intros H. apply Z.ltb_lt in H. now rewrite H.
  - intros H1 H2. apply Z.ltb_ge in H1. rewrite H1.
    apply Z.gtb_lt in H2. now rewrite H2.
  - intros [H1 H2]. apply Z.ltb_ge in H1. rewrite H1.
    replace (argc - 1 >? max) with false; [reflexivity|].
    symmetry. rewrite Z.gtb_ltb. apply Z.ltb_ge. exact H2.
  - destruct (argc - 1 <? min) eqn:E; [now apply Z.ltb_lt|].
    destruct (argc - 1 >? max); discriminate.
  - destruct (argc - 1 <? min) eqn:E.
    + destruct side_effect; [discriminate | reflexivity].
    + destruct (argc - 1 >? max); discriminate.
Qed.

End ArgumentCount.

Lemma bad_argc_cases_witness :
  m4_bad_argc (ext := Examples.text_args) 1 ["foo"%string] 1 2 false
    (Examples.world_with false false)
  = Returns true
      (print_diagnostic
         (warning (Examples.context_with false false) 0
            "%s: too few arguments: %d < %d"
            [va_string "foo"; va_int 0; va_int 1])
         (Examples.world_with false false)).
Proof.
  refine (proj1 (bad_argc_cases (ext := Examples.text_args) 1 ["foo"%string] 1 2 false
                   (Examples.world_with false false) _ _) _).
  - reflexivity.
  - unfold INT_MAX. lia.
  - reflexivity.
Defined.

(** C3 as worded fails: with warnings suppressed, a call that lacks an
    argument returns true and the number of messages printed stays as it
    was, where the wording has one warning printed. *)
Lemma bad_argc_suppressed_prints_nothing :
  1 - 1 < 1
  /\ exists w',
       m4_bad_argc (ext := Examples.text_args) 1 ["foo"%string] 1 2 false
         (Examples.world_with true false) = Returns true w'
       /\ length (diagnostics w')
          <> S (length (diagnostics (Examples.world_with true false))).
Proof.
  split; [reflexivity|].
  exists (Examples.world_with true false). split; [reflexivity|].
  cbn. discriminate.
Qed.

Section NumericArgument.
Context {ext : Externals}.

Lemma is_nul_eq (ch : ascii) : is_nul ch = true -> ch = NUL.
Proof. apply Ascii.eqb_eq. Qed.

Lemma isdigit_facts (d : ascii) :
  isdigit d = true ->
  is_nul d = false /\ isspace d = false /\ d <> "-"%char /\ d <> "+"%char
  /\ 0 <= digit_value d <= 9.
Proof.
  destruct d as [[] [] [] [] [] [] [] []]; intros H; try discriminate H;
    (repeat split; try reflexivity; try discriminate; cbn; lia).
Qed.

Section Scanning.
Variable c : m4.
Hypothesis nul_no_space : m4_has_syntax_space c NUL = false.

Lemma skip_space_spaces (ws rest : string) :
  all_chars (m4_has_syntax_space c) ws = true ->
  skip_space c (ws ++ rest) = skip_space c rest.
Proof.
  unfold all_chars. induction ws as [|ch ws IH]; cbn; intros H; [reflexivity|].
  apply andb_prop in H as [Hch Hws].
  destruct (is_nul ch) eqn:E.
  - apply is_nul_eq in E. subst ch. congruence.
  - rewrite Hch. now apply IH.
Qed.

Lemma skip_space_stop (s : string) :
  starts_with (m4_has_syntax_space c) s = false -> skip_space c s = Some s.
Proof.
  destruct s as [|ch rest]; cbn; intros H.
  - now rewrite nul_no_space.
  - rewrite H, nul_no_space. now destruct (is_nul ch).
Qed.

Lemma skip_space_all (ws : string) :
  all_chars (m4_has_syntax_space c) ws = true -> skip_space c ws = Some EmptyString.
Proof.
  intros H. rewrite <- (append_nil_r ws), (skip_space_spaces ws _ H).
  now apply skip_space_stop.
Qed.

End Scanning.

Lemma strtol_digits_append (digits rest : string) :
  all_chars isdigit digits = true -> starts_with isdigit rest = false ->
  forall acc,
    strtol_digits (digits ++ rest) acc
    = (fold_left (fun a ch => a * 10 + digit_value ch) (chars digits) acc, rest).
Proof.
  unfold all_chars. intros Hd Hrest.
  induction digits as [|d ds IH]; cbn [append strtol_digits chars fold_left]; intros acc.
  - destruct rest as [|ch rest']; [reflexivity|].
    cbn [starts_with] in Hrest. cbn [strtol_digits]. now rewrite Hrest.
  - cbn [chars forallb] in Hd. apply andb_prop in Hd as [Hd Hds].
    rewrite Hd. now apply IH.
Qed.

Lemma fold_digits_nonneg (l : list ascii) :
  forallb isdigit l = true ->
  forall acc, 0 <= acc ->
    0 <= fold_left (fun a ch => a * 10 + digit_value ch) l acc.
Proof.
  induction l as [|d l IH]; cbn [forallb fold_left]; intros H acc Hacc; [exact Hacc|].
  apply andb_prop in H as [Hd Hl]. apply IH; [exact Hl|].
  destruct (isdigit_facts d Hd) as (_ & _ & _ & _ & Hv). lia.
Qed.

Lemma decimal_value_nonneg (digits : string) :
  all_chars isdigit digits = true -> 0 <= decimal_value digits.
Proof. intros H. apply fold_digits_nonneg; [exact H | lia]. Qed.

(** [strtol] on digits followed by something that is no digit: the value
    of the digits, cut to the range of [long], and the rest. *)
Lemma strtol_number (digits rest : string) :
  digits <> EmptyString -> all_chars isdigit digits = true ->
  starts_with isdigit rest = false ->
  strtol (digits ++ rest) = (clamp_long (decimal_value digits), rest).
Proof.
  intros Hne Hd Hrest. destruct digits as [|d ds]; [congruence|].
  assert (Hd0 : isdigit d = true).
  { unfold all_chars in Hd. cbn [chars forallb] in Hd.
    now apply andb_prop in Hd as [Hd _]. }
  destruct (isdigit_facts d Hd0) as (_ & Hsp & Hminus & Hplus & _).
  unfold strtol. cbn [append skip_isspace]. rewrite Hsp.
  assert (Hsign :
    match String d (ds ++ rest) with
    | String "-"%char r => (true, r)
    | String "+"%char r => (false, r)
    | _ => (false, String d (ds ++ rest))
    end = (false, String d (ds ++ rest))).
  { clear - Hminus Hplus.
    destruct d as [[] [] [] [] [] [] [] []]; try reflexivity; congruence. }
  rewrite Hsign. rewrite Hd0.
  change (String d (ds ++ rest)) with (String d ds ++ rest)%string.
  now rewrite (strtol_digits_append _ _ Hd Hrest).
Qed.

Lemma int_value_fits (v : Z) :
  0 <= v <= INT_MAX -> INT_MAX <= LONG_MAX -> to_int (clamp_long v) = v.
Proof.
  unfold to_int, clamp_long, LONG_MIN, INT_MAX, INT_MIN, UINT_MAX. intros H HL.
  unfold INT_MAX in HL.
  rewrite Z.min_r by lia. rewrite Z.max_r by lia.
  rewrite Z.mod_small by lia. lia.
Qed.

Lemma spaces_not_digit_start (c : m4) (ws : string) :
  (forall ch, isdigit ch = true -> m4_has_syntax_space c ch = false) ->
  all_chars (m4_has_syntax_space c) ws = true -> starts_with isdigit ws = false.
Proof.
  intros Hdig Hws. destruct ws as [|ch ws]; [reflexivity|].
  unfold all_chars in Hws. cbn [chars forallb] in Hws.
  apply andb_prop in Hws as [Hch _]. cbn [starts_with].
  destruct (isdigit ch) eqn:E; [|reflexivity].
  rewrite (Hdig ch E) in Hch. discriminate.
Qed.

Lemma warn_returns_valuep (errnum : Z) (format : string) (args : list vararg)
  (w w' : world) :
  m4_warn errnum format args w = Returns tt w' -> valuep w' = valuep w.
Proof.
  unfold m4_warn, verror_at_line.
  destruct (m4_get_suppress_warnings_opt (context w)); cbn.
  - intros H. now injection H as <-.
  - destruct (location_assert (context w)); cbn; [|discriminate].
    destruct (m4_get_fatal_warnings_opt (context w)); cbn; [discriminate|].
    intros H. now injection H as <-.
Qed.

Section Parse.
Variables (argc : Z) (argv : list m4_symbol_value) (arg : Z) (w : world).
Hypothesis Hplain : warnings_plain (context w) = true.
Hypothesis nul_no_space : m4_has_syntax_space (context w) NUL = false.
Hypothesis digit_no_space :
  forall ch, isdigit ch = true -> m4_has_syntax_space (context w) ch = false.
Hypothesis long_holds_int : INT_MAX <= LONG_MAX.

Lemma numeric_arg_empty :
  starts_nul (M4ARG argc argv arg) = true ->
  m4_numeric_arg argc argv arg w
  = Returns true
      (print_diagnostic
         (warning (context w) 0 "%s: empty string treated as 0"
            [va_string (M4ARG argc argv 0)])
         (store_valuep 0 w)).
Proof.
  intros H. unfold m4_numeric_arg. rewrite H.
  now rewrite (warn_plain 0 _ _ (store_valuep 0 w) Hplain).
Qed.

Lemma text_not_empty (ws1 digits rest : string) :
  digits <> EmptyString -> all_chars isdigit digits = true ->
  all_chars (m4_has_syntax_space (context w)) ws1 = true ->
  starts_nul (ws1 ++ digits ++ rest) = false.
Proof.
  intros Hne Hd Hws.
  destruct ws1 as [|ch ws1].
  - destruct digits as [|d ds]; [congruence|].
    unfold all_chars in Hd. cbn [chars forallb] in Hd.
    apply andb_prop in Hd as [Hd _].
    now destruct (isdigit_facts d Hd) as (Hn & _).
  - unfold all_chars in Hws. cbn [chars forallb] in Hws.
    apply andb_prop in Hws as [Hch _]. cbn [append starts_nul].
    destruct (is_nul ch) eqn:E; [|reflexivity].
    apply is_nul_eq in E. subst ch. congruence.
Qed.

Lemma skip_to_digits (ws1 digits rest : string) :
  digits <> EmptyString -> all_chars isdigit digits = true ->
  all_chars (m4_has_syntax_space (context w)) ws1 = true ->
  skip_space (context w) (ws1 ++ digits ++ rest) = Some (digits ++ rest)%string.
Proof.
  intros Hne Hd Hws.
  rewrite (skip_space_spaces _ nul_no_space _ _ Hws).
  apply (skip_space_stop _ nul_no_space).
  destruct digits as [|d ds]; [congruence|].
  unfold all_chars in Hd. cbn [chars forallb] in Hd.
  apply andb_prop in Hd as [Hd _]. cbn [append starts_with].
  now apply digit_no_space.
Qed.

Lemma numeric_arg_number (ws1 digits ws2 : string) :
  M4ARG argc argv arg = (ws1 ++ digits ++ ws2)%string ->
  all_chars (m4_has_syntax_space (context w)) ws1 = true ->
  all_chars (m4_has_syntax_space (context w)) ws2 = true ->
  digits <> EmptyString -> all_chars isdigit digits = true ->
  decimal_value digits <= INT_MAX ->
  m4_numeric_arg argc argv arg w
  = Returns true (store_valuep (decimal_value digits) w).
Proof.
  intros Htext Hws1 Hws2 Hne Hd Hfit. unfold m4_numeric_arg. rewrite Htext.
  rewrite (text_not_empty ws1 digits ws2 Hne Hd Hws1).
  rewrite (skip_to_digits ws1 digits ws2 Hne Hd Hws1).
  rewrite (strtol_number digits ws2 Hne Hd
             (spaces_not_digit_start _ _ digit_no_space Hws2)).
  rewrite int_value_fits
    by (try split; auto using decimal_value_nonneg).
  cbn [context store_valuep].
  rewrite (skip_space_all _ nul_no_space _ Hws2). reflexivity.
Qed.

Lemma numeric_arg_trailing (ws1 digits ws2 : string) (ch : ascii) (rest : string) :
  M4ARG argc argv arg = (ws1 ++ digits ++ ws2 ++ String ch rest)%string ->
  all_chars (m4_has_syntax_space (context w)) ws1 = true ->
  all_chars (m4_has_syntax_space (context w)) ws2 = true ->
  digits <> EmptyString -> all_chars isdigit digits = true ->
  decimal_value digits <= INT_MAX ->
  is_nul ch = false -> m4_has_syntax_space (context w) ch = false ->
  isdigit ch = false ->
  m4_numeric_arg argc argv arg w
  = Returns false
      (print_diagnostic
         (warning (context w) 0 "%s: non-numeric argument `%s'"
            [va_string (M4ARG argc argv 0); va_string (M4ARG argc argv arg)])
         (store_valuep (decimal_value digits) w)).
Proof.
  intros Htext Hws1 Hws2 Hne Hd Hfit Hnul Hsp Hnd. unfold m4_numeric_arg.
  set (args := [va_string (M4ARG argc argv 0); va_string (M4ARG argc argv arg)]).
  rewrite Htext.
  rewrite (text_not_empty ws1 digits _ Hne Hd Hws1).
  rewrite (skip_to_digits ws1 digits _ Hne Hd Hws1).
  assert (Hstart : starts_with isdigit (ws2 ++ String ch rest) = false).
  { destruct ws2 as [|x ws2]; [exact Hnd|].
    apply (spaces_not_digit_start _ (String x ws2) digit_no_space) in Hws2.
    exact Hws2. }
  rewrite (strtol_number digits _ Hne Hd Hstart).
  rewrite int_value_fits
    by (try split; auto using decimal_value_nonneg).
  cbn [context store_valuep].
  rewrite (skip_space_spaces _ nul_no_space _ _ Hws2).
  rewrite (skip_space_stop _ nul_no_space) by exact Hsp.
  cbn [starts_nul negb]. rewrite Hnul. cbn [negb].
  now rewrite (warn_plain 0 _ _ (store_valuep (decimal_value digits) w) Hplain).
Qed.

End Parse.

(** Whenever [m4_numeric_arg] returns true, the [int] behind [valuep]
    holds the number: 0 for the empty argument, and otherwise what [strtol]
    gave for the text behind the leading spaces. *)
Lemma numeric_arg_success_value (argc : Z) (argv : list m4_symbol_value) (arg : Z)
  (w w' : world) :
  m4_numeric_arg argc argv arg w = Returns true w' ->
  valuep w'
  = if starts_nul (M4ARG argc argv arg) then 0
    else match skip_space (context w) (M4ARG argc argv arg) with
         | Some nptr => to_int (fst (strtol nptr))
         | None => 0
         end.
Proof.
  unfold m4_numeric_arg.
  destruct (starts_nul (M4ARG argc argv arg)).
  - destruct (m4_warn 0 "%s: empty string treated as 0"
                [va_string (M4ARG argc argv 0)] (store_valuep 0 w))
      as [[] w1|st w1|w1|] eqn:Ew; cbn [bind]; try discriminate.
    intros H. injection H as H. subst w1.
    now rewrite (warn_returns_valuep _ _ _ _ _ Ew).
  - destruct (skip_space (context w) (M4ARG argc argv arg)) as [nptr|];
      [|discriminate].
    destruct (strtol nptr) as [v endp]. cbn [context store_valuep fst].
    destruct (skip_space (context w) endp) as [tail|]; [|discriminate].
    destruct (starts_nul tail); cbn [negb].
    + intros H. injection H as H. now subst w'.
    + destruct (m4_warn 0 "%s: non-numeric argument `%s'"
                  [va_string (M4ARG argc argv 0); va_string (M4ARG argc argv arg)]
                  (store_valuep (to_int v) w)) as [[] w1|st w1|w1|];
        cbn [bind]; discriminate.
Qed.

(** C4, amended.  With warnings printed and not fatal, a syntax table in
    which neither NUL nor any digit is a space, and a [long] that holds every
    [int]: an empty argument stores 0, prints one warning and succeeds; an
    argument made of digits between runs of syntax-table spaces, denoting a
    number that fits an [int], stores that number, prints nothing and
    succeeds; when such a number is followed, after spaces, by a byte that is
    neither a space nor a digit, one warning is printed and the call fails.
    Each successful call leaves the number where [valuep] points. *)
Theorem numeric_arg_cases (argc : Z) (argv : list m4_symbol_value) (arg : Z)
  (w : world) :
  warnings_plain (context w) = true ->
  m4_has_syntax_space (context w) NUL = false ->
  (forall ch, isdigit ch = true -> m4_has_syntax_space (context w) ch = false) ->
  INT_MAX <= LONG_MAX ->
  (starts_nul (M4ARG argc argv arg) = true ->
   exists w',
     m4_numeric_arg argc argv arg w = Returns true w'
     /\ valuep w' = 0
     /\ diagnostics w'
        = (diagnostics w
           ++ [warning (context w) 0 "%s: empty string treated as 0"
                 [va_string (M4ARG argc argv 0)]])%list)
  /\
  (forall ws1 digits ws2,
     M4ARG argc argv arg = (ws1 ++ digits ++ ws2)%string ->
     all_chars (m4_has_syntax_space (context w)) ws1 = true ->
     all_chars (m4_has_syntax_space (context w)) ws2 = true ->
     digits <> EmptyString -> all_chars isdigit digits = true ->
     decimal_value digits <= INT_MAX ->
     exists w',
       m4_numeric_arg argc argv arg w = Returns true w'
       /\ valuep w' = decimal_value digits
       /\ diagnostics w' = diagnostics w)
  /\
  (forall ws1 digits ws2 ch rest,
     M4ARG argc argv arg = (ws1 ++ digits ++ ws2 ++ String ch rest)%string ->
     all_chars (m4_has_syntax_space (context w)) ws1 = true ->
     all_chars (m4_has_syntax_space (context w)) ws2 = true ->
     digits <> EmptyString -> all_chars isdigit digits = true ->
     decimal_value digits <= INT_MAX ->
     is_nul ch = false -> m4_has_syntax_space (context w) ch = false ->
     isdigit ch = false ->
     exists w',
       m4_numeric_arg argc argv arg w = Returns false w'
       /\ diagnostics w'
          = (diagnostics w
             ++ [warning (context w) 0 "%s: non-numeric argument `%s'"
                   [va_string (M4ARG argc argv 0);
                    va_string (M4ARG argc argv arg)]])%list)
  /\
  (forall w',
     m4_numeric_arg argc argv arg w = Returns true w' ->
     valuep w'
     = if starts_nul (M4ARG argc argv arg) then 0
       else match skip_space (context w) (M4ARG argc argv arg) with
            | Some nptr => to_int (fst (strtol nptr))
            | None => 0
            end).
Proof.
  intros Hplain Hnul Hdig Hlong. split; [|split; [|split]];
    [| | |intros w'; apply numeric_arg_success_value].
  - intros H. rewrite (numeric_arg_empty argc argv arg w Hplain H).
    eexists. split; [reflexivity|]. split; reflexivity.
  - intros ws1 digits ws2 Ht H1 H2 Hne Hd Hfit.
    rewrite (numeric_arg_number argc argv arg w Hnul Hdig Hlong
               ws1 digits ws2 Ht H1 H2 Hne Hd Hfit).
    eexists. split; [reflexivity|]. split; reflexivity.
  - intros ws1 digits ws2 ch rest Ht H1 H2 Hne Hd Hfit Hn Hs Hnd.
    rewrite (numeric_arg_trailing argc argv arg w Hplain Hnul Hdig Hlong
               ws1 digits ws2 ch rest Ht H1 H2 Hne Hd Hfit Hn Hs Hnd).
    eexists. split; reflexivity.
Qed.

(** However [m4_warn] ends, the [int] behind [valuep] is as before. *)
Lemma warn_keeps_valuep (errnum : Z) (format : string) (args : list vararg)
  (w : world) :
  exists w', final_world (m4_warn errnum format args w) = Some w'
             /\ valuep w' = valuep w.
Proof.
  unfold m4_warn, verror_at_line.
  destruct (m4_get_suppress_warnings_opt (context w)); cbn; [eauto|].
  destruct (location_assert (context w)); cbn; [|eauto].
  destruct (m4_get_fatal_warnings_opt (context w)); cbn; eauto.
Qed.

(** C9.  On an argument that is not empty: when [m4_numeric_arg] returns
    false, what follows the number and the spaces after it is not the end of
    the argument, and the [int] that [valuep] points to holds the value
    [strtol] gave for the text in front, whatever was there before.
    Conversely, when the number is followed by such trailing text, the value
    is stored however the call ends, and the call returns false unless a
    fatal warning ends the process or an assertion fails. *)
Theorem numeric_arg_failure_stores_prefix (argc : Z) (argv : list m4_symbol_value)
  (arg : Z) (w : world) :
  starts_nul (M4ARG argc argv arg) = false ->
  (forall w',
     m4_numeric_arg argc argv arg w = Returns false w' ->
     exists nptr tail,
       skip_space (context w) (M4ARG argc argv arg) = Some nptr
       /\ skip_space (context w) (snd (strtol nptr)) = Some tail
       /\ starts_nul tail = false
       /\ valuep w' = to_int (fst (strtol nptr)))
  /\
  (forall nptr tail,
     skip_space (context w) (M4ARG argc argv arg) = Some nptr ->
     skip_space (context w) (snd (strtol nptr)) = Some tail ->
     starts_nul tail = false ->
     exists w',
       final_world (m4_numeric_arg argc argv arg w) = Some w'
       /\ valuep w' = to_int (fst (strtol nptr))
       /\ (m4_get_suppress_warnings_opt (context w) = true
           \/ warnings_plain (context w) = true ->
           m4_numeric_arg argc argv arg w = Returns false w')).
Proof.
  intros Hne. split.
  - intros w'. unfold m4_numeric_arg. rewrite Hne.
    destruct (skip_space (context w) (M4ARG argc argv arg)) as [nptr|];
      [|discriminate].
    destruct (strtol nptr) as [v endp] eqn:Estr. cbn [context store_valuep fst snd].
    destruct (skip_space (context w) endp) as [tail|] eqn:Eskip; [|discriminate].
    destruct (starts_nul tail) eqn:Etail; cbn [negb]; [discriminate|].
    destruct (m4_warn 0 "%s: non-numeric argument `%s'"
                [va_string (M4ARG argc argv 0); va_string (M4ARG argc argv arg)]
                (store_valuep (to_int v) w)) as [[] w1|st w1|w1|] eqn:Ew;
      cbn [bind]; try discriminate.
    intros H. injection H as H. subst w1.
    exists nptr, tail. rewrite Estr. cbn [fst snd].
    split; [reflexivity|]. split; [exact Eskip|]. split; [exact Etail|].
    now rewrite (warn_returns_valuep _ _ _ _ _ Ew).
  - intros nptr tail Hskip Htail Hstart. unfold m4_numeric_arg.
    rewrite Hne, Hskip.
    destruct (strtol nptr) as [v endp] eqn:Estr.
    cbn [context store_valuep fst snd] in *. rewrite Htail, Hstart. cbn [negb].
    set (args := [va_string (M4ARG argc argv 0); va_string (M4ARG argc argv arg)]).
    destruct (m4_get_suppress_warnings_opt (context w)) eqn:Hs.
    + rewrite (warn_suppressed 0 _ args (store_valuep (to_int v) w) Hs). cbn [bind].
      eexists. split; [reflexivity|]. split; [reflexivity|]. reflexivity.
    + destruct (warnings_plain (context w)) eqn:Hp.
      * rewrite (warn_plain 0 _ args (store_valuep (to_int v) w) Hp). cbn [bind].
        eexists. split; [reflexivity|]. split; [reflexivity|]. reflexivity.
      * destruct (warn_keeps_valuep 0 "%s: non-numeric argument `%s'" args
                    (store_valuep (to_int v) w)) as (w1 & Hw1 & Hv).
        exists w1. split.
        -- destruct (m4_warn 0 "%s: non-numeric argument `%s'" args
                       (store_valuep (to_int v) w)) as [[] w2|status w2|w2|];
             cbn [bind final_world] in *; congruence.
        -- split; [exact Hv|]. intros [H|H]; discriminate.
Qed.

End NumericArgument.

Lemma numeric_arg_cases_witness :
  exists w',
    m4_numeric_arg (ext := Examples.text_args) 2 ["incr"; "  42  "]%string 1
      (Examples.world_with false false) = Returns true w'
    /\ valuep w' = 42
    /\ diagnostics w' = [].
Proof.
  refine (proj1 (proj2 (numeric_arg_cases (ext := Examples.text_args) 2
                          ["incr"; "  42  "]%string 1
                          (Examples.world_with false false) _ _ _ _))
            "  "%string "42"%string "  "%string _ _ _ _ _ _).
  - reflexivity.
  - reflexivity.
  - intros ch H. destruct ch as [[] [] [] [] [] [] [] []];
      try discriminate H; reflexivity.
  - vm_compute. discriminate.
  - reflexivity.
  - reflexivity.
  - reflexivity.
  - discriminate.
  - reflexivity.
  - vm_compute. discriminate.
Defined.

(** C4 as worded fails: with warnings suppressed, the empty argument
    stores 0 and succeeds, and the number of messages printed stays as it
    was, where the wording has one warning printed. *)
Lemma numeric_arg_empty_suppressed_prints_nothing :
  exists w',
    m4_numeric_arg (ext := Examples.text_args) 2 ["incr"; ""]%string 1
      (Examples.world_with true false) = Returns true w'
    /\ valuep w' = 0
    /\ length (diagnostics w')
       <> S (length (diagnostics (Examples.world_with true false))).
Proof.
  exists (store_valuep 0 (Examples.world_with true false)).
  split; [reflexivity|]. split; [reflexivity|]. cbn. discriminate.
Qed.

Lemma numeric_arg_failure_stores_prefix_witness :
  exists nptr tail,
    skip_space (Examples.context_with false false) "42x" = Some nptr
    /\ skip_space (Examples.context_with false false)
         (snd (strtol (ext := Examples.text_args) nptr)) = Some tail
    /\ starts_nul tail = false
    /\ valuep
         (print_diagnostic
            (warning (Examples.context_with false false) 0
               "%s: non-numeric argument `%s'" [va_string "incr"; va_string "42x"])
            (store_valuep 42 (Examples.world_with false false)))
       = to_int (fst (strtol (ext := Examples.text_args) nptr)).
Proof.
  exact (proj1 (numeric_arg_failure_stores_prefix (ext := Examples.text_args) 2
                  ["incr"; "42x"]%string 1 (Examples.world_with false false) eq_refl)
           (print_diagnostic
              (warning (Examples.context_with false false) 0
                 "%s: non-numeric argument `%s'" [va_string "incr"; va_string "42x"])
              (store_valuep 42 (Examples.world_with false false)))
           eq_refl).
Defined.

End UtilityProps.

(** ** Further properties of debug.c *)

Module DebugMoreProps.
Import Debug DebugMore CStrFacts.

Section DecodeLetters.
Context {flags : DebugFlags}.

Lemma decode_flag_known (c : ascii) :
  In c flag_letters -> exists f, decode_flag c = Some f.
Proof.
  unfold flag_letters. simpl. intros H.
  repeat (destruct H as [<-|H]; [eexists; reflexivity|]). contradiction.
Qed.

(** The loop returns early exactly when some character has no [case]. *)
Lemma decode_loop_None_iff (opts : string) (level : Z) :
  decode_loop opts level = None
  <-> exists c, In c (chars (c_str opts)) /\ decode_flag c = None.
Proof.
  revert level. induction opts as [|a r IH]; intros level; simpl.
  - split; [discriminate | intros (c & [] & _)].
  - destruct (is_nul a); simpl.
    + split; [discriminate | intros (c & [] & _)].
    + destruct (decode_flag a) as [f|] eqn:Ea.
      * rewrite IH. split.
        -- intros (c & Hin & Hc). exists c. auto.
        -- intros (c & [->|Hin] & Hc); [congruence | exists c; auto].
      * split; [|reflexivity]. intros _. exists a. auto.
Qed.

(** The bits of the level the loop ends with: those it started with and
    those of the mask of each character. *)
Lemma decode_loop_bits (opts : string) :
  forall level l, decode_loop opts level = Some l ->
  forall n,
    Z.testbit l n
    = Z.testbit level n
      || existsb (fun c => match decode_flag c with
                           | Some f => Z.testbit f n
                           | None => false
                           end) (chars (c_str opts)).
Proof.
  induction opts as [|a r IH]; simpl; intros level l H n.
  - injection H as <-. now rewrite orb_false_r.
  - destruct (is_nul a); simpl.
    + injection H as <-. now rewrite orb_false_r.
    + destruct (decode_flag a) as [f|]; [|discriminate].
      rewrite (IH _ _ H n), Z.lor_spec. now rewrite orb_assoc.
Qed.

Lemma decode_known_loop (opts : string) (st : state) :
  (forall c, In c (chars (c_str opts)) -> In c flag_letters) ->
  starts_nul opts = false ->
  exists l, decode_loop opts 0 = Some l
            /\ m4_debug_decode (Some opts) st = (l, set_trace EmptyString st).
Proof.
  intros Hknown Hs. unfold m4_debug_decode. rewrite Hs.
  destruct (decode_loop opts 0) as [l|] eqn:Hl.
  - exists l. split; reflexivity.
  - apply decode_loop_None_iff in Hl as (c & Hin & Hc).
    destruct (decode_flag_known c (Hknown c Hin)) as [f Hf]. congruence.
Qed.

(** All characters known: [m4_debug_decode] gives a level and empties the
    trace buffer, leaving the rest of the state alone.  The level is the
    default for the empty string, and otherwise is not negative when no mask
    is, so that it cannot be taken for the failure value -1. *)
Theorem decode_known_letters_succeeds (opts : string) (st : state) :
  (forall c, In c (chars (c_str opts)) -> In c flag_letters) ->
  exists level,
    m4_debug_decode (Some opts) st = (level, set_trace EmptyString st)
    /\ (starts_nul opts = true -> level = M4_DEBUG_TRACE_DEFAULT)
    /\ (starts_nul opts = false ->
        (forall c f, decode_flag c = Some f -> 0 <= f) -> 0 <= level).
Proof.
  intros Hknown. destruct (starts_nul opts) eqn:Hs.
  - exists M4_DEBUG_TRACE_DEFAULT. unfold m4_debug_decode. rewrite Hs.
    split; [reflexivity|]. split; [reflexivity | discriminate].
  - destruct (decode_known_loop opts st Hknown Hs) as (l & Hl & Hd).
    exists l. split; [exact Hd|]. split; [discriminate|].
    intros _ Hflags. exact (DebugProps.decode_loop_nonneg opts Hflags 0 l (Z.le_refl 0) Hl).
Qed.

Lemma existsb_same_members {A : Type} (p : A -> bool) (l1 l2 : list A) :
  (forall x, In x l1 <-> In x l2) -> existsb p l1 = existsb p l2.
Proof.
  intros H. apply eq_true_iff_eq. rewrite !existsb_exists.
  split; intros (x & Hin & Hp); exists x; split; auto; now apply H.
Qed.

(** Two flag strings with the same set of characters decode to the same
    value: neither the order of the letters nor their repetition matters. *)
Theorem decode_order_irrelevant (opts1 opts2 : string) (st1 st2 : state) :
  (forall c, In c (chars (c_str opts1)) <-> In c (chars (c_str opts2))) ->
  fst (m4_debug_decode (Some opts1) st1) = fst (m4_debug_decode (Some opts2) st2).
Proof.
  intros Hsame. unfold m4_debug_decode.
  assert (Hnul : starts_nul opts1 = starts_nul opts2).
  { destruct opts1 as [|a1 r1], opts2 as [|a2 r2]; simpl in *; try reflexivity.
    - destruct (is_nul a2); [reflexivity|]. destruct (proj2 (Hsame a2)). now left.
    - destruct (is_nul a1); [reflexivity|]. destruct (proj1 (Hsame a1)). now left.
    - destruct (is_nul a1), (is_nul a2); try reflexivity.
      + destruct (proj2 (Hsame a2)). now left.
      + destruct (proj1 (Hsame a1)). now left. }
  rewrite <- Hnul. destruct (starts_nul opts1); [reflexivity|].
  destruct (decode_loop opts1 0) as [l1|] eqn:H1,
           (decode_loop opts2 0) as [l2|] eqn:H2; simpl.
  - apply Z.bits_inj. intros n.
    rewrite (decode_loop_bits _ _ _ H1 n), (decode_loop_bits _ _ _ H2 n).
    f_equal. now apply existsb_same_members.
  - apply decode_loop_None_iff in H2 as (c & Hin & Hc).
    assert (H : decode_loop opts1 0 = None).
    { apply decode_loop_None_iff. exists c. split; [now apply Hsame | exact Hc]. }
    congruence.
  - apply decode_loop_None_iff in H1 as (c & Hin & Hc).
    assert (H : decode_loop opts2 0 = None).
    { apply decode_loop_None_iff. exists c. split; [now apply Hsame | exact Hc]. }
    congruence.
  - reflexivity.
Qed.

Lemma decode_loop_land (c : ascii) (f : Z) (opts : string) :
  decode_flag c = Some f ->
  (forall c' f', c' <> c -> decode_flag c' = Some f' -> Z.land f' f = 0) ->
  forall level l, decode_loop opts level = Some l ->
    Z.land l f
    = Z.lor (Z.land level f)
        (if existsb (Ascii.eqb c) (chars (c_str opts)) then f else 0).
Proof.
  intros Hc Hother. induction opts as [|a r IH]; simpl; intros level l H.
  - injection H as <-. now rewrite Z.lor_0_r.
  - destruct (is_nul a); simpl.
    + injection H as <-. now rewrite Z.lor_0_r.
    + destruct (decode_flag a) as [fa|] eqn:Ea; [|discriminate].
      rewrite (IH _ _ H), Z.land_lor_distr_l.
      destruct (Ascii.eqb c a) eqn:E; simpl.
      * apply Ascii.eqb_eq in E. subst a.
        assert (fa = f) by congruence. subst fa.
        rewrite Z.land_diag.
        destruct (existsb (Ascii.eqb c) (chars (c_str r))).
        -- now rewrite <- Z.lor_assoc, Z.lor_diag.
        -- now rewrite Z.lor_0_r.
      * apply Ascii.eqb_neq in E.
        rewrite (Hother a fa (fun H' => E (eq_sym H')) Ea). now rewrite Z.lor_0_r.
Qed.

(** A flag whose mask is not 0 and shares no bit with the other masks
    tests as set in the decoded level exactly when its letter occurs in the
    flag string. *)
Theorem decode_then_test (opts : string) (st : state) (c : ascii) (f : Z) :
  starts_nul opts = false ->
  (forall x, In x (chars (c_str opts)) -> In x flag_letters) ->
  decode_flag c = Some f -> f <> 0 ->
  (forall c' f', c' <> c -> decode_flag c' = Some f' -> Z.land f' f = 0) ->
  flag_set (fst (m4_debug_decode (Some opts) st)) f
  = existsb (Ascii.eqb c) (chars (c_str opts)).
Proof.
  intros Hs Hknown Hc Hf Hother.
  destruct (decode_known_loop opts st Hknown Hs) as (l & El & Hd).
  rewrite Hd. cbn [fst]. unfold flag_set.
  rewrite (decode_loop_land c f opts Hc Hother 0 l El).
  rewrite Z.land_0_l, Z.lor_0_l.
  destruct (existsb (Ascii.eqb c) (chars (c_str opts))).
  - apply negb_true_iff. now apply Z.eqb_neq.
  - reflexivity.
Qed.

End DecodeLetters.

Lemma decode_known_letters_succeeds_witness :
  exists level,
    m4_debug_decode (flags := Examples.bit_flags) (Some "al"%string)
      Examples.initial_state
    = (level, set_trace EmptyString Examples.initial_state).
Proof.
  destruct (decode_known_letters_succeeds (flags := Examples.bit_flags) "al"
              Examples.initial_state) as (level & H & _).
  - intros c H. simpl in H. unfold flag_letters. simpl.
    destruct H as [<-|[<-|[]]]; tauto.
  - exists level. exact H.
Defined.

Lemma decode_order_irrelevant_witness :
  fst (m4_debug_decode (flags := Examples.bit_flags) (Some "ala"%string)
         Examples.initial_state)
  = fst (m4_debug_decode (flags := Examples.bit_flags) (Some "la"%string)
           Examples.initial_state).
Proof.
  apply (decode_order_irrelevant (flags := Examples.bit_flags) "ala" "la").
  intros c. simpl. tauto.
Defined.

Lemma decode_then_test_witness :
  flag_set (fst (m4_debug_decode (flags := Examples.bit_flags) (Some "al"%string)
                   Examples.initial_state)) 16
  = true.
Proof.
  refine (decode_then_test (flags := Examples.bit_flags) "al"
            Examples.initial_state "l" 16 eq_refl _ eq_refl _ _).
  - intros c H. simpl in H. unfold flag_letters. simpl.
    destruct H as [<-|[<-|[]]]; tauto.
  - discriminate.
  - intros c' f' Hne H.
    destruct c' as [[] [] [] [] [] [] [] []]; try discriminate H;
      try (injection H as <-; reflexivity).
    exfalso. now apply Hne.
Defined.

Section RouterMore.

Lemma set_file_fclose_log (e : env) (fp : FILE_ptr) (st : state) :
  fclose_log (m4_debug_set_file e fp st)
  = (fclose_log st
     ++ match m4_debug st with
        | Some (opened k) => [opened k]
        | _ => []
        end
     ++ match fp with
        | Some (opened h) => if is_stdout_file e (opened h) then [opened h] else []
        | _ => []
        end)%list.
Proof.
  unfold m4_debug_set_file, is_stdout_file.
  destruct st as [dbg buf fo fc wr].
  destruct dbg as [[| |k]|], fp as [[| |h]|]; cbn;
    repeat match goal with
           | |- context [match ?x with _ => _ end] => destruct x; cbn
           end;
    rewrite <- ?app_assoc, ?app_nil_r; reflexivity.
Qed.

Lemma set_output_fclose_log (e : env) (name : option string) (st : state) :
  fclose_log (snd (m4_debug_set_output e name st))
  = (fclose_log st
     ++ (if fst (m4_debug_set_output e name st)
         then match m4_debug st with
              | Some (opened k) => [opened k]
              | _ => []
              end
         else [])
     ++ match selected e name with
        | Some (opened h) => if is_stdout_file e (opened h) then [opened h] else []
        | _ => []
        end)%list.
Proof.
  unfold m4_debug_set_output, selected. destruct name as [n|].
  - destruct (starts_nul n).
    + cbn [fst snd]. apply set_file_fclose_log.
    + unfold fopen. destruct (fopen_result e (c_str n) "a") as [h|]; cbn [option_map fst snd].
      * now rewrite set_file_fclose_log.
      * cbn. now rewrite app_nil_r.
  - cbn [fst snd]. apply set_file_fclose_log.
Qed.

Lemma set_output_outcome (e : env) (name : option string) (st : state) :
  (fst (m4_debug_set_output e name st) = true
   /\ m4_debug (snd (m4_debug_set_output e name st))
      = match selected e name with
        | Some stdout => Some stdout
        | Some x => if is_stdout_file e x then Some stdout else Some x
        | None => None
        end)
  \/ (fst (m4_debug_set_output e name st) = false
      /\ m4_debug (snd (m4_debug_set_output e name st)) = m4_debug st
      /\ fclose_log (snd (m4_debug_set_output e name st)) = fclose_log st).
Proof.
  unfold m4_debug_set_output, selected. destruct name as [n|].
  - destruct (starts_nul n).
    + left. split; [reflexivity|]. cbn [snd].
      now rewrite DebugProps.set_file_destination.
    + unfold fopen. destruct (fopen_result e (c_str n) "a") as [h|]; cbn [option_map].
      * left. split; [reflexivity|]. cbn [snd].
        now rewrite DebugProps.set_file_destination.
      * right. repeat split; reflexivity.
  - left. split; [reflexivity|]. cbn [snd].
    now rewrite DebugProps.set_file_destination.
Qed.

(** [m4_debug_set_output] never closes standard error or standard output:
    the streams it closes are streams that [fopen] gave. *)
Theorem set_output_closes_only_opened (e : env) (name : option string) (st : state) :
  exists closed,
    fclose_log (snd (m4_debug_set_output e name st)) = (fclose_log st ++ closed)%list
    /\ forallb is_opened closed = true.
Proof.
  rewrite set_output_fclose_log. eexists. split; [reflexivity|].
  rewrite forallb_app. apply andb_true_iff. split.
  - destruct (fst (m4_debug_set_output e name st)); [|reflexivity].
    now destruct (m4_debug st) as [[| |k]|].
  - destruct (selected e name) as [[| |h]|]; try reflexivity.
    now destruct (is_stdout_file e (opened h)).
Qed.

(** A destination that [fopen] gave is closed by every successful change
    of destination, and is left open by a failed one. *)
Theorem set_output_closes_previous (e : env) (name : option string) (k : nat)
  (st : state) :
  m4_debug st = Some (opened k) ->
  (fst (m4_debug_set_output e name st) = true ->
   In (opened k) (fclose_log (snd (m4_debug_set_output e name st))))
  /\ (fst (m4_debug_set_output e name st) = false ->
      fclose_log (snd (m4_debug_set_output e name st)) = fclose_log st
      /\ m4_debug (snd (m4_debug_set_output e name st)) = Some (opened k)).
Proof.
  intros Hdbg. split; intros Hres.
  - rewrite set_output_fclose_log, Hres, Hdbg.
    apply in_or_app. right. apply in_or_app. left. now left.
  - destruct (set_output_outcome e name st) as [[H _]|(_ & Hd & Hl)]; [congruence|].
    split; [exact Hl | now rewrite Hd].
Qed.

(** After [m4_debug_set_file], a destination other than standard output
    is never a second handle on the file standard output is connected to. *)
Theorem set_file_no_second_stdout (e : env) (fp : FILE_ptr) (st : state)
  (s : stream) :
  m4_debug (m4_debug_set_file e fp st) = Some s -> s <> stdout ->
  is_stdout_file e s = false.
Proof.
  rewrite DebugProps.set_file_destination. intros H Hne.
  destruct fp as [[| |h]|]; try discriminate.
  - destruct (is_stdout_file e stderr) eqn:E; injection H as <-; congruence.
  - injection H as <-. congruence.
  - destruct (is_stdout_file e (opened h)) eqn:E; injection H as <-; congruence.
Qed.

(** The destination is never a stream that has been closed, as long as
    [fopen] answers with a handle that is neither closed nor in use. *)
Theorem set_output_destination_open (e : env) (name : option string) (st : state) :
  forallb is_opened (fclose_log st) = true ->
  (forall s, m4_debug st = Some s -> ~ In s (fclose_log st)) ->
  (forall h, selected e name = Some (opened h) ->
             ~ In (opened h) (fclose_log st) /\ m4_debug st <> Some (opened h)) ->
  forall s, m4_debug (snd (m4_debug_set_output e name st)) = Some s ->
            ~ In s (fclose_log (snd (m4_debug_set_output e name st))).
Proof.
  intros Hlog Hopen Hfresh s Hs.
  assert (Hstd : forall l x, forallb is_opened l = true -> In x l -> is_opened x = true).
  { intros l x Hl Hx. rewrite forallb_forall in Hl. now apply Hl. }
  destruct (set_output_outcome e name st) as [[Hres Hsel]|(Hres & Hd & Hl)].
  - rewrite Hs in Hsel. rewrite set_output_fclose_log, Hres.
    intros Hin. apply in_app_or in Hin as [Hin|Hin];
      [|apply in_app_or in Hin as [Hin|Hin]].
    + (* closed before the call *)
      destruct (selected e name) as [[| |h]|] eqn:Esel; try discriminate.
      * destruct (is_stdout_file e stderr); injection Hsel as ->;
          now apply (Hstd _ _ Hlog) in Hin.
      * injection Hsel as ->. now apply (Hstd _ _ Hlog) in Hin.
      * destruct (is_stdout_file e (opened h)); injection Hsel as ->.
        -- now apply (Hstd _ _ Hlog) in Hin.
        -- now apply (proj1 (Hfresh h eq_refl)).
    + (* the previous destination *)
      destruct (m4_debug st) as [[| |k]|] eqn:Edbg; try contradiction.
      destruct Hin as [<-|[]].
      destruct (selected e name) as [[| |h]|] eqn:Esel; try discriminate.
      * destruct (is_stdout_file e stderr); discriminate.
      * destruct (is_stdout_file e (opened h)); [discriminate|].
        injection Hsel as Hk. apply (proj2 (Hfresh h eq_refl)). now rewrite Hk.
    + (* the handle closed by aliasing *)
      destruct (selected e name) as [[| |h]|] eqn:Esel; try contradiction.
      destruct (is_stdout_file e (opened h)); [|contradiction].
      destruct Hin as [<-|[]]. discriminate.
  - (* a failed open changes neither destination nor log *)
    rewrite Hl. apply Hopen. now rewrite <- Hd.
Qed.

(** [m4_debug_flush_files] flushes no stream twice, and flushes the debug
    destination whenever there is one. *)
Theorem flush_files_once_each (st : state) :
  NoDup (m4_debug_flush_files st)
  /\ In stdout (m4_debug_flush_files st)
  /\ In stderr (m4_debug_flush_files st)
  /\ forall s, m4_debug st = Some s -> In s (m4_debug_flush_files st).
Proof.
  unfold m4_debug_flush_files.
  destruct (m4_debug st) as [[| |h]|]; cbn.
  - repeat split; try tauto.
    + repeat constructor; cbn; intuition discriminate.
    + intros s H. injection H as <-. tauto.
  - repeat split; try tauto.
    + repeat constructor; cbn; intuition discriminate.
    + intros s H. injection H as <-. tauto.
  - repeat split; try tauto.
    + repeat constructor; cbn; intuition discriminate.
    + intros s H. injection H as <-. tauto.
  - repeat split; try tauto.
    + repeat constructor; cbn; intuition discriminate.
    + intros s H. discriminate.
Qed.

End RouterMore.

Lemma set_output_closes_previous_witness :
  In (opened 0)
    (fclose_log
       (snd (m4_debug_set_output (Examples.env_with 0 0) None
               (set_m4_debug (Some (opened 0)) Examples.initial_state)))).
Proof.
  apply (proj1 (set_output_closes_previous (Examples.env_with 0 0) None 0
                  (set_m4_debug (Some (opened 0)) Examples.initial_state) eq_refl)).
  reflexivity.
Defined.

Lemma set_file_no_second_stdout_witness :
  is_stdout_file (Examples.env_with 0 0) stderr = false.
Proof.
  apply (set_file_no_second_stdout (Examples.env_with 0 0) (Some stderr)
           Examples.initial_state stderr).
  - reflexivity.
  - discriminate.
Defined.

Lemma set_output_destination_open_witness :
  ~ In stdout
      (fclose_log
         (snd (m4_debug_set_output Examples.env_out_log (Some "out.log"%string)
                 Examples.initial_state))).
Proof.
  apply (set_output_destination_open Examples.env_out_log (Some "out.log"%string)
           Examples.initial_state).
  - reflexivity.
  - intros s _ H. exact H.
  - intros h _. split; [intros H; exact H | discriminate].
  - reflexivity.
Defined.

Section FormatMore.
Context {flags : DebugFlags}.

Lemma set_trace_same (st : state) : set_trace (trace st) st = st.
Proof. now destruct st. Qed.

Lemma trace_set_trace (t : string) (st : state) : trace (set_trace t st) = t.
Proof. reflexivity. Qed.

Lemma obstack_1grow_set (ch : ascii) (t : string) (st : state) :
  obstack_1grow ch (set_trace t st) = set_trace (t ++ String ch EmptyString) st.
Proof. reflexivity. Qed.

Lemma substring_within_nul_free (s : string) :
  forall k, (k <= String.length (c_str s))%nat -> nul_free (substring 0 k s) = true.
Proof.
  induction s as [|c s IH]; intros k Hk.
  - destruct k; reflexivity.
  - destruct k as [|k]; [reflexivity|]. simpl in Hk |- *.
    destruct (is_nul c) eqn:E; simpl in Hk; [lia|].
    unfold nul_free in *. simpl. rewrite E. simpl. apply IH. lia.
Qed.

(** When the copying step succeeds on one state, it appends the same
    NUL-free bytes on every state. *)
Lemma copy_limited_appends (s : string) (maxlen : Z) (st st1 : state) :
  copy_limited s maxlen st = Ok st1 ->
  exists out, nul_free out = true
              /\ forall st2, copy_limited s maxlen st2
                             = Ok (set_trace (trace st2 ++ out) st2).
Proof.
  unfold copy_limited, obstack_grow.
  destruct ((maxlen =? 0) || (maxlen >? strlen s)) eqn:E.
  - intros _. exists (c_str s). split; [apply c_str_nul_free|].
    intros st2. now rewrite take_strlen.
  - destruct (maxlen <? 0) eqn:En; [discriminate|]. intros _.
    apply orb_false_iff in E as [_ E]. rewrite Z.gtb_ltb in E.
    apply Z.ltb_ge in E. apply Z.ltb_ge in En.
    exists (take maxlen s ++ "...")%string. split.
    + rewrite nul_free_append. apply andb_true_iff. split; [|reflexivity].
      unfold take. apply substring_within_nul_free. unfold strlen in E. lia.
    + intros st2. rewrite DebugProps.set_trace_set_trace, trace_set_trace.
      now rewrite append_assoc.
Qed.

Lemma trace_format_appends_aux (e : env) (n : nat) :
  forall fmt args st st',
    (String.length fmt <= n)%nat ->
    m4_trace_format e fmt args st = Ok st' ->
    exists out, nul_free out = true
                /\ forall st2, m4_trace_format e fmt args st2
                               = Ok (set_trace (trace st2 ++ out) st2).
Proof.
  induction n as [|n IH]; intros fmt args st st' Hlen H.
  - destruct fmt; [|simpl in Hlen; lia].
    exists EmptyString. split; [reflexivity|]. intros st2. simpl.
    now rewrite append_nil_r, set_trace_same.
  - destruct fmt as [|ch fmt1].
    { exists EmptyString. split; [reflexivity|]. intros st2. simpl.
      now rewrite append_nil_r, set_trace_same. }
    simpl in Hlen, H |- *.
    destruct (is_nul ch) eqn:Ech.
    { exists EmptyString. split; [reflexivity|]. intros st2.
      now rewrite append_nil_r, set_trace_same. }
    destruct (Ascii.eqb ch "%") eqn:Epc; simpl in H |- *.
    + destruct fmt1 as [|d fmt2]; [discriminate|].
      destruct (is_nul d); [discriminate|].
      destruct (directive e d args) as [[[s maxlen] rest]|]; [|discriminate].
      destruct (copy_limited s maxlen st) as [st1|u|msg] eqn:Ec; try discriminate.
      destruct (copy_limited_appends _ _ _ _ Ec) as (o1 & Ho1 & Hc).
      simpl in H, Hlen.
      destruct (IH fmt2 rest st1 st' ltac:(lia) H) as (o2 & Ho2 & Hf).
      exists (o1 ++ o2)%string. split.
      * rewrite nul_free_append. now rewrite Ho1, Ho2.
      * intros st2. rewrite Hc. simpl. rewrite Hf.
        now rewrite DebugProps.set_trace_set_trace, trace_set_trace, append_assoc.
    + destruct (IH fmt1 args (obstack_1grow ch st) st' ltac:(lia) H)
        as (o2 & Ho2 & Hf).
      exists (String ch o2). split.
      * unfold nul_free in *. simpl. now rewrite Ech, Ho2.
      * intros st2. rewrite Hf. unfold obstack_1grow.
        rewrite DebugProps.set_trace_set_trace, trace_set_trace, append_assoc.
        reflexivity.
Qed.

(** Whenever [m4_trace_format] returns, all it did was append to the
    trace buffer, and what it appended holds no NUL and does not depend on
    the state: the destination, the output and the logs are untouched and the
    bytes already in the buffer stay in front. *)
Theorem trace_format_appends (e : env) (fmt : string) (args : list vararg)
  (st st' : state) :
  m4_trace_format e fmt args st = Ok st' ->
  exists out,
    nul_free out = true
    /\ st' = set_trace (trace st ++ out) st
    /\ forall st2, m4_trace_format e fmt args st2
                   = Ok (set_trace (trace st2 ++ out) st2).
Proof.
  intros H.
  destruct (trace_format_appends_aux e (String.length fmt) fmt args st st'
              (Nat.le_refl _) H) as (out & Hout & Hall).
  exists out. split; [exact Hout|]. split; [|exact Hall].
  rewrite Hall in H. now injection H.
Qed.

(** A format without [%] is copied byte for byte, and the arguments are
    not looked at. *)
Theorem trace_format_literal (e : env) (fmt : string) (args : list vararg)
  (st : state) :
  literal fmt = true ->
  m4_trace_format e fmt args st = Ok (set_trace (trace st ++ fmt) st).
Proof.
  unfold literal. revert st. induction fmt as [|ch fmt IH]; intros st H.
  - simpl. now rewrite append_nil_r, set_trace_same.
  - simpl in H |- *. apply andb_prop in H as [Hch H].
    apply andb_prop in Hch as [Hn Hp]. apply negb_true_iff in Hn.
    rewrite Hn, Hp. rewrite (IH _ H). unfold obstack_1grow.
    rewrite DebugProps.set_trace_set_trace, trace_set_trace, append_assoc.
    reflexivity.
Qed.

Lemma directive_cases (d : ascii) :
  d = "S"%char \/ d = "s"%char \/ d = "l"%char \/ d = "r"%char \/ d = "d"%char
  \/ forall e args, directive e d args = Some (EmptyString, 0, args).
Proof.
  destruct d as [[] [] [] [] [] [] [] []];
    first [ now (do 5 right; intros; reflexivity) | auto 6 ].
Qed.

Lemma obstack_grow_empty (n : Z) (st : state) : obstack_grow EmptyString n st = st.
Proof.
  unfold obstack_grow, take.
  assert (H : substring 0 (Z.to_nat n) EmptyString = EmptyString)
    by now destruct (Z.to_nat n).
  now rewrite H, append_nil_r, set_trace_same.
Qed.

(** A [%] followed by a byte that is none of [S s l r d] inserts nothing
    and uses up no argument; so does [%%], which prints no percent sign. *)
Theorem trace_format_unknown_directive (e : env) (d : ascii) (rest : string)
  (args : list vararg) (st : state) :
  is_nul d = false ->
  ~ In d ["S"; "s"; "l"; "r"; "d"]%char ->
  m4_trace_format e (String "%" (String d rest)) args st
  = m4_trace_format e rest args st.
Proof.
  intros Hn Hd. simpl. rewrite Hn.
  destruct (directive_cases d) as [->|[->|[->|[->|[->|H]]]]];
    try (exfalso; apply Hd; simpl; tauto).
  rewrite H. unfold copy_limited. simpl.
  now rewrite obstack_grow_empty.
Qed.

End FormatMore.

Lemma trace_format_appends_witness :
  exists out,
    nul_free out = true
    /\ set_trace "he..." Examples.initial_state
       = set_trace (trace Examples.initial_state ++ out) Examples.initial_state
    /\ forall st2,
         m4_trace_format (flags := Examples.bit_flags) (Examples.env_with 0 2) "%S"
           [va_string "hello"] st2
         = Ok (set_trace (trace st2 ++ out) st2).
Proof.
  apply (trace_format_appends (flags := Examples.bit_flags) (Examples.env_with 0 2)
           "%S" [va_string "hello"] Examples.initial_state).
  reflexivity.
Defined.

Lemma trace_format_literal_witness :
  m4_trace_format (flags := Examples.bit_flags) (Examples.env_with 0 0) " -> ???"
    [va_int 7] Examples.initial_state
  = Ok (set_trace " -> ???" Examples.initial_state).
Proof.
  apply (trace_format_literal (flags := Examples.bit_flags) (Examples.env_with 0 0)
           " -> ???" [va_int 7] Examples.initial_state).
  reflexivity.
Defined.

Lemma trace_format_unknown_directive_witness :
  m4_trace_format (flags := Examples.bit_flags) (Examples.env_with 0 0) "%%x"
    [] Examples.initial_state
  = m4_trace_format (flags := Examples.bit_flags) (Examples.env_with 0 0) "x"
      [] Examples.initial_state.
Proof.
  apply (trace_format_unknown_directive (flags := Examples.bit_flags)
           (Examples.env_with 0 0) "%" "x" [] Examples.initial_state).
  - reflexivity.
  - simpl. intros H.
    repeat (destruct H as [H|H]; [discriminate H|]). exact H.
Defined.

Section FormatEnvironment.
Context {flags : DebugFlags}.

Lemma copy_limited_0_text (s : string) (st : state) :
  copy_limited s 0 st = Ok (set_trace (trace st ++ c_str s) st).
Proof. unfold copy_limited, obstack_grow. simpl. now rewrite take_strlen. Qed.

Lemma directive_l (e : env) (args : list vararg) :
  directive e "l" args
  = Some (if flag_set (debug_level e) M4_DEBUG_TRACE_QUOTE then lquote e
          else EmptyString, 0, args).
Proof. reflexivity. Qed.

Lemma directive_r (e : env) (args : list vararg) :
  directive e "r" args
  = Some (if flag_set (debug_level e) M4_DEBUG_TRACE_QUOTE then rquote e
          else EmptyString, 0, args).
Proof. reflexivity. Qed.

Lemma c_str_left_quote (e : env) :
  c_str (if flag_set (debug_level e) M4_DEBUG_TRACE_QUOTE then lquote e
         else EmptyString) = left_quote e.
Proof. unfold left_quote. now destruct (flag_set _ _). Qed.

Lemma c_str_right_quote (e : env) :
  c_str (if flag_set (debug_level e) M4_DEBUG_TRACE_QUOTE then rquote e
         else EmptyString) = right_quote e.
Proof. unfold right_quote. now destruct (flag_set _ _). Qed.

Lemma trace_format_reads_env_aux (e e' : env) (n : nat) :
  forall fmt args st,
    (String.length fmt <= n)%nat ->
    (uses_directive "S" fmt = true ->
     max_debug_argument_length e = max_debug_argument_length e') ->
    (uses_directive "l" fmt = true -> left_quote e = left_quote e') ->
    (uses_directive "r" fmt = true -> right_quote e = right_quote e') ->
    m4_trace_format e fmt args st = m4_trace_format e' fmt args st.
Proof.
  induction n as [|n IH]; intros fmt args st Hlen HS Hl Hr.
  - destruct fmt; [reflexivity | simpl in Hlen; lia].
  - destruct fmt as [|ch fmt1]; [reflexivity|].
    simpl in Hlen. simpl in HS, Hl, Hr |- *.
    destruct (is_nul ch); [reflexivity|].
    destruct (Ascii.eqb ch "%"); simpl.
    + destruct fmt1 as [|d fmt2]; [reflexivity|].
      destruct (is_nul d) eqn:End; [reflexivity|].
      simpl in Hlen.
      assert (Hrest : forall a s0,
                 m4_trace_format e fmt2 a s0 = m4_trace_format e' fmt2 a s0).
      { intros a s0. apply IH; [lia| | |]; intros H.
        - apply HS. rewrite H. apply orb_true_r.
        - apply Hl. rewrite H. apply orb_true_r.
        - apply Hr. rewrite H. apply orb_true_r. }
      destruct (directive_cases d) as [->|[->|[->|[->|[->|H]]]]].
      * simpl. destruct args as [|[s|x] rest]; try reflexivity.
        rewrite (HS eq_refl).
        destruct (copy_limited s (max_debug_argument_length e') st); simpl;
          [apply Hrest | reflexivity | reflexivity].
      * simpl. destruct args as [|[s|x] rest]; try reflexivity.
        destruct (copy_limited s 0 st); simpl;
          [apply Hrest | reflexivity | reflexivity].
      * rewrite !directive_l, !copy_limited_0_text, !c_str_left_quote.
        rewrite (Hl eq_refl). simpl. apply Hrest.
      * rewrite !directive_r, !copy_limited_0_text, !c_str_right_quote.
        rewrite (Hr eq_refl). simpl. apply Hrest.
      * simpl. destruct args as [|[s|x] rest]; try reflexivity.
        destruct (copy_limited (sprintf_d x) 0 st); simpl;
          [apply Hrest | reflexivity | reflexivity].
      * rewrite !H.
        destruct (copy_limited EmptyString 0 st); simpl;
          [apply Hrest | reflexivity | reflexivity].
    + apply IH; [lia | exact HS | exact Hl | exact Hr].
Qed.

(** Of its environment [m4_trace_format] reads the length limit, and only
    for [%S]; the left quote under the quote flag, and only for [%l]; the
    right quote likewise for [%r]; and nothing else: two environments that
    agree on these give the same result on every format, arguments and
    state. *)
Theorem trace_format_reads_env (e e' : env) (fmt : string) (args : list vararg)
  (st : state) :
  (uses_directive "S" fmt = true ->
   max_debug_argument_length e = max_debug_argument_length e') ->
  (uses_directive "l" fmt = true -> left_quote e = left_quote e') ->
  (uses_directive "r" fmt = true -> right_quote e = right_quote e') ->
  m4_trace_format e fmt args st = m4_trace_format e' fmt args st.
Proof. apply (trace_format_reads_env_aux e e' (String.length fmt)). apply Nat.le_refl. Qed.

End FormatEnvironment.

Lemma trace_format_reads_env_witness :
  m4_trace_format (flags := Examples.bit_flags) (Examples.env_with 0 2) "%s: %d"
    [va_string "hello"; va_int 7] Examples.initial_state
  = m4_trace_format (flags := Examples.bit_flags) (Examples.env_with 1024 0) "%s: %d"
      [va_string "hello"; va_int 7] Examples.initial_state.
Proof.
  apply (trace_format_reads_env (flags := Examples.bit_flags)
           (Examples.env_with 0 2) (Examples.env_with 1024 0));
    intros H; discriminate H.
Defined.

(** Evaluates the state updates of a goal, innermost first. *)
Ltac eval_state :=
  cbv [bind obstack_1grow obstack_grow set_trace M4_DEBUG_PRINT1 m4_trace_flush
       trace m4_debug fopen_log fclose_log written
       Z.to_nat Pos.to_nat Pos.iter_op Nat.add nth_error].

(** Runs a straight-line sequence of formatter calls from a state given by
    its fields; [copy] rewrites the copying steps. *)
Ltac eval_trace copy :=
  repeat (cbn; eval_state; copy);
  cbn; eval_state.

Section LifecycleMore.
Context {flags : DebugFlags}.

Local Arguments copy_limited : simpl never.
Local Arguments flag_set : simpl never.
Local Arguments sprintf_d : simpl never.
Local Arguments strlen : simpl never.
Local Arguments take : simpl never.
Local Arguments c_str : simpl never.
Local Arguments limited_text : simpl never.

Lemma copy_limited_text (s : string) (maxlen : Z) (st : state) :
  0 <= maxlen ->
  copy_limited s maxlen st = Ok (set_trace (trace st ++ limited_text maxlen s) st).
Proof.
  intros H. unfold copy_limited, limited_text, obstack_grow.
  destruct ((maxlen =? 0) || (maxlen >? strlen s)).
  - now rewrite take_strlen.
  - replace (maxlen <? 0) with false by (symmetry; apply Z.ltb_ge; exact H).
    rewrite DebugProps.set_trace_set_trace, trace_set_trace.
    now rewrite append_assoc.
Qed.

(** [m4_trace_header] never fails, and appends the marker, the file name
    and the line number when their flags are set, the expansion level between
    dashes, and the call id when its flag is set. *)
Theorem trace_header_text (e : env) (id : Z) (st : state) :
  m4_trace_header e id st = Ok (set_trace (trace st ++ header_text e id) st).
Proof.
  unfold m4_trace_header, header_text. destruct st as [dbg buf fo fc wr].
  destruct (flag_set (debug_level e) M4_DEBUG_TRACE_FILE),
           (flag_set (debug_level e) M4_DEBUG_TRACE_LINE),
           (flag_set (debug_level e) M4_DEBUG_TRACE_CALLID);
    eval_trace ltac:(rewrite copy_limited_0_text);
    rewrite ?(c_str_id _ (sprintf_d_nul_free _));
    rewrite ?append_assoc; cbn; rewrite ?append_assoc; reflexivity.
Qed.

Lemma limited_text_nul_free (maxlen : Z) (s : string) :
  0 <= maxlen -> nul_free (limited_text maxlen s) = true.
Proof.
  intros H. unfold limited_text.
  destruct ((maxlen =? 0) || (maxlen >? strlen s)) eqn:E.
  - apply c_str_nul_free.
  - apply orb_false_iff in E as [_ E]. rewrite Z.gtb_ltb in E. apply Z.ltb_ge in E.
    rewrite nul_free_append. apply andb_true_iff. split; [|reflexivity].
    unfold take. apply substring_within_nul_free. unfold strlen in E. lia.
Qed.

Lemma left_quote_nul_free (e : env) : nul_free (left_quote e) = true.
Proof. unfold left_quote. destruct (flag_set _ _); [apply c_str_nul_free | reflexivity]. Qed.

Lemma right_quote_nul_free (e : env) : nul_free (right_quote e) = true.
Proof. unfold right_quote. destruct (flag_set _ _); [apply c_str_nul_free | reflexivity]. Qed.

Lemma shown_text_nul_free (e : env) (text : string) :
  0 <= max_debug_argument_length e -> nul_free (shown_text e text) = true.
Proof.
  intros H. unfold shown_text.
  now rewrite !nul_free_append, left_quote_nul_free, right_quote_nul_free,
    limited_text_nul_free.
Qed.

Lemma header_text_nul_free (e : env) (id : Z) : nul_free (header_text e id) = true.
Proof.
  unfold header_text.
  destruct (flag_set (debug_level e) M4_DEBUG_TRACE_FILE),
           (flag_set (debug_level e) M4_DEBUG_TRACE_LINE),
           (flag_set (debug_level e) M4_DEBUG_TRACE_CALLID);
    repeat rewrite nul_free_append;
    rewrite ?c_str_nul_free, ?sprintf_d_nul_free; reflexivity.
Qed.

(** Finishes a goal about a state given by its fields once the formatter
    calls have been run. *)
Ltac finish_trace :=
  rewrite ?c_str_left_quote, ?c_str_right_quote;
  rewrite ?append_assoc; cbn; rewrite ?append_assoc; reflexivity.

Lemma format_s (e : env) (s : string) (st : state) :
  m4_trace_format e "%s" [va_string s] st = Ok (set_trace (trace st ++ c_str s) st).
Proof.
  destruct st as [dbg buf fo fc wr].
  eval_trace ltac:(rewrite copy_limited_0_text). finish_trace.
Qed.

Lemma format_s_dots (e : env) (s : string) (st : state) :
  m4_trace_format e "%s ..." [va_string s] st
  = Ok (set_trace (trace st ++ c_str s ++ " ...") st).
Proof.
  destruct st as [dbg buf fo fc wr].
  eval_trace ltac:(rewrite copy_limited_0_text). finish_trace.
Qed.

Lemma format_s_s (e : env) (s1 s2 : string) (st : state) :
  m4_trace_format e "%s%s" [va_string s1; va_string s2] st
  = Ok (set_trace (trace st ++ c_str s1 ++ c_str s2) st).
Proof.
  destruct st as [dbg buf fo fc wr].
  eval_trace ltac:(rewrite copy_limited_0_text). finish_trace.
Qed.

Lemma format_builtin (e : env) (s : string) (st : state) :
  m4_trace_format e "<%s>" [va_string s] st
  = Ok (set_trace (trace st ++ "<" ++ c_str s ++ ">") st).
Proof.
  destruct st as [dbg buf fo fc wr].
  eval_trace ltac:(rewrite copy_limited_0_text). finish_trace.
Qed.

Section Limit.
Variable e : env.
Hypothesis limit_nonneg : 0 <= max_debug_argument_length e.

Lemma format_text_argument (text : string) (st : state) :
  m4_trace_format e "%l%S%r" [va_string text] st
  = Ok (set_trace (trace st ++ shown_text e text) st).
Proof.
  destruct st as [dbg buf fo fc wr].
  eval_trace ltac:(first [rewrite copy_limited_0_text
                         | rewrite copy_limited_text by exact limit_nonneg]).
  unfold shown_text. finish_trace.
Qed.

Lemma format_expansion (text : string) (st : state) :
  m4_trace_format e " -> %l%S%r" [va_string text] st
  = Ok (set_trace (trace st ++ " -> " ++ shown_text e text) st).
Proof.
  destruct st as [dbg buf fo fc wr].
  eval_trace ltac:(first [rewrite copy_limited_0_text
                         | rewrite copy_limited_text by exact limit_nonneg]).
  unfold shown_text. finish_trace.
Qed.

End Limit.

(** Flushing a buffer without NUL writes it, followed by a newline, as one
    record to the current destination, and leaves the buffer empty. *)
Lemma flush_line (t : string) (st : state) :
  nul_free t = true ->
  m4_trace_flush (set_trace t st)
  = set_trace EmptyString (M4_DEBUG_PRINT1 (t ++ newline) st).
Proof.
  intros H. unfold m4_trace_flush, obstack_1grow.
  rewrite trace_set_trace. rewrite DebugProps.set_trace_set_trace.
  unfold M4_DEBUG_PRINT1, set_trace. cbn.
  now rewrite (c_str_append_nul t EmptyString H).
Qed.

(** [m4_trace_prepre] never fails: under every combination of flags it
    writes one line to the destination, made of what was pending in the
    buffer, the header, the name and [ ...], and leaves the buffer empty. *)
Theorem trace_prepre_one_line (e : env) (name : string) (id : Z) (st : state) :
  nul_free (trace st) = true ->
  m4_trace_prepre e name id st
  = Ok (set_trace EmptyString
          (M4_DEBUG_PRINT1
             (trace st ++ header_text e id ++ c_str name ++ " ..." ++ newline) st)).
Proof.
  intros Hbuf. unfold m4_trace_prepre.
  rewrite trace_header_text. cbn [bind].
  rewrite format_s_dots. cbn [bind].
  rewrite DebugProps.set_trace_set_trace, trace_set_trace.
  rewrite flush_line.
  - now rewrite !append_assoc.
  - rewrite !nul_free_append, Hbuf, header_text_nul_free, c_str_nul_free.
    reflexivity.
Qed.

Lemma result_text_nul_free (e : env) (name : string) (id argc : Z)
  (expanded : option string) :
  0 <= max_debug_argument_length e ->
  nul_free (result_text e name id argc expanded) = true.
Proof.
  intros H. unfold result_text. rewrite nul_free_append.
  apply andb_true_iff. split.
  - destruct (flag_set (debug_level e) M4_DEBUG_TRACE_CALL); [|reflexivity].
    rewrite !nul_free_append, header_text_nul_free, c_str_nul_free.
    now destruct (argc >? 1).
  - destruct expanded as [text|]; [|reflexivity].
    destruct (flag_set (debug_level e) M4_DEBUG_TRACE_EXPANSION); [|reflexivity].
    rewrite nul_free_append. now rewrite shown_text_nul_free.
Qed.

(** [m4_trace_post] flushes exactly once, whatever the flags, the
    arguments and the expansion: it writes one line made of what was pending
    in the buffer, then under the call flag the header, the name and [(...)]
    for a call with arguments, then under the expansion flag the arrow and
    the expansion when there is one.  It does not look at [argv]. *)
Theorem trace_post_one_line (e : env) (name : string) (id argc : Z)
  (argv : list m4_token_data) (expanded : option string) (st : state) :
  0 <= max_debug_argument_length e ->
  nul_free (trace st) = true ->
  m4_trace_post e name id argc argv expanded st
  = Ok (set_trace EmptyString
          (M4_DEBUG_PRINT1
             (trace st ++ result_text e name id argc expanded ++ newline) st)).
Proof.
  intros Hlimit Hbuf.
  pose proof (result_text_nul_free e name id argc expanded Hlimit) as Hnf.
  unfold m4_trace_post, result_text in *.
  destruct (flag_set (debug_level e) M4_DEBUG_TRACE_CALL).
  - rewrite trace_header_text. cbn [bind]. rewrite format_s_s. cbn [bind].
    rewrite DebugProps.set_trace_set_trace, trace_set_trace.
    assert (Hp : c_str (if argc >? 1 then "(...)" else EmptyString)
                 = (if argc >? 1 then "(...)" else EmptyString))
      by now destruct (argc >? 1).
    rewrite Hp.
    destruct expanded as [text|];
      [destruct (flag_set (debug_level e) M4_DEBUG_TRACE_EXPANSION)|].
    + rewrite (format_expansion e Hlimit). cbn [bind].
      rewrite DebugProps.set_trace_set_trace, trace_set_trace.
      rewrite flush_line.
      * now rewrite !append_assoc.
      * rewrite !append_assoc. rewrite !append_assoc in Hnf.
        rewrite nul_free_append, Hbuf. exact Hnf.
    + cbn [bind]. rewrite append_nil_r in Hnf |- *. rewrite flush_line.
      * now rewrite !append_assoc.
      * rewrite !append_assoc. rewrite ?append_assoc in Hnf.
        rewrite nul_free_append, Hbuf. exact Hnf.
    + cbn [bind]. rewrite append_nil_r in Hnf |- *. rewrite flush_line.
      * now rewrite !append_assoc.
      * rewrite !append_assoc. rewrite ?append_assoc in Hnf.
        rewrite nul_free_append, Hbuf. exact Hnf.
  - cbn [bind append] in *.
    destruct expanded as [text|];
      [destruct (flag_set (debug_level e) M4_DEBUG_TRACE_EXPANSION)|].
    + rewrite (format_expansion e Hlimit). cbn [bind].
      rewrite flush_line; [rewrite ?append_assoc; reflexivity|].
      rewrite nul_free_append, Hbuf. exact Hnf.
    + cbn [bind]. rewrite <- (set_trace_same st) at 1. rewrite flush_line by exact Hbuf.
      reflexivity.
    + cbn [bind]. rewrite <- (set_trace_same st) at 1. rewrite flush_line by exact Hbuf.
      reflexivity.
Qed.

Lemma concat_empty_cons (x : string) (xs : list string) :
  String.concat EmptyString (x :: xs) = (x ++ String.concat EmptyString xs)%string.
Proof. destruct xs; simpl; [now rewrite append_nil_r | reflexivity]. Qed.

Lemma concat_separator (f : string -> string) (t : string) (r : list string) :
  (f t ++ String.concat EmptyString (map (fun x => ", " ++ f x) r))%string
  = String.concat ", " (map f (t :: r)).
Proof.
  revert t. induction r as [|u r IH]; intros t.
  - simpl. now rewrite append_nil_r.
  - cbn [map]. rewrite concat_empty_cons.
    change (String.concat ", " (f t :: f u :: map f r))
      with (f t ++ ", " ++ String.concat ", " (map f (u :: r)))%string.
    rewrite <- IH. now rewrite !append_assoc.
Qed.

Lemma concat_nul_free (sep : string) (l : list string) :
  nul_free sep = true -> forallb nul_free l = true ->
  nul_free (String.concat sep l) = true.
Proof.
  intros Hsep. induction l as [|x [|y l] IH]; intros H.
  - reflexivity.
  - simpl in H |- *. now apply andb_prop in H as [H _].
  - cbn [forallb] in H. apply andb_prop in H as [Hx H].
    change (String.concat sep (x :: y :: l))
      with (x ++ sep ++ String.concat sep (y :: l))%string.
    rewrite !nul_free_append, Hx, Hsep. apply IH. exact H.
Qed.

Section TextArguments.
Variable e : env.
Hypothesis limit_nonneg : 0 <= max_debug_argument_length e.

(** The loop of [m4_trace_pre] over text arguments, behind the first. *)
Lemma trace_args_rest (texts : list string) :
  forall (done : list m4_token_data) (st : state),
    (2 <= List.length done)%nat ->
    trace_args e (done ++ map M4_TOKEN_TEXT texts) (List.length texts)
      (Z.of_nat (List.length done)) st
    = Ok (set_trace
            (trace st
             ++ String.concat EmptyString (map (fun t => ", " ++ shown_text e t) texts))
            st).
Proof.
  induction texts as [|t r IH]; intros done st Hdone.
  - simpl. now rewrite append_nil_r, set_trace_same.
  - cbn [List.length trace_args map]. unfold trace_arg.
    replace (Z.of_nat (List.length done) =? 1) with false
      by (symmetry; apply Z.eqb_neq; lia).
    cbn [negb]. rewrite trace_format_literal by reflexivity. cbn [bind].
    rewrite Nat2Z.id.
    rewrite nth_error_app2 by lia. rewrite Nat.sub_diag. cbn [nth_error].
    rewrite (format_text_argument e limit_nonneg). cbn [bind].
    rewrite !DebugProps.set_trace_set_trace, !trace_set_trace.
    replace (Z.of_nat (List.length done) + 1)
      with (Z.of_nat (List.length (done ++ [M4_TOKEN_TEXT t])))
      by (rewrite length_app; cbn [List.length]; lia).
    replace (done ++ M4_TOKEN_TEXT t :: map M4_TOKEN_TEXT r)%list
      with ((done ++ [M4_TOKEN_TEXT t]) ++ map M4_TOKEN_TEXT r)%list
      by (rewrite <- app_assoc; reflexivity).
    rewrite IH by (rewrite length_app; cbn [List.length]; lia).
    rewrite DebugProps.set_trace_set_trace, trace_set_trace.
    rewrite concat_empty_cons. now rewrite !append_assoc.
Qed.

Lemma trace_args_texts (argv0 : m4_token_data) (texts : list string) (st : state) :
  trace_args e (argv0 :: map M4_TOKEN_TEXT texts) (List.length texts) 1 st
  = Ok (set_trace
          (trace st ++ String.concat ", " (map (shown_text e) texts)) st).
Proof.
  destruct texts as [|t r].
  - simpl. now rewrite append_nil_r, set_trace_same.
  - cbn [List.length trace_args map]. unfold trace_arg.
    change (negb (1 =? 1)) with false. cbn [bind].
    change (Z.to_nat 1) with 1%nat. cbn [nth_error].
    rewrite (format_text_argument e limit_nonneg). cbn [bind].
    change (argv0 :: M4_TOKEN_TEXT t :: map M4_TOKEN_TEXT r)
      with ([argv0; M4_TOKEN_TEXT t] ++ map M4_TOKEN_TEXT r)%list.
    change (1 + 1) with (Z.of_nat (List.length [argv0; M4_TOKEN_TEXT t])).
    rewrite trace_args_rest by (cbn; lia).
    rewrite DebugProps.set_trace_set_trace, trace_set_trace.
    change (shown_text e t :: map (shown_text e) r)
      with (map (shown_text e) (t :: r)).
    rewrite <- concat_separator. now rewrite !append_assoc.
Qed.

Lemma call_text_nul_free (name : string) (id : Z) (texts : list string) :
  nul_free (call_text e name id texts) = true.
Proof.
  unfold call_text.
  rewrite !nul_free_append, header_text_nul_free, c_str_nul_free.
  destruct (negb (Nat.eqb (List.length texts) 0)
            && flag_set (debug_level e) M4_DEBUG_TRACE_ARGS); [|reflexivity].
  rewrite !nul_free_append. cbn [andb].
  rewrite concat_nul_free; [reflexivity | reflexivity |].
  rewrite forallb_forall. intros x Hx. apply in_map_iff in Hx as (t & <- & _).
  now apply shown_text_nul_free.
Qed.

(** [m4_trace_pre] on a call whose arguments are all texts: it puts the
    header and the name in the buffer and, under the args flag and for a
    call with arguments, the arguments in parentheses, each between the
    quotes, cut to the length limit, and separated by a comma and a blank.
    Under the call flag it adds the placeholder and writes the line;
    without it nothing is written and the text stays pending in the buffer. *)
Theorem trace_pre_text_arguments (name : string) (id : Z) (argv0 : m4_token_data)
  (texts : list string) (st : state) :
  nul_free (trace st) = true ->
  m4_trace_pre e name id (1 + Z.of_nat (List.length texts))
    (argv0 :: map M4_TOKEN_TEXT texts) st
  = if flag_set (debug_level e) M4_DEBUG_TRACE_CALL
    then Ok (set_trace EmptyString
               (M4_DEBUG_PRINT1
                  (trace st ++ call_text e name id texts ++ " -> ???" ++ newline) st))
    else Ok (set_trace (trace st ++ call_text e name id texts) st).
Proof.
  intros Hbuf.
  pose proof (call_text_nul_free name id texts) as Hnf.
  unfold m4_trace_pre, call_text in *.
  rewrite trace_header_text. cbn [bind]. rewrite format_s. cbn [bind].
  rewrite DebugProps.set_trace_set_trace, trace_set_trace.
  replace (1 + Z.of_nat (List.length texts) >? 1)
    with (negb (Nat.eqb (List.length texts) 0))
    by (destruct texts; cbn [List.length Nat.eqb negb];
        [reflexivity | symmetry; apply Z.gtb_lt; lia]).
  replace (Z.to_nat (1 + Z.of_nat (List.length texts) - 1))
    with (List.length texts) by lia.
  destruct (negb (Nat.eqb (List.length texts) 0)
            && flag_set (debug_level e) M4_DEBUG_TRACE_ARGS).
  - rewrite trace_format_literal by reflexivity. cbn [bind].
    rewrite trace_args_texts. cbn [bind].
    rewrite trace_format_literal by reflexivity. cbn [bind].
    rewrite !DebugProps.set_trace_set_trace, !trace_set_trace.
    destruct (flag_set (debug_level e) M4_DEBUG_TRACE_CALL).
    + rewrite trace_format_literal by reflexivity. cbn [bind].
      rewrite DebugProps.set_trace_set_trace, trace_set_trace.
      rewrite flush_line.
      * now rewrite !append_assoc.
      * rewrite !append_assoc. rewrite ?append_assoc in Hnf.
        rewrite nul_free_append, Hbuf. cbn [andb].
        rewrite !nul_free_append in Hnf |- *.
        repeat (apply andb_prop in Hnf as [? Hnf]).
        repeat (apply andb_true_iff; split); auto.
    + now rewrite !append_assoc.
  - cbn [bind]. rewrite append_nil_r.
    destruct (flag_set (debug_level e) M4_DEBUG_TRACE_CALL).
    + rewrite trace_format_literal by reflexivity. cbn [bind].
      rewrite DebugProps.set_trace_set_trace, trace_set_trace.
      rewrite flush_line.
      * now rewrite !append_assoc.
      * rewrite append_nil_r in Hnf.
        rewrite !nul_free_append, Hbuf in *. cbn [andb].
        apply andb_prop in Hnf as [H1 H2]. now rewrite H1, H2.
    + now rewrite !append_assoc.
Qed.

(** The two tracing calls around the expansion of a macro with text
    arguments.  Under the call flag they write two lines, the call with the
    placeholder and then the result; without it they write one line, on which
    the call is followed by the result.  Either way the buffer is empty
    afterwards and the destination is the one the calls started with. *)
Theorem trace_pre_post_lines (name : string) (id : Z) (argv0 : m4_token_data)
  (texts : list string) (expanded : option string) (st : state) :
  nul_free (trace st) = true ->
  exists st',
    (m4_trace_pre e name id (1 + Z.of_nat (List.length texts))
       (argv0 :: map M4_TOKEN_TEXT texts) st
     >>= m4_trace_post e name id (1 + Z.of_nat (List.length texts))
           (argv0 :: map M4_TOKEN_TEXT texts) expanded) = Ok st'
    /\ trace st' = EmptyString
    /\ m4_debug st' = m4_debug st
    /\ written st'
       = (written st
          ++ if flag_set (debug_level e) M4_DEBUG_TRACE_CALL
             then [(m4_debug st,
                    (trace st ++ call_text e name id texts ++ " -> ???" ++ newline)%string);
                   (m4_debug st,
                    (result_text e name id (1 + Z.of_nat (List.length texts)) expanded
                     ++ newline)%string)]
             else [(m4_debug st,
                    (trace st ++ call_text e name id texts
                     ++ result_text e name id (1 + Z.of_nat (List.length texts)) expanded
                     ++ newline)%string)])%list.
Proof.
  intros Hbuf. rewrite (trace_pre_text_arguments name id argv0 texts st Hbuf).
  destruct (flag_set (debug_level e) M4_DEBUG_TRACE_CALL) eqn:Hcall; cbn [bind].
  - rewrite (trace_post_one_line e name id _ _ expanded _ limit_nonneg)
      by reflexivity.
    eexists. split; [reflexivity|].
    cbn [written trace m4_debug set_trace M4_DEBUG_PRINT1 append].
    repeat split. now rewrite <- app_assoc.
  - rewrite (trace_post_one_line e name id _ _ expanded _ limit_nonneg).
    + eexists. split; [reflexivity|].
      cbn [written trace m4_debug set_trace M4_DEBUG_PRINT1].
      repeat split. now rewrite !append_assoc.
    + rewrite trace_set_trace, nul_free_append, Hbuf. apply call_text_nul_free.
Qed.

End TextArguments.

(** A builtin argument is shown as the name of the builtin between angle
    brackets, whatever the quote strings, the quote flag and the length
    limit; when the builtin is not found the call aborts with the internal
    error message. *)
Theorem trace_pre_builtin_argument (e : env) (name : string) (id : Z)
  (argv0 : m4_token_data) (func : nat) (st : state) :
  flag_set (debug_level e) M4_DEBUG_TRACE_ARGS = true ->
  nul_free (trace st) = true ->
  m4_trace_pre e name id 2 [argv0; M4_TOKEN_FUNC func] st
  = match m4_builtin_find_by_func e func with
    | None =>
        Abort "INTERNAL ERROR: Builtin not found in builtin table! (m4_trace_pre ())"
    | Some bp_name =>
        if flag_set (debug_level e) M4_DEBUG_TRACE_CALL
        then Ok (set_trace EmptyString
                   (M4_DEBUG_PRINT1
                      (trace st ++ header_text e id ++ c_str name
                       ++ "(<" ++ c_str bp_name ++ ">)" ++ " -> ???" ++ newline) st))
        else Ok (set_trace
                   (trace st ++ header_text e id ++ c_str name
                    ++ "(<" ++ c_str bp_name ++ ">)") st)
    end.
Proof.
  intros Hargs Hbuf. unfold m4_trace_pre.
  rewrite trace_header_text. cbn [bind]. rewrite format_s. cbn [bind].
  rewrite Hargs. change ((2 >? 1) && true) with true. cbv iota.
  rewrite trace_format_literal by reflexivity. cbn [bind].
  change (Z.to_nat (2 - 1)) with 1%nat. cbn [trace_args]. unfold trace_arg.
  change (negb (1 =? 1)) with false. cbn [bind].
  change (Z.to_nat 1) with 1%nat. cbn [nth_error].
  destruct (m4_builtin_find_by_func e func) as [bp|]; [|reflexivity].
  rewrite format_builtin. cbn [bind].
  rewrite trace_format_literal by reflexivity. cbn [bind].
  rewrite !DebugProps.set_trace_set_trace, !trace_set_trace.
  destruct (flag_set (debug_level e) M4_DEBUG_TRACE_CALL).
  - rewrite trace_format_literal by reflexivity. cbn [bind].
    rewrite DebugProps.set_trace_set_trace, trace_set_trace.
    rewrite flush_line.
    + rewrite !append_assoc. reflexivity.
    + rewrite !nul_free_append, Hbuf, header_text_nul_free, !c_str_nul_free.
      reflexivity.
  - rewrite !append_assoc. reflexivity.
Qed.

End LifecycleMore.

Lemma trace_prepre_one_line_witness :
  nul_free (trace Examples.initial_state) = true
  /\ m4_trace_prepre (flags := Examples.bit_flags) (Examples.env_with 32 0) "foo" 1
       Examples.initial_state
     = Ok (set_trace EmptyString
             (M4_DEBUG_PRINT1
                (trace Examples.initial_state
                 ++ header_text (flags := Examples.bit_flags) (Examples.env_with 32 0) 1
                 ++ c_str "foo" ++ " ..." ++ newline) Examples.initial_state)).
Proof.
  split; [reflexivity|].
  apply (trace_prepre_one_line (flags := Examples.bit_flags)
           (Examples.env_with 32 0) "foo" 1 Examples.initial_state).
  reflexivity.
Defined.

Lemma trace_post_one_line_witness :
  0 <= max_debug_argument_length (Examples.env_with 2 3)
  /\ nul_free (trace Examples.initial_state) = true
  /\ m4_trace_post (flags := Examples.bit_flags) (Examples.env_with 2 3) "foo" 1 2
       [M4_TOKEN_TEXT "foo"; M4_TOKEN_TEXT "x"] (Some "result"%string)
       Examples.initial_state
     = Ok (set_trace EmptyString
             (M4_DEBUG_PRINT1
                (trace Examples.initial_state
                 ++ result_text (flags := Examples.bit_flags) (Examples.env_with 2 3)
                      "foo" 1 2 (Some "result"%string)
                 ++ newline) Examples.initial_state)).
Proof.
  split; [cbn; lia|]. split; [reflexivity|].
  apply (trace_post_one_line (flags := Examples.bit_flags) (Examples.env_with 2 3)
           "foo" 1 2 [M4_TOKEN_TEXT "foo"; M4_TOKEN_TEXT "x"] (Some "result"%string)
           Examples.initial_state).
  - cbn. lia.
  - reflexivity.
Defined.

Lemma trace_pre_text_arguments_witness :
  0 <= max_debug_argument_length (Examples.env_with 5 2)
  /\ nul_free (trace Examples.initial_state) = true
  /\ m4_trace_pre (flags := Examples.bit_flags) (Examples.env_with 5 2) "foo" 1
       (1 + Z.of_nat (List.length ["long"%string; "y"%string]))
       (M4_TOKEN_TEXT "foo" :: map M4_TOKEN_TEXT ["long"%string; "y"%string])
       Examples.initial_state
     = (if flag_set (debug_level (Examples.env_with 5 2))
             (M4_DEBUG_TRACE_CALL (DebugFlags := Examples.bit_flags))
        then Ok (set_trace EmptyString
                   (M4_DEBUG_PRINT1
                      (trace Examples.initial_state
                       ++ call_text (flags := Examples.bit_flags) (Examples.env_with 5 2)
                            "foo" 1 ["long"%string; "y"%string]
                       ++ " -> ???" ++ newline) Examples.initial_state))
        else Ok (set_trace
                   (trace Examples.initial_state
                    ++ call_text (flags := Examples.bit_flags) (Examples.env_with 5 2)
                         "foo" 1 ["long"%string; "y"%string])
                   Examples.initial_state)).
Proof.
  split; [cbn; lia|]. split; [reflexivity|].
  apply (trace_pre_text_arguments (flags := Examples.bit_flags) (Examples.env_with 5 2)).
  - cbn. lia.
  - reflexivity.
Defined.

Lemma trace_pre_post_lines_witness :
  exists st',
    (m4_trace_pre (flags := Examples.bit_flags) (Examples.env_with 131 0) "foo" 1
       (1 + Z.of_nat (List.length ["x"%string]))
       (M4_TOKEN_TEXT "foo" :: map M4_TOKEN_TEXT ["x"%string]) Examples.initial_state
     >>= m4_trace_post (flags := Examples.bit_flags) (Examples.env_with 131 0) "foo" 1
           (1 + Z.of_nat (List.length ["x"%string]))
           (M4_TOKEN_TEXT "foo" :: map M4_TOKEN_TEXT ["x"%string])
           (Some "result"%string)) = Ok st'
    /\ List.length (written st') = 2%nat.
Proof.
  destruct (trace_pre_post_lines (flags := Examples.bit_flags)
              (Examples.env_with 131 0) (Z.le_refl 0) "foo" 1 (M4_TOKEN_TEXT "foo")
              ["x"%string] (Some "result"%string) Examples.initial_state eq_refl)
    as [st' [H [_ [_ Hw]]]].
  exists st'. split; [exact H|]. rewrite Hw. reflexivity.
Defined.

Lemma trace_pre_builtin_argument_witness :
  m4_trace_pre (flags := Examples.bit_flags) (ExamplesMore.env_builtins 1) "foo" 1 2
    [M4_TOKEN_TEXT "foo"; M4_TOKEN_FUNC 0] Examples.initial_state
  = Ok (set_trace
          (trace Examples.initial_state
           ++ header_text (flags := Examples.bit_flags) (ExamplesMore.env_builtins 1) 1
           ++ c_str "foo" ++ "(<" ++ c_str "divert" ++ ">)")
          Examples.initial_state).
Proof.
  apply (trace_pre_builtin_argument (flags := Examples.bit_flags)
           (ExamplesMore.env_builtins 1) "foo" 1 (M4_TOKEN_TEXT "foo") 0%nat
           Examples.initial_state); reflexivity.
Defined.

End DebugMoreProps.

(** ** Further properties of utility.c *)

Module UtilityMoreProps.
Import Utility UtilityMore CStrFacts UtilityProps.

Section Reporting.

(** [m4_error] with a status other than 0, or under fatal warnings, prints
    its message and ends the process with a status that is not 0; the exit
    status kept in the context is not touched on that path. *)
Theorem error_ends_process (status errnum : Z) (format : string)
  (args : list vararg) (w : world) :
  location_assert (context w) = true ->
  status <> 0 \/ m4_get_fatal_warnings_opt (context w) = true ->
  exists w',
    m4_error status errnum format args w
    = Exits (if status =? 0 then EXIT_FAILURE else status) w'
    /\ (if status =? 0 then EXIT_FAILURE else status) <> 0
    /\ context w' = context w
    /\ List.length (diagnostics w') = S (List.length (diagnostics w)).
Proof.
  intros Hloc H. unfold m4_error, verror_at_line, EXIT_SUCCESS.
  rewrite Hloc. cbn [negb].
  destruct (status =? 0) eqn:E.
  - destruct H as [H|H]; [apply Z.eqb_eq in E; contradiction|].
    rewrite H. cbn [andb]. unfold EXIT_FAILURE. cbn [Z.eqb bind].
    eexists. split; [reflexivity|]. split; [discriminate|]. split; [reflexivity|].
    cbn. rewrite length_app. cbn. lia.
  - cbn [andb]. rewrite E. cbn [bind].
    eexists. split; [reflexivity|]. split; [now apply Z.eqb_neq|].
    split; [reflexivity|]. cbn. rewrite length_app. cbn. lia.
Qed.

(** Where the location assertion holds, [m4_warn] and [m4_error] are
    [m4_warn_at_line] and [m4_error_at_line] at the current file and line. *)
Theorem current_location_variants (status errnum : Z) (format : string)
  (args : list vararg) (w : world) :
  location_assert (context w) = true ->
  m4_warn errnum format args w
  = m4_warn_at_line errnum (m4_get_current_file (context w))
      (m4_get_current_line (context w)) format args w
  /\ m4_error status errnum format args w
     = m4_error_at_line status errnum (m4_get_current_file (context w))
         (m4_get_current_line (context w)) format args w.
Proof.
  intros Hloc. unfold m4_warn, m4_warn_at_line, m4_error, m4_error_at_line.
  rewrite Hloc. split; reflexivity.
Qed.

Lemma located_printed (d : diagnostic) (w : world) :
  forallb located (diagnostics w) = true -> located d = true ->
  forallb located (diagnostics (print_diagnostic d w)) = true.
Proof.
  intros Hw Hd. cbn. rewrite forallb_app, Hw. cbn. now rewrite Hd.
Qed.

Lemma located_message (status errnum line : Z) (file : option string)
  (format : string) (args : list vararg) :
  located {| diag_status := status; diag_errnum := errnum;
             diag_file := if negb (line =? 0) then file else None;
             diag_line := line; diag_format := format; diag_args := args |} = true.
Proof. unfold located. cbn. now destruct (line =? 0). Qed.

Lemma verror_located (status errnum line : Z) (file : option string)
  (format : string) (args : list vararg) (w w' : world) :
  forallb located (diagnostics w) = true ->
  final_world (verror_at_line status errnum (if negb (line =? 0) then file else None)
                 line format args w) = Some w' ->
  forallb located (diagnostics w') = true /\ context w' = context w.
Proof.
  intros Hw. unfold verror_at_line.
  destruct (status =? 0); cbn [final_world]; intros H; injection H as <-;
    (split; [apply located_printed; [exact Hw | apply located_message]
            | reflexivity]).
Qed.

(** No reporting function prints a file name with line 0: if every message
    printed so far with line 0 carries no file, so does every message
    afterwards, however the call ends. *)
Theorem reports_keep_location_rule (status errnum line : Z) (file : option string)
  (format : string) (args : list vararg) (w w' : world) :
  forallb located (diagnostics w) = true ->
  (final_world (m4_warn errnum format args w) = Some w' ->
   forallb located (diagnostics w') = true)
  /\ (final_world (m4_warn_at_line errnum file line format args w) = Some w' ->
      forallb located (diagnostics w') = true)
  /\ (final_world (m4_error status errnum format args w) = Some w' ->
      forallb located (diagnostics w') = true)
  /\ (final_world (m4_error_at_line status errnum file line format args w) = Some w' ->
      forallb located (diagnostics w') = true).
Proof.
  intros Hw. repeat split.
  - unfold m4_warn.
    destruct (m4_get_suppress_warnings_opt (context w)); cbn [negb].
    + cbn [final_world]. intros H. now injection H as <-.
    + destruct (location_assert (context w)); cbn [negb final_world].
      * intros H. now apply (verror_located _ _ _ _ _ _ _ _ Hw) in H as [H _].
      * intros H. now injection H as <-.
  - unfold m4_warn_at_line.
    destruct (m4_get_suppress_warnings_opt (context w)); cbn [negb].
    + cbn [final_world]. intros H. now injection H as <-.
    + intros H. now apply (verror_located _ _ _ _ _ _ _ _ Hw) in H as [H _].
  - unfold m4_error.
    destruct (location_assert (context w)); cbn [negb].
    + unfold verror_at_line.
      destruct (_ =? 0); cbn [bind final_world]; intros H; injection H as <-;
        apply located_printed; try exact Hw; apply located_message.
    + cbn [final_world]. intros H. now injection H as <-.
  - unfold m4_error_at_line, verror_at_line.
    destruct (_ =? 0); cbn [bind final_world]; intros H; injection H as <-;
      apply located_printed; try exact Hw; apply located_message.
Qed.

(** Once the exit status is failure it stays failure: no reporting
    function resets it, however the call ends. *)
Theorem exit_status_sticky (status errnum line : Z) (file : option string)
  (format : string) (args : list vararg) (w w' : world) :
  m4_get_exit_status (context w) = EXIT_FAILURE ->
  (final_world (m4_warn errnum format args w) = Some w' ->
   m4_get_exit_status (context w') = EXIT_FAILURE)
  /\ (final_world (m4_warn_at_line errnum file line format args w) = Some w' ->
      m4_get_exit_status (context w') = EXIT_FAILURE)
  /\ (final_world (m4_error status errnum format args w) = Some w' ->
      m4_get_exit_status (context w') = EXIT_FAILURE)
  /\ (final_world (m4_error_at_line status errnum file line format args w) = Some w' ->
      m4_get_exit_status (context w') = EXIT_FAILURE).
Proof.
  intros Hw. repeat split.
  - unfold m4_warn, verror_at_line.
    destruct (m4_get_suppress_warnings_opt (context w)); cbn [negb].
    + cbn [final_world]. intros H. now injection H as <-.
    + destruct (location_assert (context w)); cbn [negb].
      * destruct (_ =? 0); cbn [final_world]; intros H; now injection H as <-.
      * cbn [final_world]. intros H. now injection H as <-.
  - unfold m4_warn_at_line, verror_at_line.
    destruct (m4_get_suppress_warnings_opt (context w)); cbn [negb].
    + cbn [final_world]. intros H. now injection H as <-.
    + destruct (_ =? 0); cbn [final_world]; intros H; now injection H as <-.
  - unfold m4_error, verror_at_line.
    destruct (location_assert (context w)); cbn [negb].
    + destruct (_ =? 0); cbn [bind final_world]; intros H; now injection H as <-.
    + cbn [final_world]. intros H. now injection H as <-.
  - unfold m4_error_at_line, verror_at_line.
    destruct (_ =? 0); cbn [bind final_world]; intros H; now injection H as <-.
Qed.

End Reporting.

Lemma error_ends_process_witness :
  exists w',
    m4_error 2 0 "fatal" [] (Examples.world_with false false) = Exits 2 w'
    /\ 2 <> 0
    /\ context w' = context (Examples.world_with false false)
    /\ List.length (diagnostics w') = 1%nat.
Proof.
  apply (error_ends_process 2 0 "fatal" [] (Examples.world_with false false)).
  - reflexivity.
  - left. discriminate.
Defined.

Lemma current_location_variants_witness :
  m4_warn 0 "late" [] (Examples.world_with false false)
  = m4_warn_at_line 0 (Some "input.m4"%string) 3 "late" []
      (Examples.world_with false false).
Proof.
  exact (proj1 (current_location_variants 0 0 "late" []
                  (Examples.world_with false false) eq_refl)).
Defined.

Lemma reports_keep_location_rule_witness :
  forallb located
    (diagnostics
       (print_diagnostic
          {| diag_status := 0; diag_errnum := 0; diag_file := None; diag_line := 0;
             diag_format := "Warning: odd"; diag_args := [] |}
          (Examples.world_with false false))) = true.
Proof.
  apply (proj1 (proj2 (reports_keep_location_rule 0 0 0 (Some "input.m4"%string)
                         "odd" [] (Examples.world_with false false) _ eq_refl))).
  reflexivity.
Defined.

Lemma exit_status_sticky_witness :
  m4_get_exit_status
    (context
       (print_diagnostic
          (warning (context (m4_set_exit_status EXIT_FAILURE
                               (Examples.world_with false false))) 0 "late" [])
          (m4_set_exit_status EXIT_FAILURE (Examples.world_with false false))))
  = EXIT_FAILURE.
Proof.
  apply (proj1 (exit_status_sticky 0 0 0 None "late" []
                  (m4_set_exit_status EXIT_FAILURE (Examples.world_with false false))
                  _ eq_refl)).
  reflexivity.
Defined.

Section Validation.
Context {ext : Externals}.

Lemma final_world_bind_returns {A : Type} (o : outcome unit) (b : A) :
  final_world (_ <- o ;; fun w => Returns b w) = final_world o.
Proof. now destruct o. Qed.

(** However a warning ends, it leaves the context and the stored integer
    as they were and prints at most one message. *)
Lemma warn_outcome (errnum : Z) (format : string) (args : list vararg)
  (w w' : world) :
  final_world (m4_warn errnum format args w) = Some w' ->
  context w' = context w /\ valuep w' = valuep w
  /\ exists ds, diagnostics w' = (diagnostics w ++ ds)%list
                /\ (List.length ds <= 1)%nat.
Proof.
  unfold m4_warn, verror_at_line.
  destruct (m4_get_suppress_warnings_opt (context w)); cbn [negb].
  - cbn [final_world]. intros H. injection H as <-.
    split; [reflexivity|]. split; [reflexivity|].
    exists []. rewrite app_nil_r. split; [reflexivity | cbn; lia].
  - destruct (location_assert (context w)); cbn [negb].
    + destruct (_ =? 0); cbn [final_world]; intros H; injection H as <-;
        (split; [reflexivity|]; split; [reflexivity|];
         eexists [_]; split; [reflexivity | cbn; lia]).
    + cbn [final_world]. intros H. injection H as <-.
      split; [reflexivity|]. split; [reflexivity|].
      exists []. rewrite app_nil_r. split; [reflexivity | cbn; lia].
Qed.

(** The two argument checks never touch the context: whatever the argument
    count or text and however the call ends, the exit status and the options
    are as before, and at most one message has been printed.  A bad argument
    by itself never makes m4 exit with a failure status later. *)
Theorem validation_keeps_context (argc : Z) (argv : list m4_symbol_value)
  (min max arg : Z) (side_effect : bool) (w w' : world) :
  (final_world (m4_bad_argc argc argv min max side_effect w) = Some w' ->
   context w' = context w /\ valuep w' = valuep w
   /\ exists ds, diagnostics w' = (diagnostics w ++ ds)%list
                 /\ (List.length ds <= 1)%nat)
  /\ (final_world (m4_numeric_arg argc argv arg w) = Some w' ->
      context w' = context w
      /\ exists ds, diagnostics w' = (diagnostics w ++ ds)%list
                    /\ (List.length ds <= 1)%nat).
Proof.
  assert (Hnone : forall v : world,
            exists ds, diagnostics v = (diagnostics v ++ ds)%list
                       /\ (List.length ds <= 1)%nat).
  { intros v. exists []. rewrite app_nil_r. split; [reflexivity | cbn; lia]. }
  split.
  - unfold m4_bad_argc. destruct (_ <? min).
    + rewrite final_world_bind_returns. apply warn_outcome.
    + rewrite final_world_bind_returns. destruct (_ >? max).
      * apply warn_outcome.
      * cbn [final_world]. intros H. injection H as <-.
        split; [reflexivity|]. split; [reflexivity|]. apply Hnone.
  - unfold m4_numeric_arg. destruct (starts_nul (M4ARG argc argv arg)).
    + rewrite final_world_bind_returns. intros H.
      apply warn_outcome in H as (Hc & _ & Hd). split; assumption.
    + destruct (skip_space (context w) (M4ARG argc argv arg)) as [nptr|];
        [|discriminate].
      destruct (strtol nptr) as [v endp]. cbn [context store_valuep].
      destruct (skip_space (context w) endp) as [tail|]; [|discriminate].
      destruct (negb (starts_nul tail)).
      * rewrite final_world_bind_returns. intros H.
        apply warn_outcome in H as (Hc & _ & Hd). split; assumption.
      * cbn [final_world]. intros H. injection H as <-.
        split; [reflexivity|]. apply (Hnone (store_valuep (to_int v) w)).
Qed.

(** The result of [m4_bad_argc] does not depend on the warning options.
    A count within the bounds returns false and prints nothing, also when
    warnings are fatal; with [UINT_MAX] as the maximum there is no upper
    bound; and whenever the call returns, it returns true exactly when there
    are too few arguments and the macro has no side effect. *)
Theorem bad_argc_any_options (argc : Z) (argv : list m4_symbol_value) (min max : Z)
  (side_effect : bool) (w : world) :
  1 <= argc <= INT_MAX ->
  (min <= argc - 1 <= max ->
   m4_bad_argc argc argv min max side_effect w = Returns false w)
  /\ (min <= argc - 1 ->
      m4_bad_argc argc argv min UINT_MAX side_effect w = Returns false w)
  /\ (forall b w',
        m4_bad_argc argc argv min max side_effect w = Returns b w' ->
        b = (argc - 1 <? min) && negb side_effect).
Proof.
  intros Hargc.
  assert (Hin : forall m, min <= argc - 1 <= m ->
            m4_bad_argc argc argv min m side_effect w = Returns false w).
  { intros m [Hlo Hhi]. unfold m4_bad_argc. rewrite argc_minus_1_unsigned by exact Hargc.
    replace (argc - 1 <? min) with false by (symmetry; apply Z.ltb_ge; lia).
    replace (argc - 1 >? m) with false
      by (symmetry; rewrite Z.gtb_ltb; apply Z.ltb_ge; lia).
    reflexivity. }
  split; [exact (Hin max)|]. split.
  - intros Hlo. apply Hin. unfold UINT_MAX, INT_MAX in *. lia.
  - intros b w'. unfold m4_bad_argc. rewrite argc_minus_1_unsigned by exact Hargc.
    destruct (argc - 1 <? min).
    + destruct (m4_warn _ _ _ w); cbn [bind]; intros H; try discriminate H.
      now injection H as <- _.
    + destruct (argc - 1 >? max).
      * destruct (m4_warn _ _ _ w); cbn [bind]; intros H; try discriminate H.
        now injection H as <- _.
      * cbn [bind]. intros H. now injection H as <- _.
Qed.

(** Under fatal warnings that are not suppressed, a call of [m4_bad_argc]
    with a count out of bounds does not return: it prints its message and
    ends the process with the failure status. *)
Theorem bad_argc_fatal_never_returns (argc : Z) (argv : list m4_symbol_value)
  (min max : Z) (side_effect : bool) (w : world) :
  m4_get_suppress_warnings_opt (context w) = false ->
  m4_get_fatal_warnings_opt (context w) = true ->
  location_assert (context w) = true ->
  1 <= argc <= INT_MAX ->
  argc - 1 < min \/ max < argc - 1 ->
  exists w',
    m4_bad_argc argc argv min max side_effect w = Exits EXIT_FAILURE w'
    /\ context w' = context w
    /\ List.length (diagnostics w') = S (List.length (diagnostics w)).
Proof.
  intros Hs Hf Hloc Hargc Hbad. unfold m4_bad_argc.
  rewrite argc_minus_1_unsigned by exact Hargc.
  destruct (argc - 1 <? min) eqn:Hmin.
  - rewrite (warn_fatal _ _ _ w Hs Hf Hloc). cbn [bind].
    eexists. split; [reflexivity|]. split; [reflexivity|].
    cbn. rewrite length_app. cbn. lia.
  - apply Z.ltb_ge in Hmin.
    replace (argc - 1 >? max) with true
      by (symmetry; rewrite Z.gtb_ltb; apply Z.ltb_lt; lia).
    rewrite (warn_fatal _ _ _ w Hs Hf Hloc). cbn [bind].
    eexists. split; [reflexivity|]. split; [reflexivity|].
    cbn. rewrite length_app. cbn. lia.
Qed.

(** [skip_space] on a syntax table that does not class NUL as a space
    returns: its result is the argument without a prefix of spaces, does not
    start with a space, and skipping again changes nothing.  The scan runs
    beyond the terminator exactly when the table classes NUL as a space and
    every byte in front of the terminator is a space. *)
Theorem skip_space_result (c : m4) (arg : string) :
  (m4_has_syntax_space c NUL = false ->
   exists ws rest,
     skip_space c arg = Some rest
     /\ arg = (ws ++ rest)%string
     /\ all_chars (m4_has_syntax_space c) ws = true
     /\ starts_with (m4_has_syntax_space c) rest = false
     /\ skip_space c rest = Some rest)
  /\ (skip_space c arg = None
      <-> m4_has_syntax_space c NUL = true
          /\ all_chars (m4_has_syntax_space c) (c_str arg) = true).
Proof.
  split.
  - intros Hnul. induction arg as [|ch r IH].
    + exists EmptyString, EmptyString. cbn. rewrite Hnul. auto.
    + cbn [skip_space]. destruct (is_nul ch) eqn:Hch.
      * rewrite Hnul. exists EmptyString, (String ch r).
        assert (Hstart : starts_with (m4_has_syntax_space c) (String ch r) = false).
        { cbn. apply is_nul_eq in Hch. now subst ch. }
        repeat split; try assumption; try reflexivity.
        now apply skip_space_stop.
      * destruct (m4_has_syntax_space c ch) eqn:Hsp.
        -- destruct IH as (ws & rest & H1 & H2 & H3 & H4 & H5).
           exists (String ch ws), rest. repeat split; try assumption.
           ++ cbn. now rewrite H2.
           ++ unfold all_chars in *. cbn [chars forallb]. now rewrite Hsp.
        -- exists EmptyString, (String ch r).
           repeat split; try assumption; try reflexivity.
           now apply skip_space_stop.
  - induction arg as [|ch r IH].
    + cbn. destruct (m4_has_syntax_space c NUL); split; try tauto; try discriminate.
      intros [H _]. discriminate.
    + cbn [skip_space c_str]. destruct (is_nul ch) eqn:Hch.
      * destruct (m4_has_syntax_space c NUL); split; try discriminate; auto.
        intros [H _]. discriminate.
      * destruct (m4_has_syntax_space c ch) eqn:Hsp.
        -- rewrite IH. unfold all_chars. cbn [chars forallb]. rewrite Hsp.
           reflexivity.
        -- split; [discriminate|]. unfold all_chars. cbn [chars forallb].
           rewrite Hsp. intros [_ H]. discriminate.
Qed.

Lemma to_int_range (v : Z) : INT_MIN <= to_int v <= INT_MAX.
Proof.
  unfold to_int, INT_MIN, INT_MAX, UINT_MAX.
  pose proof (Z.mod_pos_bound (v - -2147483648) (4294967295 + 1)). lia.
Qed.

Section Parsed.
Variables (argc : Z) (argv : list m4_symbol_value) (arg : Z) (w : world).
Hypothesis nul_no_space : m4_has_syntax_space (context w) NUL = false.

(** The successful path of [m4_numeric_arg]. *)
Lemma numeric_arg_parsed (nptr : string) (v : Z) (ws2 : string) :
  starts_nul (M4ARG argc argv arg) = false ->
  skip_space (context w) (M4ARG argc argv arg) = Some nptr ->
  strtol nptr = (v, ws2) ->
  all_chars (m4_has_syntax_space (context w)) ws2 = true ->
  m4_numeric_arg argc argv arg w = Returns true (store_valuep (to_int v) w).
Proof.
  intros H1 H2 H3 Hws. unfold m4_numeric_arg. rewrite H1, H2, H3.
  cbn [context store_valuep].
  rewrite (skip_space_all _ nul_no_space _ Hws). reflexivity.
Qed.

Lemma spaces_then_text (ws1 s : string) :
  all_chars (m4_has_syntax_space (context w)) ws1 = true ->
  starts_nul s = false ->
  starts_with (m4_has_syntax_space (context w)) s = false ->
  starts_nul (ws1 ++ s) = false
  /\ skip_space (context w) (ws1 ++ s) = Some s.
Proof.
  intros Hws Hs Hstart. split.
  - destruct ws1 as [|ch ws1]; [exact Hs|].
    unfold all_chars in Hws. cbn [chars forallb] in Hws.
    apply andb_prop in Hws as [Hch _]. cbn [append starts_nul].
    destruct (is_nul ch) eqn:E; [|reflexivity].
    apply is_nul_eq in E. subst ch. congruence.
  - rewrite (skip_space_spaces _ nul_no_space _ _ Hws).
    now apply skip_space_stop.
Qed.

(** An argument that is not empty and holds only spaces is read as 0
    without any warning, whatever the warning options: only the empty
    string is warned about. *)
Theorem numeric_arg_blank (ws : string) :
  M4ARG argc argv arg = ws ->
  ws <> EmptyString ->
  all_chars (m4_has_syntax_space (context w)) ws = true ->
  m4_numeric_arg argc argv arg w = Returns true (store_valuep 0 w).
Proof.
  intros Htext Hne Hws.
  apply (numeric_arg_parsed EmptyString 0 EmptyString).
  - rewrite Htext. destruct ws as [|ch r]; [congruence|].
    unfold all_chars in Hws. cbn [chars forallb] in Hws.
    apply andb_prop in Hws as [Hch _]. cbn [starts_nul].
    destruct (is_nul ch) eqn:E; [|reflexivity].
    apply is_nul_eq in E. subst ch. congruence.
  - rewrite Htext. now apply skip_space_all.
  - reflexivity.
  - reflexivity.
Qed.

Hypothesis digit_no_space :
  forall ch, isdigit ch = true -> m4_has_syntax_space (context w) ch = false.

Lemma digits_start (digits rest : string) :
  digits <> EmptyString -> all_chars isdigit digits = true ->
  starts_nul (digits ++ rest) = false
  /\ starts_with (m4_has_syntax_space (context w)) (digits ++ rest) = false.
Proof.
  intros Hne Hd. destruct digits as [|d ds]; [congruence|].
  unfold all_chars in Hd. cbn [chars forallb] in Hd.
  apply andb_prop in Hd as [Hd _]. cbn [append starts_nul starts_with].
  split; [now destruct (isdigit_facts d Hd) | now apply digit_no_space].
Qed.

(** A number that does not fit an [int] is accepted without any warning,
    whatever the warning options: the call returns true, and the integer it
    stores is the value clamped to [long] and then reduced into the range of
    [int], which is not the number that was written. *)
Theorem numeric_arg_out_of_range (ws1 digits ws2 : string) :
  M4ARG argc argv arg = (ws1 ++ digits ++ ws2)%string ->
  all_chars (m4_has_syntax_space (context w)) ws1 = true ->
  all_chars (m4_has_syntax_space (context w)) ws2 = true ->
  digits <> EmptyString -> all_chars isdigit digits = true ->
  INT_MAX < decimal_value digits ->
  exists w',
    m4_numeric_arg argc argv arg w = Returns true w'
    /\ diagnostics w' = diagnostics w
    /\ context w' = context w
    /\ valuep w' = to_int (clamp_long (decimal_value digits))
    /\ INT_MIN <= valuep w' <= INT_MAX
    /\ valuep w' <> decimal_value digits.
Proof.
  intros Htext Hws1 Hws2 Hne Hd Hbig.
  destruct (digits_start digits ws2 Hne Hd) as [Hn Hstart].
  destruct (spaces_then_text ws1 (digits ++ ws2) Hws1 Hn Hstart) as [Hn' Hskip].
  exists (store_valuep (to_int (clamp_long (decimal_value digits))) w).
  split.
  - apply (numeric_arg_parsed (digits ++ ws2) _ ws2).
    + now rewrite Htext.
    + now rewrite Htext.
    + apply (strtol_number digits ws2 Hne Hd).
      now apply (spaces_not_digit_start (context w)).
    + exact Hws2.
  - cbn [store_valuep diagnostics context valuep].
    pose proof (to_int_range (clamp_long (decimal_value digits))) as Hr.
    repeat split; try reflexivity; try apply Hr. lia.
Qed.

Lemma strtol_signed (negative : bool) (digits rest : string) :
  digits <> EmptyString -> all_chars isdigit digits = true ->
  starts_with isdigit rest = false ->
  strtol (String (if negative then "-" else "+")%char (digits ++ rest))
  = (clamp_long (if negative then - decimal_value digits else decimal_value digits),
     rest).
Proof.
  intros Hne Hd Hrest. destruct digits as [|d ds]; [congruence|].
  assert (Hd0 : isdigit d = true).
  { unfold all_chars in Hd. cbn [chars forallb] in Hd.
    now apply andb_prop in Hd as [Hd _]. }
  unfold strtol.
  destruct negative.
  - change (skip_isspace (String "-" (String d ds ++ rest)))
      with (String "-"%char (String d ds ++ rest)).
    cbv iota beta. cbn [append]. rewrite Hd0.
    change (String d (ds ++ rest)) with (String d ds ++ rest)%string.
    now rewrite (strtol_digits_append _ _ Hd Hrest).
  - change (skip_isspace (String "+" (String d ds ++ rest)))
      with (String "+"%char (String d ds ++ rest)).
    cbv iota beta. cbn [append]. rewrite Hd0.
    change (String d (ds ++ rest)) with (String d ds ++ rest)%string.
    now rewrite (strtol_digits_append _ _ Hd Hrest).
Qed.

(** A sign in front of the digits is understood: with a minus sign the
    stored integer is the negated number, with a plus sign the number, as
    long as it fits an [int]; the smallest [int] can be written.  Nothing is
    printed. *)
Theorem numeric_arg_signed (negative : bool) (ws1 digits ws2 : string) :
  m4_has_syntax_space (context w) (if negative then "-" else "+")%char = false ->
  INT_MAX <= LONG_MAX ->
  M4ARG argc argv arg
  = (ws1 ++ String (if negative then "-" else "+")%char (digits ++ ws2))%string ->
  all_chars (m4_has_syntax_space (context w)) ws1 = true ->
  all_chars (m4_has_syntax_space (context w)) ws2 = true ->
  digits <> EmptyString -> all_chars isdigit digits = true ->
  (if negative then decimal_value digits <= INT_MAX + 1
   else decimal_value digits <= INT_MAX) ->
  m4_numeric_arg argc argv arg w
  = Returns true
      (store_valuep (if negative then - decimal_value digits else decimal_value digits)
         w).
Proof.
  intros Hsign Hlong Htext Hws1 Hws2 Hne Hd Hfit.
  assert (Hn : starts_nul (String (if negative then "-" else "+")%char
                             (digits ++ ws2)) = false)
    by now destruct negative.
  destruct (spaces_then_text ws1 _ Hws1 Hn Hsign) as [Hn' Hskip].
  pose proof (decimal_value_nonneg digits Hd) as Hpos.
  replace (if negative then - decimal_value digits else decimal_value digits)
    with (to_int (clamp_long
                    (if negative then - decimal_value digits
                     else decimal_value digits))) at 1.
  - apply (numeric_arg_parsed
             (String (if negative then "-" else "+")%char (digits ++ ws2)) _ ws2).
    + now rewrite Htext.
    + now rewrite Htext.
    + apply (strtol_signed negative digits ws2 Hne Hd).
      now apply (spaces_not_digit_start (context w)).
    + exact Hws2.
  - unfold to_int, clamp_long, LONG_MIN, INT_MAX, INT_MIN, UINT_MAX in *.
    destruct negative.
    + rewrite Z.min_r by lia. rewrite Z.max_r by lia.
      rewrite Z.mod_small by lia. lia.
    + rewrite Z.min_r by lia. rewrite Z.max_r by lia.
      rewrite Z.mod_small by lia. lia.
Qed.

End Parsed.

End Validation.

Section DumpArgs.
Context {ext : Externals} {ship : Shipout}.

Lemma concat_nil_sep_cons (x : string) (xs : list string) :
  String.concat EmptyString (x :: xs) = (x ++ String.concat EmptyString xs)%string.
Proof. destruct xs; simpl; [now rewrite append_nil_r | reflexivity]. Qed.

Lemma concat_with_separator {A : Type} (sep : string) (f : A -> string) (t : A)
  (r : list A) :
  (f t ++ String.concat EmptyString (map (fun x => sep ++ f x) r))%string
  = String.concat sep (map f (t :: r)).
Proof.
  revert t. induction r as [|u r IH]; intros t.
  - simpl. now rewrite append_nil_r.
  - cbn [map]. rewrite concat_nil_sep_cons.
    change (String.concat sep (f t :: f u :: map f r))
      with (f t ++ sep ++ String.concat sep (map f (u :: r)))%string.
    rewrite <- IH. now rewrite !append_assoc.
Qed.

Section Appending.
Variables (c : m4) (argc : Z) (argv : list m4_symbol_value) (sep : string)
  (quoted : bool) (shipped : string -> string).
Hypothesis shipout_appends :
  forall obs text, m4_shipout_string c obs text 0 quoted = (obs ++ shipped text)%string.

Lemma dump_args_rest (n k : nat) (obs : string) :
  (2 <= k)%nat ->
  dump_args_loop c argc argv sep quoted n (Z.of_nat k) obs
  = (obs ++ String.concat EmptyString
              (map (fun j => c_str sep ++ shipped (M4ARG argc argv (Z.of_nat j)))
                 (seq k n)))%string.
Proof.
  revert k obs. induction n as [|n IH]; intros k obs Hk.
  - cbn. now rewrite append_nil_r.
  - cbn [dump_args_loop seq map].
    replace (Z.of_nat k >? 1) with true by (symmetry; apply Z.gtb_lt; lia).
    rewrite take_strlen, shipout_appends.
    replace (Z.of_nat k + 1) with (Z.of_nat (S k)) by lia.
    rewrite IH by lia. rewrite concat_nil_sep_cons.
    now rewrite !append_assoc.
Qed.

(** [m4_dump_args], for a shipout that appends to the object: the object
    grows by the shipped arguments 1 to [argc - 1] in order, with the
    separator, read up to its terminator, between each two of them and
    neither in front of the first nor behind the last.  Argument 0, the name
    of the macro, is not printed, and a call without arguments leaves the
    object as it is. *)
Theorem dump_args_joined (obs : string) :
  m4_dump_args c obs argc argv sep quoted
  = (obs ++ String.concat (c_str sep)
              (map (fun j => shipped (M4ARG argc argv (Z.of_nat j)))
                 (seq 1 (Z.to_nat (argc - 1)))))%string.
Proof.
  unfold m4_dump_args. destruct (Z.to_nat (argc - 1)) as [|n].
  - cbn. now rewrite append_nil_r.
  - cbn [dump_args_loop seq]. change (1 >? 1) with false. cbv iota.
    rewrite shipout_appends. change (1 + 1) with (Z.of_nat 2).
    rewrite dump_args_rest by lia.
    rewrite append_assoc. f_equal.
    exact (concat_with_separator (c_str sep)
             (fun j => shipped (M4ARG argc argv (Z.of_nat j))) 1%nat (seq 2 n)).
Qed.

End Appending.

End DumpArgs.

Lemma validation_keeps_context_witness :
  context
    (print_diagnostic
       (warning (Examples.context_with false false) 0
          "%s: non-numeric argument `%s'" [va_string "incr"; va_string "42x"])
       (store_valuep 42 (Examples.world_with false false)))
  = context (Examples.world_with false false).
Proof.
  apply (proj2 (validation_keeps_context (ext := Examples.text_args) 2
                  ["incr"; "42x"]%string 0 0 1 false
                  (Examples.world_with false false) _)).
  reflexivity.
Defined.

Lemma bad_argc_any_options_witness :
  m4_bad_argc (ext := Examples.text_args) 3 ["foo"; "x"; "y"]%string 1 UINT_MAX true
    (Examples.world_with false true)
  = Returns false (Examples.world_with false true).
Proof.
  refine (proj1 (proj2 (bad_argc_any_options (ext := Examples.text_args) 3
                          ["foo"; "x"; "y"]%string 1 0 true
                          (Examples.world_with false true) _)) _).
  - unfold INT_MAX. lia.
  - lia.
Defined.

Lemma bad_argc_fatal_never_returns_witness :
  exists w',
    m4_bad_argc (ext := Examples.text_args) 3 ["foo"; "x"; "y"]%string 0 1 false
      (Examples.world_with false true) = Exits EXIT_FAILURE w'
    /\ context w' = context (Examples.world_with false true)
    /\ List.length (diagnostics w') = 1%nat.
Proof.
  refine (bad_argc_fatal_never_returns (ext := Examples.text_args) 3
            ["foo"; "x"; "y"]%string 0 1 false (Examples.world_with false true)
            _ _ _ _ _).
  - reflexivity.
  - reflexivity.
  - reflexivity.
  - unfold INT_MAX. lia.
  - right. lia.
Defined.

Lemma skip_space_result_witness :
  exists ws rest,
    skip_space (Examples.context_with false false) "  42 " = Some rest
    /\ "  42 "%string = (ws ++ rest)%string
    /\ all_chars (m4_has_syntax_space (Examples.context_with false false)) ws = true
    /\ starts_with (m4_has_syntax_space (Examples.context_with false false)) rest
       = false
    /\ skip_space (Examples.context_with false false) rest = Some rest.
Proof.
  apply (proj1 (skip_space_result (Examples.context_with false false) "  42 ")).
  reflexivity.
Defined.

Lemma numeric_arg_blank_witness :
  m4_numeric_arg (ext := Examples.text_args) 2 ["incr"; "  "]%string 1
    (Examples.world_with false true)
  = Returns true (store_valuep 0 (Examples.world_with false true)).
Proof.
  apply (numeric_arg_blank (ext := Examples.text_args) 2 ["incr"; "  "]%string 1
           (Examples.world_with false true) eq_refl "  "%string).
  - reflexivity.
  - discriminate.
  - reflexivity.
Defined.

Lemma numeric_arg_out_of_range_witness :
  exists w',
    m4_numeric_arg (ext := Examples.text_args) 2 ["incr"; "4294967297"]%string 1
      (Examples.world_with false false) = Returns true w'
    /\ diagnostics w' = []
    /\ valuep w' = 1.
Proof.
  assert (Hdigit : forall ch, isdigit ch = true ->
            m4_has_syntax_space (context (Examples.world_with false false)) ch = false).
  { intros ch H. destruct ch as [[] [] [] [] [] [] [] []];
      try discriminate H; reflexivity. }
  assert (Hne : "4294967297"%string <> EmptyString) by discriminate.
  assert (Hbig : INT_MAX < decimal_value "4294967297") by (vm_compute; reflexivity).
  destruct (numeric_arg_out_of_range (ext := Examples.text_args) 2
              ["incr"; "4294967297"]%string 1 (Examples.world_with false false)
              eq_refl Hdigit EmptyString "4294967297"%string EmptyString
              eq_refl eq_refl eq_refl Hne eq_refl Hbig)
    as (w' & H1 & H2 & _ & H4 & _).
  exists w'. split; [exact H1|]. split; [exact H2|]. rewrite H4. reflexivity.
Defined.

Lemma numeric_arg_signed_witness :
  m4_numeric_arg (ext := Examples.text_args) 2 ["incr"; " -2147483648"]%string 1
    (Examples.world_with false false)
  = Returns true (store_valuep (-2147483648) (Examples.world_with false false)).
Proof.
  refine (numeric_arg_signed (ext := Examples.text_args) 2
            ["incr"; " -2147483648"]%string 1 (Examples.world_with false false)
            _ _ true " "%string "2147483648"%string EmptyString _ _ _ _ _ _ _ _).
  - reflexivity.
  - intros ch H. destruct ch as [[] [] [] [] [] [] [] []];
      try discriminate H; reflexivity.
  - reflexivity.
  - vm_compute. discriminate.
  - reflexivity.
  - reflexivity.
  - reflexivity.
  - discriminate.
  - reflexivity.
  - vm_compute. discriminate.
Defined.

Lemma dump_args_joined_witness :
  m4_dump_args (ext := Examples.text_args) (ship := ExamplesMore.quoting_shipout)
    (Examples.context_with false false) "seen: " 3 ["foo"; "x"; "y"]%string ", " true
  = "seen: `x', `y'"%string.
Proof.
  apply (dump_args_joined (ext := Examples.text_args)
           (ship := ExamplesMore.quoting_shipout)
           (Examples.context_with false false) 3 ["foo"; "x"; "y"]%string ", " true
           (fun text => "`" ++ c_str text ++ "'")%string).
  intros obs text. reflexivity.
Defined.

End UtilityMoreProps.
